(** * A shallow embedding of [performance_test_large1.js]

    The source file holds two programs: a JavaScript data-access layer
    (lines 1-493: [DatabaseManager], [UserService], [AuthenticationService],
    [ProductService], [OrderService], [PaymentService]) and a Java one
    (lines 494-1046: [DatabaseManager], [UserService], ...).  Module [JS]
    embeds the first, module [Java] the second; modules [JSRest] and
    [JavaRest] embed the methods of the two programs that these leave
    out.

    Conventions of the embedding:
    - a JavaScript value is a [JSValue]; numbers are restricted to integers
      ([Z]), strings to sequences of 8-bit code units; [NaN], the
      infinities, the negative zero, fractions, arrays and objects are no
      values of the model, and a property that rests on the printing or
      the arithmetic of numbers is stated for the integers of at most 2^53
      in absolute value, which the doubles hold exactly;
    - a plain object (a row, [userData], [filters]) is a finite map from
      property names to values, an absent property reads as [undefined];
    - a [Map] whose iteration order the code relies on ([queryCache]) is an
      association list in insertion order; the other [Map]s are [gmap]s;
    - [async] methods are run to completion one after the other: a method is
      a function from the program state to an outcome (a value or a thrown
      exception) and a new state;
    - [console.log] and friends are not modelled. *)

From Stdlib Require Import ZArith String Ascii List Bool Lia DecimalString.
From Stdlib Require Import DecimalZ DecimalPos.
From stdpp Require Import base option gmap strings list.

Local Open Scope Z_scope.
Local Open Scope string_scope.

(** ** Outcomes and the state-and-exception monad *)

Inductive Exn : Type :=
| Error (message : string)
| TypeError (message : string)
| SQLException (message : string)
| IllegalArgumentException (message : string).

Inductive Outcome (A : Type) : Type :=
| Return (a : A)
| Throw (e : Exn).
Arguments Return {A} a.
Arguments Throw {A} e.

#[global] Instance Exn_eq_dec : EqDecision Exn.
Proof. solve_decision. Defined.

#[global] Instance Outcome_eq_dec {A} `{EqDecision A} : EqDecision (Outcome A).
Proof. solve_decision. Defined.

Definition M (S A : Type) : Type := S -> Outcome A * S.

Definition ret {S A} (a : A) : M S A := fun s => (Return a, s).
Definition throw {S A} (e : Exn) : M S A := fun s => (Throw e, s).
Definition bind {S A B} (m : M S A) (k : A -> M S B) : M S B :=
  fun s => match m s with
           | (Return a, s') => k a s'
           | (Throw e, s') => (Throw e, s')
           end.
Definition try_catch {S A} (m : M S A) (handler : Exn -> M S A) : M S A :=
  fun s => match m s with
           | (Return a, s') => (Return a, s')
           | (Throw e, s') => handler e s'
           end.
Definition get_state {S} : M S S := fun s => (Return s, s).
Definition modify {S} (f : S -> S) : M S unit := fun s => (Return tt, f s).

Declare Scope monad_scope.
Delimit Scope monad_scope with monad.
Notation "x <- m ;; k" := (bind m (fun x => k))
  (at level 100, m at next level, right associativity) : monad_scope.
Notation "m ;;; k" := (bind m (fun _ => k))
  (at level 100, right associativity) : monad_scope.
Local Open Scope monad_scope.

(** ** JavaScript values *)

Inductive JSValue : Type :=
| JUndefined
| JNull
| JBool (b : bool)
| JNum (n : Z)
| JStr (s : string).

#[global] Instance JSValue_eq_dec : EqDecision JSValue.
Proof. solve_decision. Defined.

(** [ToBoolean]: [undefined], [null], [false], [0] and [''] are falsy. *)
Definition truthy (v : JSValue) : bool :=
  match v with
  | JUndefined | JNull => false
  | JBool b => b
  | JNum n => negb (n =? 0)%Z
  | JStr s => negb (String.eqb s "")
  end.

(** [a || b] *)
Definition js_or (a b : JSValue) : JSValue := if truthy a then a else b.

(** A plain object; [prop o "name"] is [o.name]. *)
Abbreviation Obj := (gmap string JSValue).
Definition prop (o : Obj) (name : string) : JSValue := default JUndefined (o !! name).

(** ** [Number.prototype.toString] and [JSON.stringify] on the modelled values *)

(** Every digit of the integer: what JavaScript prints for an integer of at
    most 2^53 in absolute value, and Java for an [int]. *)
Definition Number_toString (n : Z) : string := NilZero.string_of_int (Z.to_int n).

Definition dquote : string := String "034"%char "".

Definition hex_digit (n : N) : ascii :=
  if (n <? 10)%N then ascii_of_N (48 + n) else ascii_of_N (87 + n).

(** [QuoteJSONString] on one code unit. *)
Definition json_escape_char (c : ascii) : string :=
  let n := N_of_ascii c in
  if (n =? 34)%N then "\" +:+ dquote
  else if (n =? 92)%N then "\\"
  else if (n =? 8)%N then "\b"
  else if (n =? 12)%N then "\f"
  else if (n =? 10)%N then "\n"
  else if (n =? 13)%N then "\r"
  else if (n =? 9)%N then "\t"
  else if (n <? 32)%N then "\u00" +:+ String (hex_digit (n / 16)) (String (hex_digit (n mod 16)) "")
  else String c "".

Fixpoint json_escape (s : string) : string :=
  match s with
  | EmptyString => ""
  | String c s' => json_escape_char c +:+ json_escape s'
  end.

(** An array element: [undefined] is serialised as [null]. *)
Definition JSON_stringify_element (v : JSValue) : string :=
  match v with
  | JUndefined | JNull => "null"
  | JBool true => "true"
  | JBool false => "false"
  | JNum n => Number_toString n
  | JStr s => dquote +:+ json_escape s +:+ dquote
  end.

Fixpoint join_commas (l : list string) : string :=
  match l with
  | [] => ""
  | [x] => x
  | x :: l' => x +:+ "," +:+ join_commas l'
  end.

(** [JSON.stringify(params)] for an array [params]. *)
Definition JSON_stringify (params : list JSValue) : string :=
  "[" +:+ join_commas (map JSON_stringify_element params) +:+ "]".

(** [ToString] *)
Definition ToString (v : JSValue) : string :=
  match v with
  | JUndefined => "undefined"
  | JNull => "null"
  | JBool true => "true"
  | JBool false => "false"
  | JNum n => Number_toString n
  | JStr s => s
  end.

(** [\s] on 8-bit code units: TAB, LF, VT, FF, CR, space, NBSP. *)
Definition is_whitespace (c : ascii) : bool :=
  let n := N_of_ascii c in
  ((9 <=? n) && (n <=? 13) || (n =? 32) || (n =? 160))%N.

Definition is_digit (c : ascii) : bool :=
  let n := N_of_ascii c in ((48 <=? n) && (n <=? 57))%N.

Fixpoint digits_value (acc : Z) (s : string) : option Z :=
  match s with
  | EmptyString => Some acc
  | String c s' =>
      if is_digit c then digits_value (10 * acc + Z.of_N (N_of_ascii c) - 48) s'
      else None
  end.

Fixpoint trim_left (s : string) : string :=
  match s with
  | String c s' => if is_whitespace c then trim_left s' else s
  | EmptyString => s
  end.

Definition trim (s : string) : string :=
  String.rev (trim_left (String.rev (trim_left s))).

(** [ToNumber]; [None] is [NaN].  Numbers being integers, a string converts
    when, trimmed, it is empty or a signed decimal integer literal; every
    other string is taken as [NaN], the literals with a fraction, an
    exponent or a radix prefix included, which are outside the model. *)
Definition ToNumber (v : JSValue) : option Z :=
  match v with
  | JUndefined => None
  | JNull => Some 0
  | JBool b => Some (if b then 1 else 0)
  | JNum n => Some n
  | JStr s =>
      match trim s with
      | EmptyString => Some 0
      | String "-" (String c s') => Z.opp <$> digits_value 0 (String c s')
      | String "+" (String c s') => digits_value 0 (String c s')
      | String c s' => if is_digit c then digits_value 0 (String c s') else None
      end
  end.

(** [a < b] with a number on the right. *)
Definition js_lt_num (a : JSValue) (b : Z) : bool :=
  match ToNumber a with
  | Some n => (n <? b)%Z
  | None => false
  end.

(** ** Regular expressions, as far as the program uses them *)

Inductive Regex : Type :=
| RNone                                   (* matches nothing *)
| REmpty                                  (* matches the empty string *)
| RClass (accepts : ascii -> bool)        (* one code unit of a class *)
| RSeq (r1 r2 : Regex)
| RAlt (r1 r2 : Regex)
| RStar (r : Regex).

Definition RPlus (r : Regex) : Regex := RSeq r (RStar r).
Definition RChar (c : ascii) : Regex := RClass (Ascii.eqb c).

Fixpoint nullable (r : Regex) : bool :=
  match r with
  | RNone => false
  | REmpty => true
  | RClass _ => false
  | RSeq r1 r2 => nullable r1 && nullable r2
  | RAlt r1 r2 => nullable r1 || nullable r2
  | RStar _ => true
  end.

(** The derivative of [r] by one code unit. *)
Fixpoint derive (c : ascii) (r : Regex) : Regex :=
  match r with
  | RNone | REmpty => RNone
  | RClass accepts => if accepts c then REmpty else RNone
  | RSeq r1 r2 =>
      if nullable r1 then RAlt (RSeq (derive c r1) r2) (derive c r2)
      else RSeq (derive c r1) r2
  | RAlt r1 r2 => RAlt (derive c r1) (derive c r2)
  | RStar r' => RSeq (derive c r') (RStar r')
  end.

(** [/^r$/.test(s)] *)
Fixpoint regex_test (r : Regex) (s : string) : bool :=
  match s with
  | EmptyString => nullable r
  | String c s' => regex_test (derive c r) s'
  end.

(** ** [Map] with string keys, in insertion order *)

Section OrderedMap.
Context {V : Type}.

Fixpoint Map_get (m : list (string * V)) (k : string) : option V :=
  match m with
  | [] => None
  | (k', v) :: m' => if String.eqb k' k then Some v else Map_get m' k
  end.

(** [set] keeps the position of a key that is present and appends a new one. *)
Fixpoint Map_set (m : list (string * V)) (k : string) (v : V) : list (string * V) :=
  match m with
  | [] => [(k, v)]
  | (k', v') :: m' =>
      if String.eqb k' k then (k', v) :: m' else (k', v') :: Map_set m' k v
  end.

Fixpoint Map_delete (m : list (string * V)) (k : string) : list (string * V) :=
  match m with
  | [] => []
  | (k', v') :: m' =>
      if String.eqb k' k then m' else (k', v') :: Map_delete m' k
  end.

Definition Map_size (m : list (string * V)) : Z := Z.of_nat (length m).

(** [Array.from(m.entries())] *)
Definition Map_entries (m : list (string * V)) : list (string * V) := m.
End OrderedMap.

(** [entries.slice(0, n)] for [0 <= n]. *)
Definition slice0 {A} (n : nat) (entries : list A) : list A := firstn n entries.

(** * The JavaScript program *)

Module JS.

(** The result of a statement: an array of rows, or a result object
    (with [insertId] and the like). *)
Inductive QResult : Type :=
| QRows (rows : list Obj)
| QObj (o : Obj).

#[global] Instance QResult_eq_dec : EqDecision QResult.
Proof. solve_decision. Defined.

(** [constructor(config)] reads two numeric options. *)
Record Config : Type := mkConfig {
  cfg_maxConnections : option Z;
  cfg_retryAttempts : option Z
}.

(** [x || d] on an optional number. *)
Definition num_or (x : option Z) (d : Z) : Z :=
  match x with
  | Some n => if (n =? 0)%Z then d else n
  | None => d
  end.

(** What the program does to its environment besides running statements. *)
Inductive Event : Type :=
| EvEstablish          (* a call of [establishConnection] *)
| EvSleep (ms : Z).    (* [await this.sleep(ms)] *)

#[global] Instance Event_eq_dec : EqDecision Event.
Proof. solve_decision. Defined.

Section Program.
(** The store and its connections are collaborators: [World] is the state
    of everything outside the program.  The class [DatabaseManager] calls
    [this.establishConnection] and [this.executeQuery], which the source
    file does not define: they are the store interface. *)
Context {World Connection : Type}.
Variable establishConnection : World -> Outcome Connection * World.
Variable executeQuery :
  option Connection -> string -> list JSValue -> World -> Outcome QResult * World.

Record DatabaseManager : Type := mkDatabaseManager {
  connection : option Connection;
  queryCache : list (string * QResult);
  maxConnections : Z;
  retryAttempts : Z
}.

(** One [DatabaseManager] shared by the services built on it. *)
Record Program : Type := mkProgram {
  world : World;
  trace : list Event;
  db : DatabaseManager;
  userCache : gmap Z Obj;
  productCache : gmap Z Obj;
  categoryCache : gmap string Obj
}.

Definition new_DatabaseManager (config : Config) : DatabaseManager :=
  {| connection := None;
     queryCache := [];
     maxConnections := num_or (cfg_maxConnections config) 10;
     retryAttempts := num_or (cfg_retryAttempts config) 3 |}.

Definition new_Program (config : Config) (w : World) : Program :=
  {| world := w; trace := []; db := new_DatabaseManager config;
     userCache := ∅; productCache := ∅; categoryCache := ∅ |}.

Definition set_connection (c : option Connection) (p : Program) : Program :=
  {| world := world p; trace := trace p;
     db := {| connection := c; queryCache := queryCache (db p);
              maxConnections := maxConnections (db p);
              retryAttempts := retryAttempts (db p) |};
     userCache := userCache p; productCache := productCache p;
     categoryCache := categoryCache p |}.

Definition set_queryCache (c : list (string * QResult)) (p : Program) : Program :=
  {| world := world p; trace := trace p;
     db := {| connection := connection (db p); queryCache := c;
              maxConnections := maxConnections (db p);
              retryAttempts := retryAttempts (db p) |};
     userCache := userCache p; productCache := productCache p;
     categoryCache := categoryCache p |}.

Definition set_userCache (c : gmap Z Obj) (p : Program) : Program :=
  {| world := world p; trace := trace p; db := db p;
     userCache := c; productCache := productCache p;
     categoryCache := categoryCache p |}.

Definition set_productCaches (c : gmap Z Obj) (cc : gmap string Obj) (p : Program) : Program :=
  {| world := world p; trace := trace p; db := db p;
     userCache := userCache p; productCache := c; categoryCache := cc |}.

Definition log_event (e : Event) (p : Program) : Program :=
  {| world := world p; trace := (trace p ++ [e])%list; db := db p;
     userCache := userCache p; productCache := productCache p;
     categoryCache := categoryCache p |}.

Definition set_world (w : World) (p : Program) : Program :=
  {| world := w; trace := trace p; db := db p;
     userCache := userCache p; productCache := productCache p;
     categoryCache := categoryCache p |}.

(** Run a call of the store interface on the world. *)
Definition on_world {A} (f : World -> Outcome A * World) : M Program A :=
  fun p => let '(r, w) := f (world p) in (r, set_world w p).

(** *** class DatabaseManager *)

Definition sleep (ms : Z) : M Program unit := modify (log_event (EvSleep ms)).

(** The loop of [connect] (lines 17-28), [attempts] being the loop
    variable.  An iteration either leaves the loop or increments
    [attempts], so [retryAttempts - attempts] iterations are enough. *)
Fixpoint connect_loop (fuel : nat) (attempts : Z) : M Program unit :=
  p <- get_state ;;
  if (attempts <? retryAttempts (db p))%Z then
    match fuel with
    | O => ret tt
    | S fuel' =>
        try_catch
          (modify (log_event EvEstablish) ;;;
           c <- on_world establishConnection ;;
           modify (set_connection (Some c)))
          (fun error =>
             let attempts := (attempts + 1)%Z in
             if (attempts >=? retryAttempts (db p))%Z then throw error
             else sleep (1000 * attempts) ;;; connect_loop fuel' attempts)
    end
  else ret tt.

Definition connect : M Program unit :=
  p <- get_state ;;
  connect_loop (Z.to_nat (retryAttempts (db p))) 0.

Definition generateCacheKey (sql : string) (params : list JSValue) : string :=
  sql +:+ ":" +:+ JSON_stringify params.

Definition clearOldestCacheEntries : M Program unit :=
  p <- get_state ;;
  let entries := Map_entries (queryCache (db p)) in
  let toRemove := slice0 100 entries in
  modify (fun p =>
    fold_left (fun p e => set_queryCache (Map_delete (queryCache (db p)) e.1) p)
              toRemove p).

Definition query (sql : string) (params : list JSValue) : M Program QResult :=
  let cacheKey := generateCacheKey sql params in
  p <- get_state ;;
  (* [has(cacheKey)] and [get(cacheKey)] are one lookup *)
  match Map_get (queryCache (db p)) cacheKey with
  | Some cached => ret cached
  | None =>
      result <- on_world (executeQuery (connection (db p)) sql params) ;;
      p <- get_state ;;
      (if (Map_size (queryCache (db p)) >? 1000)%Z
       then clearOldestCacheEntries else ret tt) ;;;
      modify (fun p => set_queryCache (Map_set (queryCache (db p)) cacheKey result) p) ;;;
      ret result
  end.

(** [result[0]]: the first row of an array of rows.  A result object is
    taken to have no property [0]. *)
Definition first_row (result : QResult) : option Obj :=
  match result with
  | QRows rows => head rows
  | QObj _ => None
  end.

(** *** class UserService *)

(** [null] is [None]. *)
Definition getUser (id : Z) : M Program (option Obj) :=
  p <- get_state ;;
  match userCache p !! id with
  | Some user => ret (Some user)
  | None =>
      let sql := "SELECT * FROM users WHERE id = ?" in
      result <- query sql [JNum id] ;;
      match first_row result with
      | Some row =>
          modify (fun p => set_userCache (<[id := row]> (userCache p)) p) ;;;
          ret (Some row)
      | None => ret None
      end
  end.

Definition UserService_clearCache : M Program unit :=
  modify (set_userCache ∅).

(** [/^[^\s@]+@[^\s@]+\.[^\s@]+$/] *)
Definition email_regex : Regex :=
  let other := RClass (fun c => negb (is_whitespace c || Ascii.eqb c "@")) in
  RSeq (RPlus other)
    (RSeq (RChar "@") (RSeq (RPlus other) (RSeq (RChar ".") (RPlus other)))).

Definition validateEmail (email : JSValue) : bool :=
  regex_test email_regex (ToString email).

Definition createUser (userData : Obj) : M Program QResult :=
  if negb (truthy (prop userData "name")) || negb (truthy (prop userData "email"))
     || negb (truthy (prop userData "role"))
  then throw (Error "Missing required user fields")
  else if negb (validateEmail (prop userData "email"))
  then throw (Error "Invalid email format")
  else
    let sql := "INSERT INTO users (name, email, role) VALUES (?, ?, ?)" in
    let params := [prop userData "name"; prop userData "email"; prop userData "role"] in
    result <- query sql params ;;
    UserService_clearCache ;;;
    ret result.

Definition not_found_message (id : Z) : string :=
  "User with id " +:+ Number_toString id +:+ " not found".

Definition updateUser (id : Z) (userData : Obj) : M Program QResult :=
  existingUser <- getUser id ;;
  match existingUser with
  | None => throw (Error (not_found_message id))
  | Some existingUser =>
      let sql := "UPDATE users SET name = ?, email = ?, role = ? WHERE id = ?" in
      let params := [
        js_or (prop userData "name") (prop existingUser "name");
        js_or (prop userData "email") (prop existingUser "email");
        js_or (prop userData "role") (prop existingUser "role");
        JNum id
      ] in
      result <- query sql params ;;
      UserService_clearCache ;;;
      ret result
  end.

Definition deleteUser (id : Z) : M Program QResult :=
  existingUser <- getUser id ;;
  match existingUser with
  | None => throw (Error (not_found_message id))
  | Some _ =>
      let sql := "DELETE FROM users WHERE id = ?" in
      result <- query sql [JNum id] ;;
      UserService_clearCache ;;;
      ret result
  end.

(** *** class ProductService *)

Definition getProduct (id : Z) : M Program (option Obj) :=
  p <- get_state ;;
  match productCache p !! id with
  | Some product => ret (Some product)
  | None =>
      let sql := "SELECT * FROM products WHERE id = ?" in
      result <- query sql [JNum id] ;;
      match first_row result with
      | Some row =>
          modify (fun p => set_productCaches (<[id := row]> (productCache p))
                                             (categoryCache p) p) ;;;
          ret (Some row)
      | None => ret None
      end
  end.

Definition ProductService_clearCache : M Program unit :=
  modify (set_productCaches ∅ ∅).

Definition allowedSorts : list JSValue := [JStr "price"; JStr "name"; JStr "category"].

(** [allowedSorts.includes(v)] *)
Definition includes (l : list JSValue) (v : JSValue) : bool :=
  existsb (fun x => bool_decide (x = v)) l.

(** The statement and the parameters [listProducts] builds (lines 296-329). *)
Definition listProducts_statement (filters : Obj) : string * list JSValue :=
  let sql := "SELECT * FROM products WHERE 1=1" in
  let params : list JSValue := [] in
  let '(sql, params) :=
    if truthy (prop filters "category")
    then (sql +:+ " AND category = ?", (params ++ [prop filters "category"])%list)
    else (sql, params) in
  let '(sql, params) :=
    if negb (bool_decide (prop filters "minPrice" = JUndefined))
    then (sql +:+ " AND price >= ?", (params ++ [prop filters "minPrice"])%list)
    else (sql, params) in
  let '(sql, params) :=
    if negb (bool_decide (prop filters "maxPrice" = JUndefined))
    then (sql +:+ " AND price <= ?", (params ++ [prop filters "maxPrice"])%list)
    else (sql, params) in
  let sql :=
    if truthy (prop filters "inStock") then sql +:+ " AND stock > 0" else sql in
  let sql :=
    if truthy (prop filters "sortBy") then
      if includes allowedSorts (prop filters "sortBy") then
        let order :=
          if bool_decide (prop filters "sortOrder" = JStr "desc") then "DESC" else "ASC" in
        sql +:+ " ORDER BY " +:+ ToString (prop filters "sortBy") +:+ " " +:+ order
      else sql
    else sql in
  let '(sql, params) :=
    if truthy (prop filters "limit")
    then (sql +:+ " LIMIT ?", (params ++ [prop filters "limit"])%list)
    else (sql, params) in
  (sql, params).

Definition listProducts (filters : Obj) : M Program QResult :=
  let '(sql, params) := listProducts_statement filters in
  query sql params.

Definition createProduct (productData : Obj) : M Program QResult :=
  if negb (truthy (prop productData "name")) || negb (truthy (prop productData "price"))
     || negb (truthy (prop productData "category"))
  then throw (Error "Missing required product fields")
  else if js_lt_num (prop productData "price") 0
  then throw (Error "Price cannot be negative")
  else
    let sql := "INSERT INTO products (name, description, price, category) VALUES (?, ?, ?, ?)" in
    let params := [
      prop productData "name";
      js_or (prop productData "description") (JStr "");
      prop productData "price";
      prop productData "category"
    ] in
    result <- query sql params ;;
    ProductService_clearCache ;;;
    ret result.

Definition updateProduct (id : Z) (productData : Obj) : M Program QResult :=
  existing <- getProduct id ;;
  match existing with
  | None => throw (Error "Product not found")
  | Some existing =>
      let sql := "UPDATE products SET name = ?, description = ?, price = ?, category = ? WHERE id = ?" in
      let params := [
        js_or (prop productData "name") (prop existing "name");
        js_or (prop productData "description") (prop existing "description");
        (if negb (bool_decide (prop productData "price" = JUndefined))
         then prop productData "price" else prop existing "price");
        js_or (prop productData "category") (prop existing "category");
        JNum id
      ] in
      result <- query sql params ;;
      ProductService_clearCache ;;;
      ret result
  end.

Definition deleteProduct (id : Z) : M Program QResult :=
  let sql := "DELETE FROM products WHERE id = ?" in
  result <- query sql [JNum id] ;;
  ProductService_clearCache ;;;
  ret result.

(** *** class OrderService *)

(** [undefined] is [None]. *)
Definition getOrder (id : Z) : M Program (option Obj) :=
  let sql := "SELECT * FROM orders WHERE id = ?" in
  result <- query sql [JNum id] ;;
  ret (first_row result).

(** *** class PaymentService *)

(** The objects a service may hold a reference to. *)
Inductive ObjectRef : Type :=
| TheDatabaseManager
| TheProductService
| TheOrderService.

#[global] Instance ObjectRef_eq_dec : EqDecision ObjectRef.
Proof. solve_decision. Defined.

(** The properties the constructors assign (lines 396-399 and 430-432):
    [OrderService] stores [db] and [productService], [PaymentService]
    stores [orderService] only. *)
Definition new_OrderService (dbManager productService : ObjectRef) : gmap string ObjectRef :=
  {[ "db" := dbManager; "productService" := productService ]}.

Definition new_PaymentService (orderService : ObjectRef) : gmap string ObjectRef :=
  {[ "orderService" := orderService ]}.

(** [this.field.method(...)]: reading [method] off an absent property
    throws a [TypeError], as does calling a method the object lacks. *)
Definition call_member {A} (this : gmap string ObjectRef) (field : string)
    (class : ObjectRef) (method : string) (body : M Program A) : M Program A :=
  match this !! field with
  | None =>
      throw (TypeError ("Cannot read properties of undefined (reading '"
                        +:+ method +:+ "')"))
  | Some target =>
      if bool_decide (target = class) then body
      else throw (TypeError ("this." +:+ field +:+ "." +:+ method +:+ " is not a function"))
  end.

(** [now] is the value [Date.now()] returns at the call. *)
Definition chargePayment (now : Z) (paymentMethod amount : JSValue) : M Program Obj :=
  ret {[ "success" := JBool true;
         "transactionId" := JStr ("TXN" +:+ Number_toString now) ]}.

Definition updateOrderStatus (this : gmap string ObjectRef)
    (orderId : Z) (status : string) : M Program QResult :=
  let sql := "UPDATE orders SET status = ? WHERE id = ?" in
  call_member this "db" TheDatabaseManager "query"
    (query sql [JStr status; JNum orderId]).

(** [processPayment], taking as an argument the method that
    [this.chargePayment] resolves to (a subclass or a test double may
    override it). *)
Definition processPayment_with
    (charge : JSValue -> JSValue -> M Program Obj)
    (this : gmap string ObjectRef) (orderId : Z) (paymentMethod : JSValue)
  : M Program Obj :=
  order <- call_member this "orderService" TheOrderService "getOrder" (getOrder orderId) ;;
  match order with
  | None => throw (Error "Order not found")
  | Some order =>
      result <- charge paymentMethod (prop order "total") ;;
      if truthy (prop result "success") then
        updateOrderStatus this orderId "paid" ;;;
        ret {[ "success" := JBool true;
               "transactionId" := prop result "transactionId" ]}
      else
        ret {[ "success" := JBool false; "error" := prop result "error" ]}
  end.

Definition processPayment (now : Z) :=
  processPayment_with (chargePayment now).

End Program.

(** *** class AuthenticationService *)

Record Session : Type := mkSession {
  userId : JSValue;
  createdAt : Z;
  lastActivity : Z
}.

Record AuthenticationService : Type := mkAuthenticationService {
  sessions : gmap string Session;
  sessionTimeout : Z;
  maxSessions : Z
}.

Definition new_AuthenticationService : AuthenticationService :=
  {| sessions := ∅; sessionTimeout := 3600000; maxSessions := 10000 |}.

Definition set_sessions (m : gmap string Session) (a : AuthenticationService)
  : AuthenticationService :=
  {| sessions := m; sessionTimeout := sessionTimeout a; maxSessions := maxSessions a |}.

(** In the methods below [now] is the value of [Date.now()]. *)
Definition cleanupExpiredSessions (now : Z) : M AuthenticationService unit :=
  a <- get_state ;;
  if (Z.of_nat (size (sessions a)) >? maxSessions a)%Z then
    modify (set_sessions
      (filter (fun e => ¬ (now - lastActivity e.2 > sessionTimeout a)%Z) (sessions a)))
  else ret tt.

Definition logout (token : string) : M AuthenticationService bool :=
  a <- get_state ;;
  match sessions a !! token with
  | None => ret false
  | Some _ => modify (set_sessions (delete token (sessions a))) ;;; ret true
  end.

Definition validateToken (now : Z) (token : string) : M AuthenticationService bool :=
  a <- get_state ;;
  match sessions a !! token with
  | None => ret false
  | Some sessionData =>
      if (now - lastActivity sessionData >? sessionTimeout a)%Z then
        modify (set_sessions (delete token (sessions a))) ;;;
        ret false
      else
        modify (set_sessions
          (<[token := {| userId := userId sessionData;
                         createdAt := createdAt sessionData;
                         lastActivity := now |}]> (sessions a))) ;;;
        ret true
  end.

Definition getSessionInfo (token : string) : M AuthenticationService (option Session) :=
  a <- get_state ;;
  ret (sessions a !! token).

End JS.

(** * The Java program *)

Module Java.

(** A call the program makes on [java.sql] or on the thread, in the order
    it makes them. *)
Inductive Call (Statement Object : Type) : Type :=
| CGetConnection (connectionString : string)
| CSetAutoCommit (autoCommit : bool)
| CPrepareStatement (sql : string)
| CSetObject (stmt : Statement) (parameterIndex : Z) (x : Object)
| CExecuteQuery (stmt : Statement)
| CExecuteUpdate (stmt : Statement)
| CCloseStatement (stmt : Statement)
| CSleep (millis : Z).
Arguments CGetConnection {Statement Object}.
Arguments CSetAutoCommit {Statement Object}.
Arguments CPrepareStatement {Statement Object}.
Arguments CSetObject {Statement Object}.
Arguments CExecuteQuery {Statement Object}.
Arguments CExecuteUpdate {Statement Object}.
Arguments CCloseStatement {Statement Object}.
Arguments CSleep {Statement Object}.

Section Program.
(** [java.sql] is a collaborator: [World] is the state of the driver and
    of the store, [Connection], [Statement] and [ResultSet] are its
    handles, [Object] the parameters it binds. *)
Context {World Connection Statement ResultSet Object : Type}.
Variable DriverManager_getConnection : string -> World -> Outcome Connection * World.
Variable Connection_setAutoCommit : Connection -> bool -> World -> Outcome unit * World.
Variable Connection_isClosed : Connection -> World -> Outcome bool.
Variable Connection_isValid : Connection -> Z -> World -> Outcome bool.
Variable Connection_prepareStatement :
  Connection -> string -> World -> Outcome Statement * World.
Variable Statement_setObject : Statement -> Z -> Object -> World -> Outcome unit * World.
Variable Statement_executeQuery : Statement -> World -> Outcome ResultSet * World.
Variable Statement_executeUpdate : Statement -> World -> Outcome Z * World.
Variable Statement_close : Statement -> World -> Outcome unit * World.
(** The order in which a [HashMap] iterator walks the entries. *)
Variable HashMap_entries : gmap string Statement -> list (string * Statement).

Record DatabaseManager : Type := mkDatabaseManager {
  world : World;
  calls : list (Call Statement Object);
  connectionString : string;
  connection : option Connection;
  statementCache : gmap string Statement;
  maxCacheSize : Z;
  retryAttempts : Z;
  connectionTimeout : Z
}.

Definition new_DatabaseManager (connectionString : string) (w : World) : DatabaseManager :=
  {| world := w; calls := []; connectionString := connectionString;
     connection := None; statementCache := ∅;
     maxCacheSize := 100; retryAttempts := 3; connectionTimeout := 30000 |}.

Definition set_connection (c : option Connection) (d : DatabaseManager) : DatabaseManager :=
  {| world := world d; calls := calls d; connectionString := connectionString d;
     connection := c; statementCache := statementCache d;
     maxCacheSize := maxCacheSize d; retryAttempts := retryAttempts d;
     connectionTimeout := connectionTimeout d |}.

Definition set_statementCache (m : gmap string Statement) (d : DatabaseManager)
  : DatabaseManager :=
  {| world := world d; calls := calls d; connectionString := connectionString d;
     connection := connection d; statementCache := m;
     maxCacheSize := maxCacheSize d; retryAttempts := retryAttempts d;
     connectionTimeout := connectionTimeout d |}.

(** Make a call on the collaborator: record it, then run it on the world. *)
Definition call {A} (c : Call Statement Object) (f : World -> Outcome A * World)
  : M DatabaseManager A :=
  fun d => let '(r, w) := f (world d) in
           (r, {| world := w; calls := (calls d ++ [c])%list;
                  connectionString := connectionString d;
                  connection := connection d; statementCache := statementCache d;
                  maxCacheSize := maxCacheSize d; retryAttempts := retryAttempts d;
                  connectionTimeout := connectionTimeout d |}).

(** A probe of the connection reads the world and leaves it as it is. *)
Definition probe {A} (f : World -> Outcome A) : M DatabaseManager A :=
  fun d => (f (world d), d).

(** [catch (SQLException e)]: any other exception passes through. *)
Definition catch_SQLException {A} (m : M DatabaseManager A)
    (handler : Exn -> M DatabaseManager A) : M DatabaseManager A :=
  try_catch m (fun e => match e with
                        | SQLException _ => handler e
                        | _ => throw e
                        end).

(** [Thread.sleep]; an interrupt is caught on the spot (lines 560-564). *)
Definition Thread_sleep (millis : Z) : M DatabaseManager unit :=
  call (CSleep millis) (fun w => (Return tt, w)).

(** The loop of [connect] (lines 547-567).  The result is [true] when the
    body has executed [return], [false] when the loop has run out. *)
Fixpoint connect_loop (fuel : nat) (attempts : Z) (lastException : option Exn)
  : M DatabaseManager (bool * option Exn) :=
  d <- get_state ;;
  if (attempts <? retryAttempts d)%Z then
    match fuel with
    | O => ret (false, lastException)
    | S fuel' =>
        r <- catch_SQLException
               (c <- call (CGetConnection (connectionString d))
                          (DriverManager_getConnection (connectionString d)) ;;
                modify (set_connection (Some c)) ;;;
                call (CSetAutoCommit false) (Connection_setAutoCommit c false) ;;;
                ret None)
               (fun e => ret (Some e)) ;;
        match r with
        | None => ret (true, lastException)
        | Some e =>
            let attempts := (attempts + 1)%Z in
            let lastException := Some e in
            (if (attempts <? retryAttempts d)%Z
             then Thread_sleep (1000 * attempts) else ret tt) ;;;
            connect_loop fuel' attempts lastException
        end
    end
  else ret (false, lastException).

(** [connect] returns no value; after the loop it only prints. *)
Definition connect : M DatabaseManager unit :=
  d <- get_state ;;
  connect_loop (Z.to_nat (retryAttempts d)) 0 None ;;;
  ret tt.

Definition isConnected : M DatabaseManager bool :=
  catch_SQLException
    (d <- get_state ;;
     match connection d with
     | None => ret false
     | Some c =>
         closed <- probe (Connection_isClosed c) ;;
         if closed then ret false else probe (Connection_isValid c 5)
     end)
    (fun _ => ret false).

(** The loop of [clearOldestStatements] over the iterator's entries. *)
Fixpoint clearOldestStatements_loop (entries : list (string * Statement)) (toRemove : Z)
  : M DatabaseManager unit :=
  match entries with
  | [] => ret tt
  | entry :: entries' =>
      if (toRemove >? 0)%Z then
        catch_SQLException
          (call (CCloseStatement entry.2) (Statement_close entry.2))
          (fun _ => ret tt) ;;;
        modify (fun d => set_statementCache (delete entry.1 (statementCache d)) d) ;;;
        clearOldestStatements_loop entries' (toRemove - 1)
      else ret tt
  end.

Definition clearOldestStatements : M DatabaseManager unit :=
  d <- get_state ;;
  let toRemove := (maxCacheSize d ÷ 4)%Z in
  clearOldestStatements_loop (HashMap_entries (statementCache d)) toRemove.

(** [connection.prepareStatement] on a null connection throws
    [NullPointerException]; it is not an [SQLException]. *)
Definition getPreparedStatement (sql : string) : M DatabaseManager Statement :=
  d <- get_state ;;
  match statementCache d !! sql with
  | Some stmt => ret stmt
  | None =>
      (if (Z.of_nat (size (statementCache d)) >=? maxCacheSize d)%Z
       then clearOldestStatements else ret tt) ;;;
      match connection d with
      | None => throw (Error "NullPointerException")
      | Some c =>
          stmt <- call (CPrepareStatement sql) (Connection_prepareStatement c sql) ;;
          modify (fun d => set_statementCache (<[sql := stmt]> (statementCache d)) d) ;;;
          ret stmt
      end
  end.

(** [for (i = 0; i < params.length; i++) stmt.setObject(i + 1, params[i])],
    [i] being the index of the head of [params]. *)
Fixpoint setParameters_from (i : Z) (stmt : Statement) (params : list Object)
  : M DatabaseManager unit :=
  match params with
  | [] => ret tt
  | x :: params' =>
      call (CSetObject stmt (i + 1) x) (Statement_setObject stmt (i + 1) x) ;;;
      setParameters_from (i + 1) stmt params'
  end.

Definition setParameters (stmt : Statement) (params : list Object) : M DatabaseManager unit :=
  setParameters_from 0 stmt params.

Definition executeQuery (sql : string) (params : list Object) : M DatabaseManager ResultSet :=
  connected <- isConnected ;;
  if negb connected then throw (SQLException "Database connection is not available")
  else
    stmt <- getPreparedStatement sql ;;
    setParameters stmt params ;;;
    call (CExecuteQuery stmt) (Statement_executeQuery stmt).

Definition executeUpdate (sql : string) (params : list Object) : M DatabaseManager Z :=
  connected <- isConnected ;;
  if negb connected then throw (SQLException "Database connection is not available")
  else
    stmt <- getPreparedStatement sql ;;
    setParameters stmt params ;;;
    call (CExecuteUpdate stmt) (Statement_executeUpdate stmt).

End Program.
End Java.

(** * A small store to run the programs on

    The store below answers the statements the services issue; it is the
    collaborator of the concrete runs further down, not part of either
    program. *)

Module Store.

Record World : Type := mkWorld {
  reachable : bool;          (* the server accepts and serves connections *)
  users : gmap Z Obj;
  products : gmap Z Obj;
  orders : gmap Z Obj;
  nextId : Z
}.

Definition rows_of (table : gmap Z Obj) (id : Z) : JS.QResult :=
  JS.QRows (match table !! id with Some row => [row] | None => [] end).

Definition affected (n : Z) : JS.QResult :=
  JS.QObj {[ "affectedRows" := JNum n ]}.

Definition count (table : gmap Z Obj) (id : Z) : Z :=
  match table !! id with Some _ => 1 | None => 0 end.

Definition set_users (t : gmap Z Obj) (w : World) : World :=
  {| reachable := reachable w; users := t; products := products w;
     orders := orders w; nextId := nextId w |}.

Definition set_products (t : gmap Z Obj) (next : Z) (w : World) : World :=
  {| reachable := reachable w; users := users w; products := t;
     orders := orders w; nextId := next |}.

Definition set_orders (t : gmap Z Obj) (w : World) : World :=
  {| reachable := reachable w; users := users w; products := products w;
     orders := t; nextId := nextId w |}.

(** The statements of the JavaScript services, executed on the tables; any
    other statement selects no row. *)
Definition run (sql : string) (params : list JSValue) (w : World) : JS.QResult * World :=
  let nothing := (JS.QRows [], w) in
  if String.eqb sql "SELECT * FROM users WHERE id = ?" then
    match params with [JNum id] => (rows_of (users w) id, w) | _ => nothing end
  else if String.eqb sql "SELECT * FROM products WHERE id = ?" then
    match params with [JNum id] => (rows_of (products w) id, w) | _ => nothing end
  else if String.eqb sql "SELECT * FROM orders WHERE id = ?" then
    match params with [JNum id] => (rows_of (orders w) id, w) | _ => nothing end
  else if String.eqb sql "DELETE FROM users WHERE id = ?" then
    match params with
    | [JNum id] => (affected (count (users w) id), set_users (delete id (users w)) w)
    | _ => nothing
    end
  else if String.eqb sql "DELETE FROM products WHERE id = ?" then
    match params with
    | [JNum id] =>
        (affected (count (products w) id),
         set_products (delete id (products w)) (nextId w) w)
    | _ => nothing
    end
  else if String.eqb sql "UPDATE users SET name = ?, email = ?, role = ? WHERE id = ?" then
    match params with
    | [name; email; role; JNum id] =>
        (affected (count (users w) id),
         set_users (alter (fun row => <["name" := name]> (<["email" := email]>
                                        (<["role" := role]> row))) id (users w)) w)
    | _ => nothing
    end
  else if String.eqb sql
            "INSERT INTO products (name, description, price, category) VALUES (?, ?, ?, ?)"
  then
    match params with
    | [name; description; price; category] =>
        (JS.QObj {[ "insertId" := JNum (nextId w) ]},
         set_products (<[nextId w :=
                         {[ "id" := JNum (nextId w); "name" := name;
                            "description" := description; "price" := price;
                            "category" := category ]}]> (products w))
                      (nextId w + 1) w)
    | _ => nothing
    end
  else if String.eqb sql "UPDATE orders SET status = ? WHERE id = ?" then
    match params with
    | [status; JNum id] =>
        (affected (count (orders w) id),
         set_orders (alter (fun row => <["status" := status]> row) id (orders w)) w)
    | _ => nothing
    end
  else nothing.

(** [establishConnection] of the JavaScript [DatabaseManager]. *)
Definition establishConnection (w : World) : Outcome unit * World :=
  if reachable w then (Return tt, w) else (Throw (Error "connect ECONNREFUSED"), w).

(** [executeQuery] of the JavaScript [DatabaseManager]: it needs a live
    connection. *)
Definition executeQuery (connection : option unit) (sql : string) (params : list JSValue)
    (w : World) : Outcome JS.QResult * World :=
  match connection with
  | Some _ =>
      if reachable w then let '(r, w') := run sql params w in (Return r, w')
      else (Throw (Error "Database connection is not available"), w)
  | None => (Throw (Error "Database connection is not available"), w)
  end.

Definition ann : Obj :=
  {[ "id" := JNum 1; "name" := JStr "Ann"; "email" := JStr "ann@example.org";
     "role" := JStr "admin" ]}.

Definition order7 : Obj :=
  {[ "id" := JNum 7; "user_id" := JNum 1; "total" := JNum 30; "status" := JStr "pending" ]}.

(** One user, one order, no product. *)
Definition initial : World :=
  {| reachable := true; users := {[ 1 := ann ]}; products := ∅;
     orders := {[ 7 := order7 ]}; nextId := 1 |}.

Definition unplugged (w : World) : World :=
  {| reachable := false; users := users w; products := products w;
     orders := orders w; nextId := nextId w |}.

(** A freshly constructed program on the store, and the same once
    [connect] has returned. *)
Definition fresh : @JS.Program World unit :=
  JS.new_Program (JS.mkConfig None None) initial.

Definition connected : @JS.Program World unit :=
  (JS.connect establishConnection fresh).2.

(** [n] statements with pairwise different parameters. *)
Definition statements (n : nat) : list (string * list JSValue) :=
  (fun i => ("SELECT ?", [JNum i])) <$> seqZ 1 (Z.of_nat n).

End Store.

(** * A driver that refuses every connection

    The collaborator of the runs of [connect]: the world counts the attempts
    made so far, and the failure names the attempt. *)

Module Driver.

Definition refusal (attempt : Z) : string :=
  "connection refused (attempt " +:+ Number_toString attempt +:+ ")".

(** [establishConnection] of the JavaScript [DatabaseManager]. *)
Definition establishConnection (w : Z) : Outcome unit * Z :=
  (Throw (Error (refusal (w + 1))), w + 1).

(** [DriverManager.getConnection] and [Connection.setAutoCommit]. *)
Definition getConnection (connectionString : string) (w : Z) : Outcome unit * Z :=
  (Throw (SQLException (refusal (w + 1))), w + 1).

Definition setAutoCommit (c : unit) (autoCommit : bool) (w : Z) : Outcome unit * Z :=
  (Return tt, w).

(** The rest of [java.sql], for a manager that holds no connection. *)
Definition isClosed (c : unit) (w : Z) : Outcome bool := Return true.
Definition isValid (c : unit) (timeout : Z) (w : Z) : Outcome bool := Return false.
Definition prepareStatement (c : unit) (sql : string) (w : Z) : Outcome string * Z :=
  (Return sql, w).
Definition setObject (stmt : string) (i : Z) (x : JSValue) (w : Z) : Outcome unit * Z :=
  (Return tt, w).
Definition stmt_executeQuery (stmt : string) (w : Z) : Outcome (list Obj) * Z :=
  (Return [], w).
Definition stmt_executeUpdate (stmt : string) (w : Z) : Outcome Z * Z := (Return 0, w).
Definition stmt_close (stmt : string) (w : Z) : Outcome unit * Z := (Return tt, w).
Definition entries (m : gmap string string) : list (string * string) := map_to_list m.

Definition manager : @Java.DatabaseManager Z unit string JSValue :=
  Java.new_DatabaseManager "jdbc:postgresql://db/shop" 0.

(** A connection that is open and answers the probe, and a manager that
    holds it. *)
Definition open_isClosed (c : unit) (w : Z) : Outcome bool := Return false.
Definition open_isValid (c : unit) (timeout : Z) (w : Z) : Outcome bool := Return true.
Definition open_manager : @Java.DatabaseManager Z unit string JSValue :=
  Java.set_connection (Some tt) manager.

End Driver.

(** * The rest of the JavaScript program *)

Module JSRest.

(** The numbers [calculateTotal] computes with.  [Int n] is the integer [n],
    at most 2^53 in absolute value, the range in which the doubles hold
    every integer and give the sum and the product of two integers exactly
    (0 standing for the zero of either sign).  [Unmodelled] is a number,
    [NaN] possibly, that the model does not determine: a fraction, an
    infinity, an integer beyond 2^53, or the value of a string that is not
    a plain decimal integer. *)
Inductive Number : Type :=
| NaN
| Int (n : Z)
| Unmodelled.

Definition exact (n : Z) : Number :=
  if ((- 2 ^ 53 <=? n) && (n <=? 2 ^ 53))%Z then Int n else Unmodelled.

(** The value of a string made of an optional sign and decimal digits, or
    of the empty string, which converts to 0. *)
Definition integer_literal (s : string) : option Z :=
  match s with
  | EmptyString => Some 0%Z
  | String "-" (String c s') => Z.opp <$> digits_value 0 (String c s')
  | String "+" (String c s') => digits_value 0 (String c s')
  | String c s' => digits_value 0 (String c s')
  end.

(** [ToNumber] on an operand of [*]: [undefined] is [NaN], [null] is 0,
    [true] is 1; a string that is no plain integer (blanks, a fraction, an
    exponent, a hexadecimal literal, [Infinity], or no number at all) is
    left undetermined. *)
Definition to_number (v : JSValue) : Number :=
  match v with
  | JUndefined => NaN
  | JNull => Int 0
  | JBool b => Int (if b then 1 else 0)
  | JNum n => exact n
  | JStr s => match integer_literal s with Some n => exact n | None => Unmodelled end
  end.

(** [a * b] and [a + b] on numbers: [NaN] with a [NaN] operand, whatever the
    other one is. *)
Definition js_mul (a b : Number) : Number :=
  match a, b with
  | NaN, _ | _, NaN => NaN
  | Int x, Int y => exact (x * y)
  | _, _ => Unmodelled
  end.

Definition js_add (a b : Number) : Number :=
  match a, b with
  | NaN, _ | _, NaN => NaN
  | Int x, Int y => exact (x + y)
  | _, _ => Unmodelled
  end.

(** An element of [items]: [productId] is a number. *)
Record OrderItem : Type := mkOrderItem {
  productId : Z;
  quantity : JSValue
}.

Section Program.
Context {World Connection : Type}.
Variable executeQuery :
  option Connection -> string -> list JSValue -> World -> Outcome JS.QResult * World.

(** *** class UserService *)

(** [listAllUsers(limit = 100, offset = 0)]: a default applies to an
    argument that is [undefined]. *)
Definition listAllUsers (limit offset : JSValue)
  : M (@JS.Program World Connection) JS.QResult :=
  let limit := if bool_decide (limit = JUndefined) then JNum 100 else limit in
  let offset := if bool_decide (offset = JUndefined) then JNum 0 else offset in
  let sql := "SELECT * FROM users LIMIT ? OFFSET ?" in
  JS.query executeQuery sql [limit; offset].

(** *** class OrderService *)

(** The loop of [calculateTotal] (lines 415-418), [total] being the sum so
    far.  [product.price] on [null] throws a [TypeError]. *)
Fixpoint calculateTotal_from (total : Number) (items : list OrderItem)
  : M (@JS.Program World Connection) Number :=
  match items with
  | [] => ret total
  | item :: items' =>
      product <- JS.getProduct executeQuery (productId item) ;;
      match product with
      | None => throw (TypeError "Cannot read properties of null (reading 'price')")
      | Some product =>
          let total :=
            js_add total (js_mul (to_number (prop product "price"))
                                 (to_number (quantity item))) in
          calculateTotal_from total items'
      end
  end.

Definition calculateTotal (items : list OrderItem)
  : M (@JS.Program World Connection) Number :=
  calculateTotal_from (Int 0) items.

End Program.

(** *** class AuthenticationService: [login] *)

Section Login.
(** [login] calls [this.findUserByEmail], [this.validatePassword] and
    [this.generateToken], which the source file does not define, and reads
    the clock: they are collaborators acting on an environment [Env]. *)
Context {Env : Type}.
Variable findUserByEmail : JSValue -> Env -> Outcome (option Obj) * Env.
Variable validatePassword : JSValue -> JSValue -> Env -> Outcome JSValue * Env.
Variable generateToken : Env -> Outcome string * Env.
Variable Date_now : Env -> Z * Env.

Record Service : Type := mkService {
  env : Env;
  auth : JS.AuthenticationService
}.

Definition on_env {A} (f : Env -> Outcome A * Env) : M Service A :=
  fun s => let '(r, e) := f (env s) in (r, {| env := e; auth := auth s |}).

Definition now : M Service Z :=
  fun s => let '(t, e) := Date_now (env s) in (Return t, {| env := e; auth := auth s |}).

(** Run a method of the session manager. *)
Definition on_auth {A} (m : M JS.AuthenticationService A) : M Service A :=
  fun s => let '(r, a) := m (auth s) in (r, {| env := env s; auth := a |}).

(** [cleanupExpiredSessions] reads the clock once the size test has
    passed. *)
Definition cleanupExpiredSessions : M Service unit :=
  s <- get_state ;;
  if (Z.of_nat (size (JS.sessions (auth s))) >? JS.maxSessions (auth s))%Z then
    t <- now ;;
    on_auth (JS.cleanupExpiredSessions t)
  else ret tt.

Definition login (email password : JSValue) : M Service string :=
  if negb (truthy email) || negb (truthy password)
  then throw (Error "Email and password are required")
  else
    user <- on_env (findUserByEmail email) ;;
    match user with
    | None => throw (Error "User not found")
    | Some user =>
        isValid <- on_env (validatePassword password (prop user "password")) ;;
        if negb (truthy isValid) then throw (Error "Invalid password")
        else
          token <- on_env generateToken ;;
          createdAt <- now ;;
          lastActivity <- now ;;
          let sessionData :=
            {| JS.userId := prop user "id"; JS.createdAt := createdAt;
               JS.lastActivity := lastActivity |} in
          on_auth (modify (fun a => JS.set_sessions (<[token := sessionData]> (JS.sessions a)) a)) ;;;
          cleanupExpiredSessions ;;;
          ret token
    end.

End Login.
End JSRest.

(** * More collaborators for the concrete runs *)

Module StoreRest.

(** The store of [Store], answering the statements of [listAllUsers],
    [createUser] and [updateProduct] as well. *)
Definition run (sql : string) (params : list JSValue) (w : Store.World)
  : JS.QResult * Store.World :=
  if String.eqb sql "SELECT * FROM users LIMIT ? OFFSET ?" then
    match params with
    | [JNum limit; JNum offset] =>
        (JS.QRows (take (Z.to_nat limit)
                     (drop (Z.to_nat offset) (map_to_list (Store.users w)).*2)), w)
    | _ => (JS.QRows [], w)
    end
  else if String.eqb sql "INSERT INTO users (name, email, role) VALUES (?, ?, ?)" then
    match params with
    | [name; email; role] =>
        (JS.QObj {[ "insertId" := JNum (Store.nextId w + 1) ]},
         {| Store.reachable := Store.reachable w;
            Store.users := <[Store.nextId w + 1 :=
                             {[ "id" := JNum (Store.nextId w + 1); "name" := name;
                                "email" := email; "role" := role ]}]> (Store.users w);
            Store.products := Store.products w; Store.orders := Store.orders w;
            Store.nextId := Store.nextId w + 1 |})
    | _ => (JS.QRows [], w)
    end
  else if String.eqb sql
            "UPDATE products SET name = ?, description = ?, price = ?, category = ? WHERE id = ?"
  then
    match params with
    | [name; description; price; category; JNum id] =>
        (Store.affected (Store.count (Store.products w) id),
         Store.set_products
           (alter (fun row => <["name" := name]> (<["description" := description]>
                                (<["price" := price]> (<["category" := category]> row))))
                  id (Store.products w))
           (Store.nextId w) w)
    | _ => (JS.QRows [], w)
    end
  else Store.run sql params w.

Definition executeQuery (connection : option unit) (sql : string) (params : list JSValue)
    (w : Store.World) : Outcome JS.QResult * Store.World :=
  match connection with
  | Some _ =>
      if Store.reachable w then let '(r, w') := run sql params w in (Return r, w')
      else (Throw (Error "Database connection is not available"), w)
  | None => (Throw (Error "Database connection is not available"), w)
  end.

Definition bob : Obj :=
  {[ "name" := JStr "Bob"; "email" := JStr "bob@example.org"; "role" := JStr "user" ]}.

Definition widget : Obj :=
  {[ "name" := JStr "Widget"; "price" := JNum 10; "category" := JStr "tools" ]}.

(** The row the store keeps for [widget]. *)
Definition widget_row : Obj :=
  {[ "id" := JNum 1; "name" := JStr "Widget"; "description" := JStr "";
     "price" := JNum 10; "category" := JStr "tools" ]}.

(** The program once [widget] is created, and once its price is set
    to 0. *)
Definition stocked : @JS.Program Store.World unit :=
  (JS.createProduct executeQuery widget Store.connected).2.

Definition repriced : @JS.Program Store.World unit :=
  (JS.updateProduct executeQuery 1 {[ "price" := JNum 0 ]} stocked).2.

(** The store once the product and the only user are gone. *)
Definition emptied (w : Store.World) : Store.World :=
  Store.set_products ∅ (Store.nextId w) (Store.set_users ∅ w).

End StoreRest.

(** The collaborators of [login]: the environment holds the accounts by
    email, a counter for the tokens and the clock; each reading of the
    clock advances it by a millisecond. *)
Module Accounts.

Record Env : Type := mkEnv {
  accounts : gmap string Obj;
  issued : Z;
  clock : Z
}.

Definition findUserByEmail (email : JSValue) (e : Env) : Outcome (option Obj) * Env :=
  (Return (accounts e !! ToString email), e).

Definition validatePassword (password hash : JSValue) (e : Env) : Outcome JSValue * Env :=
  (Return (JBool (bool_decide (password = hash))), e).

Definition generateToken (e : Env) : Outcome string * Env :=
  (Return ("token-" +:+ Number_toString (issued e + 1)),
   {| accounts := accounts e; issued := issued e + 1; clock := clock e |}).

Definition Date_now (e : Env) : Z * Env :=
  (clock e, {| accounts := accounts e; issued := issued e; clock := clock e + 1 |}).

Definition initial : @JSRest.Service Env :=
  {| JSRest.env :=
       {| accounts := {[ "ann@example.org" :=
                           {[ "id" := JNum 1; "password" := JStr "secret" ]} ]};
          issued := 0; clock := 1000 |};
     JSRest.auth := JS.new_AuthenticationService |}.

Definition login :=
  JSRest.login findUserByEmail validatePassword generateToken Date_now.

End Accounts.

(** * The rest of the Java program *)

Module JavaRest.

(** What the services bind to a statement: [null], an [Integer], a
    [String], a [Boolean] or a [LocalDateTime] (an instant, as a number). *)
Inductive Value : Type :=
| VNull
| VInt (n : Z)
| VString (s : string)
| VBoolean (b : bool)
| VDateTime (t : Z).

#[global] Instance Value_eq_dec : EqDecision Value.
Proof. solve_decision. Defined.

(** A [String] reference is [None] when it is [null]. *)
Definition VString_of (s : option string) : Value :=
  match s with Some s => VString s | None => VNull end.

(** [class User] (lines 683-717). *)
Record User : Type := mkUser {
  id : Z;
  username : option string;
  email : option string;
  createdAt : Z;
  isActive : bool
}.

#[global] Instance User_eq_dec : EqDecision User.
Proof. solve_decision. Defined.

(** The calls on a connection that [Java.Call] has no name for. *)
Inductive ConnectionCall (Connection : Type) : Type :=
| CClose (c : Connection)
| CCommit (c : Connection)
| CRollback (c : Connection).
Arguments CClose {Connection}.
Arguments CCommit {Connection}.
Arguments CRollback {Connection}.

(** [String.trim]: the code units up to U+0020 are removed at both ends. *)
Fixpoint trim_left (s : string) : string :=
  match s with
  | String c s' => if (N_of_ascii c <=? 32)%N then trim_left s' else s
  | EmptyString => s
  end.

Definition String_trim (s : string) : string :=
  String.rev (trim_left (String.rev (trim_left s))).

(** [s == null || s.trim().isEmpty()] *)
Definition null_or_blank (s : option string) : bool :=
  match s with
  | None => true
  | Some s => String.eqb (String_trim s) ""
  end.

(** [a.equals(b)] for a non-null [a]. *)
Definition String_equals (a : string) (b : option string) : bool :=
  match b with
  | Some b => String.eqb a b
  | None => false
  end.

Definition is_alphanumeric (c : ascii) : bool :=
  let n := N_of_ascii c in
  ((48 <=? n) && (n <=? 57) || (65 <=? n) && (n <=? 90) || (97 <=? n) && (n <=? 122))%N.

(** The class [[A-Za-z0-9+_.-]]. *)
Definition local_part (c : ascii) : bool :=
  is_alphanumeric c || Ascii.eqb c "+" || Ascii.eqb c "_" || Ascii.eqb c "."
  || Ascii.eqb c "-".

(** [.] matches every code unit but a line terminator: LF, CR and NEL
    among the 8-bit ones. *)
Definition not_line_terminator (c : ascii) : bool :=
  let n := N_of_ascii c in negb ((n =? 10) || (n =? 13) || (n =? 133))%N.

(** [^[A-Za-z0-9+_.-]+@(.+)$]; [String.matches] matches the whole string. *)
Definition email_regex : Regex :=
  RSeq (RPlus (RClass local_part)) (RSeq (RChar "@") (RPlus (RClass not_line_terminator))).

Definition isValidEmail (email : string) : bool := regex_test email_regex email.

(** [catch (SQLException e)]: any other exception passes through. *)
Definition catch_SQLException {S A} (m : M S A) (handler : Exn -> M S A) : M S A :=
  try_catch m (fun e => match e with
                        | SQLException _ => handler e
                        | _ => throw e
                        end).

Section Program.
(** [java.sql] and the clock are collaborators, as in [Java].  A
    [ResultSet] is a forward cursor over finitely many rows: it is the list
    of the rows [next()] has not reached yet. *)
Context {World Connection Statement Row : Type}.
Variable Connection_isClosed : Connection -> World -> Outcome bool.
Variable Connection_isValid : Connection -> Z -> World -> Outcome bool.
Variable Connection_getAutoCommit : Connection -> World -> Outcome bool.
Variable Connection_commit : Connection -> World -> Outcome unit * World.
Variable Connection_rollback : Connection -> World -> Outcome unit * World.
Variable Connection_close : Connection -> World -> Outcome unit * World.
Variable Connection_prepareStatement :
  Connection -> string -> World -> Outcome Statement * World.
Variable Statement_setObject : Statement -> Z -> Value -> World -> Outcome unit * World.
Variable Statement_executeQuery : Statement -> World -> Outcome (list Row) * World.
Variable Statement_executeUpdate : Statement -> World -> Outcome Z * World.
Variable Statement_isClosed : Statement -> World -> Outcome bool.
Variable Statement_close : Statement -> World -> Outcome unit * World.
Variable HashMap_entries : gmap string Statement -> list (string * Statement).
Variable ResultSet_getInt : Row -> string -> Outcome Z.
Variable ResultSet_getString : Row -> string -> Outcome (option string).
Variable ResultSet_getBoolean : Row -> string -> Outcome bool.
Variable LocalDateTime_now : World -> Z.

(** The manager, the objects of class [User] (a reference is an index into
    [heap]) and the [UserService] built on the manager.  [log] keeps the
    calls of [commit], [rollback] and [close] on the connection. *)
Record Program : Type := mkProgram {
  db : @Java.DatabaseManager World Connection Statement Value;
  log : list (ConnectionCall Connection);
  heap : list User;
  userCache : gmap Z nat
}.

Definition set_db (d : @Java.DatabaseManager World Connection Statement Value)
    (p : Program) : Program :=
  {| db := d; log := log p; heap := heap p; userCache := userCache p |}.

Definition set_heap (h : list User) (p : Program) : Program :=
  {| db := db p; log := log p; heap := h; userCache := userCache p |}.

Definition set_userCache (c : gmap Z nat) (p : Program) : Program :=
  {| db := db p; log := log p; heap := heap p; userCache := c |}.

(** Run a method of the manager. *)
Definition on_db {A} (m : M (@Java.DatabaseManager World Connection Statement Value) A)
  : M Program A :=
  fun p => let '(r, d) := m (db p) in (r, set_db d p).

(** Make a call on the connection: record it, then run it on the world. *)
Definition connection_call {A} (c : ConnectionCall Connection)
    (f : World -> Outcome A * World) : M Program A :=
  fun p => let '(r, w) := f (Java.world (db p)) in
           (r, {| db := {| Java.world := w; Java.calls := Java.calls (db p);
                           Java.connectionString := Java.connectionString (db p);
                           Java.connection := Java.connection (db p);
                           Java.statementCache := Java.statementCache (db p);
                           Java.maxCacheSize := Java.maxCacheSize (db p);
                           Java.retryAttempts := Java.retryAttempts (db p);
                           Java.connectionTimeout := Java.connectionTimeout (db p) |};
                  log := (log p ++ [c])%list; heap := heap p;
                  userCache := userCache p |}).

Definition executeQuery (sql : string) (params : list Value) : M Program (list Row) :=
  on_db (Java.executeQuery Connection_isClosed Connection_isValid
           Connection_prepareStatement Statement_setObject Statement_executeQuery
           Statement_close HashMap_entries sql params).

Definition executeUpdate (sql : string) (params : list Value) : M Program Z :=
  on_db (Java.executeUpdate Connection_isClosed Connection_isValid
           Connection_prepareStatement Statement_setObject Statement_executeUpdate
           Statement_close HashMap_entries sql params).

(** *** class DatabaseManager, the rest *)

Definition commit : M Program unit :=
  p <- get_state ;;
  match Java.connection (db p) with
  | None => ret tt
  | Some c =>
      autoCommit <- on_db (Java.probe (Connection_getAutoCommit c)) ;;
      if negb autoCommit then connection_call (CCommit c) (Connection_commit c)
      else ret tt
  end.

Definition rollback : M Program unit :=
  p <- get_state ;;
  match Java.connection (db p) with
  | None => ret tt
  | Some c =>
      autoCommit <- on_db (Java.probe (Connection_getAutoCommit c)) ;;
      if negb autoCommit then connection_call (CRollback c) (Connection_rollback c)
      else ret tt
  end.

(** The loop of [disconnect] (lines 590-594).  A cached statement is never
    [null]: only results of [prepareStatement] are cached. *)
Fixpoint close_statements (stmts : list Statement) : M Program unit :=
  match stmts with
  | [] => ret tt
  | stmt :: stmts' =>
      closed <- on_db (Java.probe (Statement_isClosed stmt)) ;;
      (if negb closed
       then on_db (Java.call (Java.CCloseStatement stmt) (Statement_close stmt))
       else ret tt) ;;;
      close_statements stmts'
  end.

Definition disconnect : M Program unit :=
  catch_SQLException
    (p <- get_state ;;
     match Java.connection (db p) with
     | None => ret tt
     | Some c =>
         closed <- on_db (Java.probe (Connection_isClosed c)) ;;
         if negb closed then
           close_statements (HashMap_entries (Java.statementCache (db p))).*2 ;;;
           on_db (modify (Java.set_statementCache ∅)) ;;;
           connection_call (CClose c) (Connection_close c)
         else ret tt
     end)
    (fun _ => ret tt).

(** *** class User *)

(** Dereference [user]: [null] is [None], and so is taken a reference that
    is not in the heap. *)
Definition deref (user : option nat) : M Program User :=
  p <- get_state ;;
  match user ≫= (fun r => heap p !! r) with
  | Some u => ret u
  | None => throw (Error "NullPointerException")
  end.

(** [new User(id, username, email)] *)
Definition new_User (id : Z) (username email : option string) : M Program nat :=
  p <- get_state ;;
  let user := {| id := id; username := username; email := email;
                 createdAt := LocalDateTime_now (Java.world (db p)); isActive := true |} in
  modify (set_heap (heap p ++ [user])%list) ;;;
  ret (length (heap p)).

Definition update_User (f : User -> User) (user : option nat) : M Program unit :=
  u <- deref user ;;
  modify (fun p => set_heap (<[default 0%nat user := f u]> (heap p)) p).

Definition setEmail (user : option nat) (email : option string) : M Program unit :=
  update_User (fun u => {| id := id u; username := username u; email := email;
                           createdAt := createdAt u; isActive := isActive u |}) user.

Definition setActive (user : option nat) (active : bool) : M Program unit :=
  update_User (fun u => {| id := id u; username := username u; email := email u;
                           createdAt := createdAt u; isActive := active |}) user.

(** *** class UserService *)

Definition mapToUser (rs : Row) : M Program nat :=
  id <- (fun p => (ResultSet_getInt rs "id", p)) ;;
  username <- (fun p => (ResultSet_getString rs "username", p)) ;;
  email <- (fun p => (ResultSet_getString rs "email", p)) ;;
  user <- new_User id username email ;;
  active <- (fun p => (ResultSet_getBoolean rs "is_active", p)) ;;
  setActive (Some user) active ;;;
  ret user.

Definition findById (id : Z) : M Program (option nat) :=
  p <- get_state ;;
  match userCache p !! id with
  | Some user => ret (Some user)
  | None =>
      let sql := "SELECT * FROM users WHERE id = ?" in
      rs <- executeQuery sql [VInt id] ;;
      match rs with
      | row :: _ =>
          user <- mapToUser row ;;
          modify (fun p => set_userCache (<[id := user]> (userCache p)) p) ;;;
          ret (Some user)
      | [] => ret None
      end
  end.

Definition clearCache : M Program unit := modify (set_userCache ∅).

Definition findByEmail (email : option string) : M Program (option nat) :=
  match email with
  | None => throw (IllegalArgumentException "Email cannot be null or empty")
  | Some address =>
      if String.eqb (String_trim address) ""
      then throw (IllegalArgumentException "Email cannot be null or empty")
      else if negb (isValidEmail address) then ret None
      else
        let sql := "SELECT * FROM users WHERE email = ?" in
        rs <- executeQuery sql [VString address] ;;
        match rs with
        | row :: _ => user <- mapToUser row ;; ret (Some user)
        | [] => ret None
        end
  end.

Definition createUser (user : option nat) : M Program Z :=
  u <- deref user ;;
  if null_or_blank (username u)
  then throw (IllegalArgumentException "Username cannot be null or empty")
  else
    match email u with
    | None => throw (IllegalArgumentException "Invalid email address")
    | Some address =>
        if negb (isValidEmail address)
        then throw (IllegalArgumentException "Invalid email address")
        else
          existing <- findByEmail (Some address) ;;
          match existing with
          | Some _ =>
              throw (SQLException ("User with email " +:+ address +:+ " already exists"))
          | None =>
              let sql := "INSERT INTO users (username, email, created_at, is_active) VALUES (?, ?, ?, ?)" in
              u <- deref user ;;
              rowsAffected <- executeUpdate sql [VString_of (username u); VString_of (email u);
                                                 VDateTime (createdAt u); VBoolean (isActive u)] ;;
              clearCache ;;;
              ret rowsAffected
          end
    end.

Definition not_found (id : Z) : Exn :=
  SQLException ("User with id " +:+ Number_toString id +:+ " not found").

Definition updateUser (user : option nat) : M Program bool :=
  u <- deref user ;;
  existing <- findById (id u) ;;
  match existing with
  | None => throw (not_found (id u))
  | Some _ =>
      u <- deref user ;;
      e <- deref existing ;;
      match email u with
      | None => throw (Error "NullPointerException")
      | Some address =>
          if negb (String_equals address (email e)) && negb (isValidEmail address)
          then throw (IllegalArgumentException "Invalid email address")
          else
            let sql := "UPDATE users SET username = ?, email = ?, is_active = ? WHERE id = ?" in
            rowsAffected <- executeUpdate sql [VString_of (username u); VString_of (email u);
                                               VBoolean (isActive u); VInt (id u)] ;;
            clearCache ;;;
            ret (rowsAffected >? 0)%Z
      end
  end.

Definition deleteUser (id : Z) : M Program bool :=
  existing <- findById id ;;
  match existing with
  | None => throw (not_found id)
  | Some _ =>
      let sql := "DELETE FROM users WHERE id = ?" in
      rowsAffected <- executeUpdate sql [VInt id] ;;
      clearCache ;;;
      ret (rowsAffected >? 0)%Z
  end.

(** The loop of [listUsers] and [searchUsers] over the rows. *)
Fixpoint map_rows (rs : list Row) (users : list nat) : M Program (list nat) :=
  match rs with
  | [] => ret users
  | row :: rs' => user <- mapToUser row ;; map_rows rs' (users ++ [user])%list
  end.

Definition listUsers (limit offset : Z) : M Program (list nat) :=
  if (limit <=? 0)%Z || (limit >? 1000)%Z
  then throw (IllegalArgumentException "Limit must be between 1 and 1000")
  else if (offset <? 0)%Z
  then throw (IllegalArgumentException "Offset must be non-negative")
  else
    let sql := "SELECT * FROM users LIMIT ? OFFSET ?" in
    rs <- executeQuery sql [VInt limit; VInt offset] ;;
    map_rows rs [].

Definition countUsers : M Program Z :=
  let sql := "SELECT COUNT(*) as count FROM users" in
  rs <- executeQuery sql [] ;;
  match rs with
  | row :: _ => fun p => (ResultSet_getInt row "count", p)
  | [] => ret 0%Z
  end.

(** [keyword] is a [String] reference: [null] is concatenated as "null". *)
Definition searchUsers (keyword : option string) (limit : Z) : M Program (list nat) :=
  let sql := "SELECT * FROM users WHERE username LIKE ? OR email LIKE ? LIMIT ?" in
  let searchTerm := "%" +:+ default "null" keyword +:+ "%" in
  rs <- executeQuery sql [VString searchTerm; VString searchTerm; VInt limit] ;;
  map_rows rs [].

End Program.
End JavaRest.

(** * A manager with a full statement cache *)

Module DriverRest.
(** A manager that is connected and whose statement cache is full: a
    hundred statements. *)
Definition full_manager : @Java.DatabaseManager Z unit string JSValue :=
  Java.set_statementCache
    (list_to_map ((fun i => let sql := "SELECT " +:+ Number_toString i in (sql, sql))
                    <$> seqZ 1 100))
    Driver.open_manager.
End DriverRest.

(** * A small driver to run the Java services on

    The collaborator of the concrete runs of the Java services: a table of
    users behind a connection.  A statement handle is the text of the
    statement; the parameters bound to it are kept by the world. *)

Module Jdbc.

Record Row : Type := mkRow {
  row_id : Z;
  row_username : option string;
  row_email : option string;
  row_active : bool
}.

Record World : Type := mkWorld {
  table : list Row;                              (* the users *)
  bound : list (string * Z * JavaRest.Value);    (* bindings, the latest first *)
  closed : list string;                          (* the statements closed so far *)
  stuck : list string;                           (* the statements that fail to close *)
  open : bool;                                   (* the connection is open *)
  autoCommit : bool;
  clock : Z
}.

Definition set_table (t : list Row) (w : World) : World :=
  {| table := t; bound := bound w; closed := closed w; stuck := stuck w; open := open w;
     autoCommit := autoCommit w; clock := clock w |}.

Definition set_open (b : bool) (w : World) : World :=
  {| table := table w; bound := bound w; closed := closed w; stuck := stuck w; open := b;
     autoCommit := autoCommit w; clock := clock w |}.

Definition param (w : World) (stmt : string) (i : Z) : JavaRest.Value :=
  match List.find (fun b => String.eqb b.1.1 stmt && (b.1.2 =? i)%Z) (bound w) with
  | Some b => b.2
  | None => JavaRest.VNull
  end.

Definition has_id (v : JavaRest.Value) (r : Row) : bool :=
  bool_decide (v = JavaRest.VInt (row_id r)).

Definition getConnection (connectionString : string) (w : World) : Outcome unit * World :=
  (Return tt, set_open true w).

Definition setAutoCommit (c : unit) (b : bool) (w : World) : Outcome unit * World :=
  (Return tt, {| table := table w; bound := bound w; closed := closed w; stuck := stuck w;
                 open := open w; autoCommit := b; clock := clock w |}).

(** A connection that cannot leave auto-commit mode. *)
Definition setAutoCommit_refused (c : unit) (b : bool) (w : World) : Outcome unit * World :=
  (Throw (SQLException "auto-commit cannot be changed"), w).

Definition isClosed (c : unit) (w : World) : Outcome bool := Return (negb (open w)).
Definition isValid (c : unit) (timeout : Z) (w : World) : Outcome bool := Return (open w).
Definition getAutoCommit (c : unit) (w : World) : Outcome bool := Return (autoCommit w).
Definition conn_commit (c : unit) (w : World) : Outcome unit * World := (Return tt, w).
Definition conn_rollback (c : unit) (w : World) : Outcome unit * World := (Return tt, w).
Definition conn_close (c : unit) (w : World) : Outcome unit * World :=
  (Return tt, set_open false w).

Definition prepareStatement (c : unit) (sql : string) (w : World) : Outcome string * World :=
  (Return sql, w).

Definition setObject (stmt : string) (i : Z) (x : JavaRest.Value) (w : World)
  : Outcome unit * World :=
  (Return tt, {| table := table w; bound := (stmt, i, x) :: bound w; closed := closed w;
                 stuck := stuck w; open := open w; autoCommit := autoCommit w;
                 clock := clock w |}).

Definition stmt_executeQuery (stmt : string) (w : World) : Outcome (list Row) * World :=
  if String.eqb stmt "SELECT * FROM users WHERE id = ?" then
    (Return (List.filter (has_id (param w stmt 1)) (table w)), w)
  else if String.eqb stmt "SELECT * FROM users WHERE email = ?" then
    (Return (List.filter
               (fun r => bool_decide (param w stmt 1 = JavaRest.VString_of (row_email r)))
               (table w)), w)
  else if String.eqb stmt "SELECT * FROM users LIMIT ? OFFSET ?" then
    match param w stmt 1, param w stmt 2 with
    | JavaRest.VInt limit, JavaRest.VInt offset =>
        (Return (take (Z.to_nat limit) (drop (Z.to_nat offset) (table w))), w)
    | _, _ => (Throw (SQLException "bad parameters"), w)
    end
  else (Return [], w).

Definition text_of (v : JavaRest.Value) : option string :=
  match v with JavaRest.VString s => Some s | _ => None end.

Definition stmt_executeUpdate (stmt : string) (w : World) : Outcome Z * World :=
  if String.eqb stmt
       "INSERT INTO users (username, email, created_at, is_active) VALUES (?, ?, ?, ?)"
  then
    let row := {| row_id := Z.of_nat (length (table w)) + 1;
                  row_username := text_of (param w stmt 1);
                  row_email := text_of (param w stmt 2);
                  row_active := bool_decide (param w stmt 4 = JavaRest.VBoolean true) |} in
    (Return 1%Z, set_table (table w ++ [row])%list w)
  else if String.eqb stmt
            "UPDATE users SET username = ?, email = ?, is_active = ? WHERE id = ?"
  then
    let change r :=
      if has_id (param w stmt 4) r
      then {| row_id := row_id r; row_username := text_of (param w stmt 1);
              row_email := text_of (param w stmt 2);
              row_active := bool_decide (param w stmt 3 = JavaRest.VBoolean true) |}
      else r in
    (Return (Z.of_nat (length (List.filter (has_id (param w stmt 4)) (table w)))),
     set_table (map change (table w)) w)
  else if String.eqb stmt "DELETE FROM users WHERE id = ?" then
    (Return (Z.of_nat (length (List.filter (has_id (param w stmt 1)) (table w)))),
     set_table (List.filter (fun r => negb (has_id (param w stmt 1) r)) (table w)) w)
  else (Return 0%Z, w).

Definition stmt_isClosed (stmt : string) (w : World) : Outcome bool :=
  Return (existsb (String.eqb stmt) (closed w)).

Definition stmt_close (stmt : string) (w : World) : Outcome unit * World :=
  if existsb (String.eqb stmt) (stuck w)
  then (Throw (SQLException "the statement is in use"), w)
  else (Return tt, {| table := table w; bound := bound w; closed := stmt :: closed w;
                      stuck := stuck w; open := open w; autoCommit := autoCommit w;
                      clock := clock w |}).

Definition entries (m : gmap string string) : list (string * string) := map_to_list m.

Definition getInt (row : Row) (column : string) : Outcome Z :=
  if String.eqb column "id" then Return (row_id row)
  else Throw (SQLException "no such column").

Definition getString (row : Row) (column : string) : Outcome (option string) :=
  if String.eqb column "username" then Return (row_username row)
  else if String.eqb column "email" then Return (row_email row)
  else Throw (SQLException "no such column").

Definition getBoolean (row : Row) (column : string) : Outcome bool :=
  if String.eqb column "is_active" then Return (row_active row)
  else Throw (SQLException "no such column").

Definition now (w : World) : Z := clock w.

(** One user, behind an open connection. *)
Definition initial : World :=
  {| table := [ {| row_id := 1; row_username := Some "ann";
                   row_email := Some "ann@example.org"; row_active := true |} ];
     bound := []; closed := []; stuck := []; open := true; autoCommit := true;
     clock := 1000 |}.

(** The same, the statement that selects a user by id failing to close. *)
Definition initial_stuck : World :=
  {| table := table initial; bound := []; closed := [];
     stuck := ["SELECT * FROM users WHERE id = ?"]; open := true; autoCommit := true;
     clock := 1000 |}.

Definition Program : Type := @JavaRest.Program World unit string.

Definition fresh_manager (w : World)
  : @Java.DatabaseManager World unit string JavaRest.Value :=
  Java.new_DatabaseManager "jdbc:postgresql://db/shop" w.

Definition manager (w : World) : @Java.DatabaseManager World unit string JavaRest.Value :=
  Java.set_connection (Some tt) (fresh_manager w).

Definition program (w : World) : Program :=
  {| JavaRest.db := manager w; JavaRest.log := []; JavaRest.heap := [];
     JavaRest.userCache := ∅ |}.

(** The services on this driver. *)
Definition executeQuery : string -> list JavaRest.Value -> M Program (list Row) :=
  JavaRest.executeQuery isClosed isValid prepareStatement setObject stmt_executeQuery
    stmt_close entries.
Definition executeUpdate : string -> list JavaRest.Value -> M Program Z :=
  JavaRest.executeUpdate isClosed isValid prepareStatement setObject stmt_executeUpdate
    stmt_close entries.
Definition findById : Z -> M Program (option nat) :=
  JavaRest.findById isClosed isValid prepareStatement setObject stmt_executeQuery
    stmt_close entries getInt getString getBoolean now.
Definition findByEmail : option string -> M Program (option nat) :=
  JavaRest.findByEmail isClosed isValid prepareStatement setObject stmt_executeQuery
    stmt_close entries getInt getString getBoolean now.
Definition createUser : option nat -> M Program Z :=
  JavaRest.createUser isClosed isValid prepareStatement setObject stmt_executeQuery
    stmt_executeUpdate stmt_close entries getInt getString getBoolean now.
Definition updateUser : option nat -> M Program bool :=
  JavaRest.updateUser isClosed isValid prepareStatement setObject stmt_executeQuery
    stmt_executeUpdate stmt_close entries getInt getString getBoolean now.
Definition deleteUser : Z -> M Program bool :=
  JavaRest.deleteUser isClosed isValid prepareStatement setObject stmt_executeQuery
    stmt_executeUpdate stmt_close entries getInt getString getBoolean now.
Definition listUsers : Z -> Z -> M Program (list nat) :=
  JavaRest.listUsers isClosed isValid prepareStatement setObject stmt_executeQuery
    stmt_close entries getInt getString getBoolean now.
Definition new_User : Z -> option string -> option string -> M Program nat :=
  JavaRest.new_User now.
Definition disconnect : M Program unit :=
  JavaRest.disconnect isClosed conn_close stmt_isClosed stmt_close entries.

(** User 1 has been read; the caller then writes a malformed address into
    the object it was given. *)
Definition after_read (w : World) : Program := (findById 1 (program w)).2.

Definition after_edit : Program :=
  (JavaRest.setEmail (Some 0%nat) (Some "not an address") (after_read initial)).2.

End Jdbc.

(** * The vocabulary of the properties *)

(** Pairwise different strings, as a test. *)
Fixpoint distinct (l : list string) : bool :=
  match l with
  | [] => true
  | k :: l' => negb (existsb (String.eqb k) l') && distinct l'
  end.

(** What [query] leaves in the cache when it has to insert into [c]. *)
Definition evicted (c : list (string * JS.QResult)) : list (string * JS.QResult) :=
  if (Map_size c >? 1000)%Z then drop 100 c else c.

Definition returned {A} (o : Outcome A) : bool :=
  match o with Return _ => true | Throw _ => false end.

Definition key_of (q : string * list JSValue) : string := JS.generateCacheKey q.1 q.2.

(** How many times the cache has been trimmed once [n] entries have been
    inserted into an empty cache: first at the 1002nd insertion, then at
    every 100th after it. *)
Definition evictions (n : nat) : nat := (n - 902) / 100.

Definition select_user_key (id : Z) : string :=
  JS.generateCacheKey "SELECT * FROM users WHERE id = ?" [JNum id].

Section Runs.
Context {World Connection : Type}.
Variable executeQuery :
  option Connection -> string -> list JSValue -> World -> Outcome JS.QResult * World.

(** The calls [query(sql, params)] for the statements of [qs], one after
    the other, the caller going on after a call that throws: the outcomes
    and the final state. *)
Fixpoint run_queries (qs : list (string * list JSValue)) (p : @JS.Program World Connection)
  : list (Outcome JS.QResult) * @JS.Program World Connection :=
  match qs with
  | [] => ([], p)
  | (sql, params) :: qs' =>
      let '(o, p1) := JS.query executeQuery sql params p in
      let '(os, p2) := run_queries qs' p1 in
      (o :: os, p2)
  end.
End Runs.

(** A session with [lastActivity] set to [now]. *)
Definition touched (now : Z) (s : JS.Session) : JS.Session :=
  {| JS.userId := JS.userId s; JS.createdAt := JS.createdAt s; JS.lastActivity := now |}.


Definition defined (v : JSValue) : bool := negb (bool_decide (v = JUndefined)).






(** [price * quantity] for an item, at the price [productCache] holds. *)
Definition line_total {World Connection} (p : @JS.Program World Connection)
    (item : JSRest.OrderItem) : JSRest.Number :=
  JSRest.js_mul
    (JSRest.to_number (prop (default ∅ (JS.productCache p !! JSRest.productId item)) "price"))
    (JSRest.to_number (JSRest.quantity item)).

(** The calls [setParameters] makes when every one of them succeeds:
    parameter [i] (from 0) is bound at index [i + 1]. *)
Definition bindings {Statement Object} (stmt : Statement) (params : list Object)
  : list (Java.Call Statement Object) :=
  imap (fun i x => Java.CSetObject stmt (Z.of_nat i + 1) x) params.

(** [k] attempts from attempt number [attempt + 1] on, with the pause
    [1000 * i] after the failed attempt number [i]. *)
Fixpoint attempts_trace (attempt : Z) (k : nat) : list JS.Event :=
  match k with
  | O => []
  | S k' =>
      JS.EvEstablish ::
      match k' with
      | O => []
      | S _ => JS.EvSleep (1000 * (attempt + 1)) :: attempts_trace (attempt + 1) k'
      end
  end.

(** The same for the Java [connect]. *)
Fixpoint calls_trace {Statement Object} (cs : string) (attempt : Z) (k : nat)
  : list (Java.Call Statement Object) :=
  match k with
  | O => []
  | S k' =>
      Java.CGetConnection cs ::
      match k' with
      | O => []
      | S _ => Java.CSleep (1000 * (attempt + 1)) :: calls_trace cs (attempt + 1) k'
      end
  end.

(** [m], run from [st], ends with an outcome and a state that satisfy [Q]. *)
Definition wp {S A} (m : M S A) (Q : Outcome A -> S -> Prop) (st : S) : Prop :=
  Q (m st).1 (m st).2.

(** The strings a regular expression matches, as the pattern reads. *)
Inductive matches : Regex -> string -> Prop :=
| MEmpty : matches REmpty ""
| MClass accepts c : accepts c = true -> matches (RClass accepts) (String c "")
| MSeq r1 r2 s1 s2 : matches r1 s1 -> matches r2 s2 -> matches (RSeq r1 r2) (s1 +:+ s2)
| MAltL r1 r2 s : matches r1 s -> matches (RAlt r1 r2) s
| MAltR r1 r2 s : matches r2 s -> matches (RAlt r1 r2) s
| MStarNil r : matches (RStar r) ""
| MStarApp r s1 s2 :
    matches r s1 -> matches (RStar r) s2 -> matches (RStar r) (s1 +:+ s2).

(** Every code unit of [s] is in the class. *)
Fixpoint all_of (accepts : ascii -> bool) (s : string) : bool :=
  match s with
  | EmptyString => true
  | String c s' => accepts c && all_of accepts s'
  end.

(** A code unit that is neither white space nor [@]: the class [[^\s@]]. *)
Definition plain (c : ascii) : bool := negb (is_whitespace c || Ascii.eqb c "@").

(** A code unit other than [@]. *)
Definition not_at (c : ascii) : bool := negb (Ascii.eqb c "@").

(** [m] without the keys of [keys]. *)
Definition removed {V} (keys : list string) (m : gmap string V) : gmap string V :=
  foldl (fun m k => delete k m) m keys.

(** The fields of the Java manager that a call on the driver leaves alone. *)
Definition same_fields {World Connection Statement Object}
    (d d' : @Java.DatabaseManager World Connection Statement Object) : Prop :=
  Java.statementCache d' = Java.statementCache d
  /\ Java.maxCacheSize d' = Java.maxCacheSize d
  /\ Java.connection d' = Java.connection d.

(** What a run of the loop of the JavaScript [connect] from attempt number
    [attempts + 1] on has done, by its outcome. *)
Definition connect_result {World Connection}
    (establishConnection : World -> Outcome Connection * World)
    (p : @JS.Program World Connection) (attempts : Z) (o : Outcome unit)
    (p' : @JS.Program World Connection) : Prop :=
  let left := (JS.retryAttempts (JS.db p) - attempts)%Z in
  JS.retryAttempts (JS.db p') = JS.retryAttempts (JS.db p)
  /\ match o with
     | Return _ =>
         exists (k : nat) c w,
           (1 <= k)%nat /\ (Z.of_nat k <= left)%Z
           /\ establishConnection w = (Return c, JS.world p')
           /\ JS.connection (JS.db p') = Some c
           /\ JS.trace p' = (JS.trace p ++ attempts_trace attempts k)%list
     | Throw e =>
         exists w,
           establishConnection w = (Throw e, JS.world p')
           /\ JS.connection (JS.db p') = JS.connection (JS.db p)
           /\ JS.trace p' = (JS.trace p ++ attempts_trace attempts (Z.to_nat left))%list
     end.

(** [m] relates every state it is run from to the state it ends in. *)
Definition keeps {S A} (R : S -> S -> Prop) (m : M S A) : Prop :=
  forall s, R s (m s).2.

Definition is_update {Statement Object} (c : Java.Call Statement Object) : bool :=
  match c with Java.CExecuteUpdate _ => true | _ => false end.

(** How many times [executeUpdate] has been called on a statement. *)
Definition updates {Statement Object} (calls : list (Java.Call Statement Object)) : nat :=
  length (List.filter is_update calls).

(** No update has been executed between two states of the manager. *)
Definition no_update {World Connection Statement Object}
    (d d' : @Java.DatabaseManager World Connection Statement Object) : Prop :=
  updates (Java.calls d') = updates (Java.calls d).

(** How many updates the program has executed. *)
Definition executed {World Connection Statement}
    (p : @JavaRest.Program World Connection Statement) : nat :=
  updates (Java.calls (JavaRest.db p)).

(** No update has been executed between two states of the program. *)
Definition same_executed {World Connection Statement}
    (p p' : @JavaRest.Program World Connection Statement) : Prop :=
  executed p' = executed p.

(** A step that leaves the manager and the cache alone: it only reads, or
    only allocates and initialises objects. *)
Definition same_service {World Connection Statement}
    (p p' : @JavaRest.Program World Connection Statement) : Prop :=
  JavaRest.db p' = JavaRest.db p /\ JavaRest.userCache p' = JavaRest.userCache p
  /\ JavaRest.log p' = JavaRest.log p.

(** A parameter that [JSON.stringify] writes as the model does: a number is
    an integer of at most 2^53 in absolute value, printed with all its
    digits. *)
Definition safe_integer (v : JSValue) : bool :=
  match v with
  | JNum n => ((- 2 ^ 53 <=? n) && (n <=? 2 ^ 53))%Z
  | _ => true
  end.

(** [undefined] in an array is serialised as [null]. *)
Definition undefined_as_null (v : JSValue) : JSValue :=
  match v with JUndefined => JNull | _ => v end.

(** Where a reader of serialised parameters is: outside a string literal,
    inside one, or inside one just after a backslash. *)
Inductive Position : Type := Outside | Inside | Escaped.

(** One code unit further.  Outside a string literal neither a backslash
    nor a colon can occur. *)
Definition advance (at_ : Position) (c : ascii) : option Position :=
  match at_ with
  | Outside =>
      if Ascii.eqb c "034" then Some Inside
      else if Ascii.eqb c "\" || Ascii.eqb c ":" then None
      else Some Outside
  | Inside =>
      if Ascii.eqb c "034" then Some Outside
      else if Ascii.eqb c "\" then Some Escaped
      else Some Inside
  | Escaped => Some Inside
  end.

Fixpoint read (at_ : Position) (s : string) : option Position :=
  match s with
  | EmptyString => Some at_
  | String c s' =>
      match advance at_ c with
      | Some next => read next s'
      | None => None
      end
  end.

(** The code unit an escape stands for, and what follows the escape. *)
Definition hex_value (c : ascii) : N :=
  let n := N_of_ascii c in if (n <? 58)%N then (n - 48)%N else (n - 87)%N.

Definition unescape (s : string) : option (ascii * string) :=
  match s with
  | String "\" (String "u" (String _ (String _ (String x (String y rest))))) =>
      Some (ascii_of_N (16 * hex_value x + hex_value y), rest)
  | String "\" (String c rest) =>
      Some (if Ascii.eqb c "b" then "008"%char
            else if Ascii.eqb c "f" then "012"%char
            else if Ascii.eqb c "n" then "010"%char
            else if Ascii.eqb c "r" then "013"%char
            else if Ascii.eqb c "t" then "009"%char
            else c, rest)
  | String c rest => Some (c, rest)
  | EmptyString => None
  end.

(** The serialised element at the head of [s], and what follows it: a
    string literal runs to its closing quote, anything else to the next
    comma or bracket. *)
Fixpoint to_closing_quote (escaped : bool) (s : string) : string * string :=
  match s with
  | EmptyString => (EmptyString, EmptyString)
  | String c s' =>
      if escaped then
        let '(literal, rest) := to_closing_quote false s' in (String c literal, rest)
      else if Ascii.eqb c "034" then (String c EmptyString, s')
      else
        let '(literal, rest) := to_closing_quote (Ascii.eqb c "\") s' in
        (String c literal, rest)
  end.

Fixpoint to_delimiter (s : string) : string * string :=
  match s with
  | EmptyString => (EmptyString, EmptyString)
  | String c s' =>
      if Ascii.eqb c "," || Ascii.eqb c "]" then (EmptyString, s)
      else let '(element, rest) := to_delimiter s' in (String c element, rest)
  end.

Definition first_element (s : string) : string * string :=
  match s with
  | String c s' =>
      if Ascii.eqb c "034"
      then let '(literal, rest) := to_closing_quote false s' in (String c literal, rest)
      else to_delimiter s
  | EmptyString => (EmptyString, EmptyString)
  end.

(** What can follow an element in a serialised array. *)
Definition ends_element (rest : string) : bool :=
  match rest with
  | String c _ => Ascii.eqb c "," || Ascii.eqb c "]"
  | EmptyString => true
  end.

(** A code unit of a serialised number, [null], [true] or [false]. *)
Definition bare (c : ascii) : bool :=
  negb (Ascii.eqb c "034" || Ascii.eqb c "\" || Ascii.eqb c ":" || Ascii.eqb c ","
        || Ascii.eqb c "]").

(** Decide a closed statement by evaluation. *)
Ltac by_evaluation := refine (bool_decide_unpack _ _); vm_compute; exact I.
Ltac each_by_evaluation := cbv zeta; repeat split; by_evaluation.

(** * Properties *)

(** ** The insertion-ordered map *)

Section OrderedMapFacts.
Context {V : Type}.
Implicit Types (m : list (string * V)) (k : string) (v : V).

Lemma Map_get_set_eq m k v : Map_get (Map_set m k v) k = Some v.
Proof.
  induction m as [|[k' v'] m IH]; simpl.
  - by rewrite String.eqb_refl.
  - destruct (String.eqb k' k) eqn:E; simpl; rewrite E; [done | apply IH].
Qed.

Lemma Map_get_notin_None m k : k ∉ m.*1 -> Map_get m k = None.
Proof.
  induction m as [|[k' v'] m IH]; simpl; intros H; [done |].
  apply not_elem_of_cons in H as [Hne H].
  destruct (String.eqb k' k) eqn:E; [| auto].
  apply String.eqb_eq in E. congruence.
Qed.

(** A key that is absent is appended: it becomes the newest entry. *)
Lemma Map_set_absent m k v : Map_get m k = None -> Map_set m k v = (m ++ [(k, v)])%list.
Proof.
  induction m as [|[k' v'] m IH]; simpl; intros H; [done |].
  destruct (String.eqb k' k); [done |]. by rewrite IH.
Qed.

Lemma Map_get_drop_None m k n : Map_get m k = None -> Map_get (drop n m) k = None.
Proof.
  revert n. induction m as [|[k' v'] m IH]; intros [|n] H; simpl in *; try done.
  destruct (String.eqb k' k); [done |]. by apply IH.
Qed.

End OrderedMapFacts.

Lemma distinct_NoDup l : distinct l = true -> NoDup l.
Proof.
  induction l as [|k l IH]; simpl; intros H; [constructor |].
  apply andb_true_iff in H as [H1 H2]. constructor; [| auto].
  intros Hin. apply negb_true_iff in H1.
  assert (existsb (String.eqb k) l = true); [| congruence].
  apply existsb_exists. exists k. split; [by apply list_elem_of_In | apply String.eqb_refl].
Qed.

(** ** The JavaScript [DatabaseManager]: the query cache *)

Section QueryCacheFacts.
Context {World Connection : Type}.
Variable executeQuery :
  option Connection -> string -> list JSValue -> World -> Outcome JS.QResult * World.

Local Abbreviation Program := (@JS.Program World Connection).
Local Abbreviation query := (JS.query executeQuery).
Implicit Types (p : Program) (sql : string) (params : list JSValue).

Lemma set_queryCache_same p : JS.set_queryCache (JS.queryCache (JS.db p)) p = p.
Proof. by destruct p as [? ? [] ? ? ?]. Qed.

Lemma fold_delete_entries (pre rest : list (string * JS.QResult)) p :
  JS.queryCache (JS.db p) = (pre ++ rest)%list ->
  fold_left (fun p e => JS.set_queryCache (Map_delete (JS.queryCache (JS.db p)) e.1) p) pre p
  = JS.set_queryCache rest p.
Proof.
  revert p. induction pre as [|[k v] pre IH]; intros p H; simpl in *.
  - by rewrite <- H, set_queryCache_same.
  - rewrite IH; simpl; rewrite H; simpl; by rewrite String.eqb_refl.
Qed.

(** [clearOldestCacheEntries] drops the 100 oldest entries (all of them
    when there are fewer). *)
Lemma clearOldestCacheEntries_drop p :
  JS.clearOldestCacheEntries p
  = (Return tt, JS.set_queryCache (drop 100 (JS.queryCache (JS.db p))) p).
Proof.
  unfold JS.clearOldestCacheEntries, bind, get_state, modify, slice0, Map_entries.
  f_equal. apply fold_delete_entries. by rewrite take_drop.
Qed.

Lemma query_hit sql params p r :
  Map_get (JS.queryCache (JS.db p)) (JS.generateCacheKey sql params) = Some r ->
  query sql params p = (Return r, p).
Proof. intros H. unfold JS.query, bind, get_state, ret. by rewrite H. Qed.

Lemma query_miss_throw sql params p e w' :
  Map_get (JS.queryCache (JS.db p)) (JS.generateCacheKey sql params) = None ->
  executeQuery (JS.connection (JS.db p)) sql params (JS.world p) = (Throw e, w') ->
  query sql params p = (Throw e, JS.set_world w' p).
Proof.
  intros H E. unfold JS.query, bind, get_state, JS.on_world. by rewrite H, E.
Qed.

Lemma query_miss_return sql params p r w' :
  Map_get (JS.queryCache (JS.db p)) (JS.generateCacheKey sql params) = None ->
  executeQuery (JS.connection (JS.db p)) sql params (JS.world p) = (Return r, w') ->
  query sql params p
  = (Return r,
     JS.set_queryCache
       (evicted (JS.queryCache (JS.db p)) ++ [(JS.generateCacheKey sql params, r)])%list
       (JS.set_world w' p)).
Proof.
  intros H E. unfold JS.query, bind, get_state, JS.on_world. rewrite H, E.
  unfold evicted. simpl.
  destruct (Map_size (JS.queryCache (JS.db p)) >? 1000)%Z.
  - rewrite clearOldestCacheEntries_drop. unfold modify, ret. simpl.
    by rewrite Map_set_absent by by apply Map_get_drop_None.
  - unfold modify, ret. simpl. by rewrite Map_set_absent.
Qed.

(** The three ways a call of [query] can go. *)
Lemma query_cases sql params p :
  let key := JS.generateCacheKey sql params in
  let c := JS.queryCache (JS.db p) in
  (exists r, Map_get c key = Some r /\ query sql params p = (Return r, p))
  \/ (exists e w', Map_get c key = None /\
        query sql params p = (Throw e, JS.set_world w' p))
  \/ (exists r w', Map_get c key = None /\
        query sql params p
        = (Return r, JS.set_queryCache (evicted c ++ [(key, r)])%list (JS.set_world w' p))).
Proof.
  intros key c. destruct (Map_get c key) as [r|] eqn:H.
  - left. exists r. split; [done |]. by apply query_hit.
  - destruct (executeQuery (JS.connection (JS.db p)) sql params (JS.world p))
      as [[r|e] w'] eqn:E.
    + right; right. exists r, w'. split; [done |]. by apply query_miss_return.
    + right; left. exists e, w'. split; [done |]. by apply query_miss_throw.
Qed.

(** C10.  [query] caches the result of every statement under the key made
    of the SQL text and the serialised parameters, whatever the statement
    is: the key is [sql:JSON(params)]; a call whose key is cached returns
    the cached result and leaves the whole state, the store included, as
    it was; and once a call has returned, the same call again returns the
    same result and leaves the store as the first call left it. *)
Theorem query_repeated_statement_served_from_cache sql params p :
  JS.generateCacheKey sql params = sql +:+ ":" +:+ JSON_stringify params
  /\ (forall r,
        Map_get (JS.queryCache (JS.db p)) (JS.generateCacheKey sql params) = Some r ->
        query sql params p = (Return r, p))
  /\ (forall r p1,
        query sql params p = (Return r, p1) ->
        query sql params p1 = (Return r, p1)).
Proof.
  split; [done |]. split; [intros r; apply query_hit |].
  intros r p1 H. apply query_hit.
  destruct (query_cases sql params p)
    as [(r' & Hget & E) | [(e & w' & _ & E) | (r' & w' & Hnone & E)]];
    rewrite E in H; simplify_eq; [done |].
  simpl. rewrite <- Map_set_absent; [apply Map_get_set_eq |].
  unfold evicted. destruct (_ >? _)%Z; [by apply Map_get_drop_None | done].
Qed.

(** *** The size of the cache and the order of eviction *)

Local Abbreviation run_queries := (run_queries executeQuery).
Local Arguments Nat.mul : simpl never.
Local Arguments evictions : simpl never.

Lemma length_evicted_le (c : list (string * JS.QResult)) :
  (length c <= 1001)%nat -> (length (evicted c) <= 1000)%nat.
Proof.
  unfold evicted, Map_size. intros H.
  destruct (Z.of_nat (length c) >? 1000)%Z eqn:E.
  - rewrite length_drop. lia.
  - lia.
Qed.

Lemma query_cache_bound sql params p :
  (length (JS.queryCache (JS.db p)) <= 1001)%nat ->
  (length (JS.queryCache (JS.db (query sql params p).2)) <= 1001)%nat.
Proof.
  intros H.
  destruct (query_cases sql params p)
    as [(r & _ & E) | [(e & w' & _ & E) | (r & w' & _ & E)]]; rewrite E; simpl; try done.
  rewrite length_app. simpl. apply length_evicted_le in H. lia.
Qed.

Lemma run_queries_cache_bound qs p :
  (length (JS.queryCache (JS.db p)) <= 1001)%nat ->
  (length (JS.queryCache (JS.db (run_queries qs p).2)) <= 1001)%nat.
Proof.
  revert p. induction qs as [|[sql params] qs IH]; intros p H; simpl; [done |].
  pose proof (query_cache_bound sql params p H) as H1.
  destruct (query sql params p) as [o p1]. simpl in H1.
  specialize (IH p1 H1). by destruct (run_queries qs p1).
Qed.

Lemma evictions_step (m : nat) :
  (100 * evictions m <= m)%nat /\
  (if (Z.of_nat (m - 100 * evictions m) >? 1000)%Z
   then evictions (S m) = S (evictions m)
   else evictions (S m) = evictions m).
Proof.
  unfold evictions.
  pose proof (Nat.div_mod_eq (m - 902) 100) as H1.
  pose proof (Nat.mod_upper_bound (m - 902) 100 ltac:(lia)) as H2.
  pose proof (Nat.div_mod_eq (S m - 902) 100) as H3.
  pose proof (Nat.mod_upper_bound (S m - 902) 100 ltac:(lia)) as H4.
  split; [lia |].
  destruct (Z.gtb_spec (Z.of_nat (m - 100 * ((m - 902) / 100))) 1000); lia.
Qed.

(** Inserting distinct keys: [done] are the keys inserted so far. *)
Lemma run_queries_fifo qs : forall (done : list string) p,
  (JS.queryCache (JS.db p)).*1 = drop (100 * evictions (length done)) done ->
  NoDup (done ++ (key_of <$> qs)) ->
  forallb returned (run_queries qs p).1 = true ->
  (JS.queryCache (JS.db (run_queries qs p).2)).*1
  = drop (100 * evictions (length (done ++ (key_of <$> qs)))) (done ++ (key_of <$> qs)).
Proof.
  induction qs as [|[sql params] qs IH]; intros done p Hc Hnd Hok; simpl in *.
  - by rewrite app_nil_r.
  - set (key := JS.generateCacheKey sql params) in *.
    assert (Hnone : Map_get (JS.queryCache (JS.db p)) key = None).
    { apply Map_get_notin_None. rewrite Hc. intros Hin.
      apply NoDup_app in Hnd as (_ & Hnd & _).
      apply (Hnd key); [by eapply subseteq_drop | apply elem_of_cons; by left]. }
    destruct (query_cases sql params p)
      as [(r & Hget & E) | [(e & w' & _ & E) | (r & w' & _ & E)]];
      fold key in E |- *.
    + fold key in Hget. congruence.
    + rewrite E in Hok. by destruct (run_queries qs _).
    + rewrite E in Hok |- *.
      specialize (IH (done ++ [key])%list
        (JS.set_queryCache (evicted (JS.queryCache (JS.db p)) ++ [(key, r)])%list
                           (JS.set_world w' p))).
      destruct (run_queries qs _) as [os p2]. simpl in *.
      rewrite <- !(assoc_L (++)) in IH. simpl in IH. apply IH; [| done | done].
      rewrite fmap_app, length_app. simpl.
      destruct (evictions_step (length done)) as [Hle Hstep].
      assert (Hlen : length (JS.queryCache (JS.db p))
                     = (length done - 100 * evictions (length done))%nat).
      { by rewrite <- (length_fmap fst), Hc, length_drop. }
      rewrite Nat.add_1_r. unfold evicted, Map_size. rewrite Hlen.
      destruct (Z.gtb_spec (Z.of_nat (length done - 100 * evictions (length done))) 1000).
      * rewrite Hstep, fmap_drop, Hc, drop_drop, drop_app_le by lia.
        do 2 f_equal. lia.
      * by rewrite Hstep, Hc, drop_app_le by lia.
Qed.

(** C2, as the code has it.  The size test precedes the insertion and is
    strict, so the bound is 1001: starting from an empty cache, whatever
    statements are run and whether they succeed or throw, the cache never
    holds more than 1001 entries.  An insertion first drops the 100 oldest
    entries when the cache holds more than 1000, and appends the new entry
    as the newest.  After [n] statements with distinct keys, all
    successful, the absent keys are exactly the [100 * evictions n]
    earliest-inserted ones. *)
Theorem query_cache_size_and_fifo_eviction qs p :
  JS.queryCache (JS.db p) = [] ->
  (Map_size (JS.queryCache (JS.db (run_queries qs p).2)) <= 1001)%Z
  /\ (forall sql params p0 r w',
        Map_get (JS.queryCache (JS.db p0)) (JS.generateCacheKey sql params) = None ->
        executeQuery (JS.connection (JS.db p0)) sql params (JS.world p0) = (Return r, w') ->
        JS.queryCache (JS.db (query sql params p0).2)
        = ((if (Map_size (JS.queryCache (JS.db p0)) >? 1000)%Z
            then drop 100 (JS.queryCache (JS.db p0)) else JS.queryCache (JS.db p0))
           ++ [(JS.generateCacheKey sql params, r)])%list)
  /\ (NoDup (key_of <$> qs) ->
      forallb returned (run_queries qs p).1 = true ->
      (JS.queryCache (JS.db (run_queries qs p).2)).*1
      = drop (100 * evictions (length qs)) (key_of <$> qs)).
Proof.
  intros Hempty. split; [| split].
  - pose proof (run_queries_cache_bound qs p) as H. rewrite Hempty in H.
    unfold Map_size. simpl in H. lia.
  - intros sql params p0 r w' Hnone E.
    by rewrite (query_miss_return _ _ _ _ _ Hnone E).
  - intros Hnd Hok.
    pose proof (run_queries_fifo qs [] p) as H. simpl in H.
    rewrite length_fmap in H. apply H; [by rewrite Hempty | done | done].
Qed.

End QueryCacheFacts.

(** ** Reads after writes through the two caches *)

Section ServiceFacts.
Context {World Connection : Type}.
Variable executeQuery :
  option Connection -> string -> list JSValue -> World -> Outcome JS.QResult * World.

Local Abbreviation Program := (@JS.Program World Connection).
Local Abbreviation query := (JS.query executeQuery).
Local Abbreviation getUser := (JS.getUser executeQuery).
Local Abbreviation updateUser := (JS.updateUser executeQuery).
Local Abbreviation deleteProduct := (JS.deleteProduct executeQuery).
Local Abbreviation createProduct := (JS.createProduct executeQuery).
Implicit Types (p : Program) (id : Z).

Lemma Map_get_app_None {V} (m m' : list (string * V)) k :
  Map_get m k = None -> Map_get (m ++ m') k = Map_get m' k.
Proof.
  induction m as [|[k' v'] m IH]; simpl; intros H; [done |].
  destruct (String.eqb k' k); [done | auto].
Qed.

Lemma Map_get_evicted_None (c : list (string * JS.QResult)) k :
  Map_get c k = None -> Map_get (evicted c) k = None.
Proof. unfold evicted. destruct (_ >? _)%Z; [apply Map_get_drop_None | done]. Qed.

(** The newest entry survives the next insertion. *)
Lemma Map_get_newest_survives (c : list (string * JS.QResult)) k v k' v' :
  Map_get c k = None -> k' <> k ->
  Map_get (evicted (c ++ [(k, v)]) ++ [(k', v')]) k = Some v.
Proof.
  intros Hnone Hne.
  assert (Hlast : forall m : list (string * JS.QResult),
             Map_get m k = None -> Map_get ((m ++ [(k, v)]) ++ [(k', v')]) k = Some v).
  { intros m Hm. rewrite <- (assoc_L (++)), Map_get_app_None by done. simpl.
    by rewrite String.eqb_refl. }
  unfold evicted, Map_size. destruct (Z.gtb_spec (Z.of_nat (length (c ++ [(k, v)]))) 1000).
  - rewrite length_app in *. simpl in *. rewrite drop_app_le by lia.
    apply Hlast. by apply Map_get_drop_None.
  - by apply Hlast.
Qed.

Lemma getUser_miss id p :
  JS.userCache p !! id = None ->
  getUser id p
  = match query "SELECT * FROM users WHERE id = ?" [JNum id] p with
    | (Return result, p') =>
        match JS.first_row result with
        | Some row => (Return (Some row), JS.set_userCache (<[id := row]> (JS.userCache p')) p')
        | None => (Return None, p')
        end
    | (Throw e, p') => (Throw e, p')
    end.
Proof.
  intros H. unfold JS.getUser, bind at 1, get_state at 1. rewrite H. unfold bind.
  destruct (query _ _ p) as [[result|e] p']; [| done].
  by destruct (JS.first_row result).
Qed.

(** Whatever the store does: when neither cache knows the user, an
    [updateUser] that returns is followed by a [getUser] that returns the row
    read before the update, without running a statement. *)
Lemma getUser_after_updateUser_is_served_from_queryCache id userData p r p1 :
  JS.userCache p !! id = None ->
  Map_get (JS.queryCache (JS.db p)) (select_user_key id) = None ->
  updateUser id userData p = (Return r, p1) ->
  exists row,
    (getUser id p).1 = Return (Some row)
    /\ (getUser id p1).1 = Return (Some row)
    /\ JS.world (getUser id p1).2 = JS.world p1.
Proof.
  intros Hu Hq Hupd. unfold JS.updateUser, bind at 1 in Hupd.
  rewrite (getUser_miss id p Hu) in Hupd |- *.
  destruct (query_cases executeQuery "SELECT * FROM users WHERE id = ?" [JNum id] p)
    as [(res & Hget & E) | [(e & w' & _ & E) | (res & w' & _ & E)]]; rewrite E in Hupd |- *.
  { unfold select_user_key in Hq. congruence. }
  { done. }
  destruct (JS.first_row res) as [row|] eqn:Hrow; [| done].
  exists row. split; [done |].
  set (c1 := (evicted (JS.queryCache (JS.db p)) ++ [(select_user_key id, res)])%list) in *.
  set (pb := JS.set_userCache _ _) in Hupd.
  unfold bind, JS.UserService_clearCache, modify, ret in Hupd.
  set (sql := "UPDATE users SET name = ?, email = ?, role = ? WHERE id = ?") in Hupd.
  set (params := [js_or _ _; _; _; _]) in Hupd.
  assert (Hcached : Map_get (JS.queryCache (JS.db p1)) (select_user_key id) = Some res
                    /\ JS.userCache p1 !! id = None).
  { destruct (query_cases executeQuery sql params pb)
      as [(r' & _ & E') | [(e & w'' & _ & E') | (r' & w'' & _ & E')]];
      rewrite E' in Hupd; simplify_eq; simpl.
    - split; [| done]. subst c1. rewrite Map_get_app_None by by apply Map_get_evicted_None.
      simpl. by rewrite String.eqb_refl.
    - split; [| done]. subst c1. apply Map_get_newest_survives.
      + by apply Map_get_evicted_None.
      + unfold select_user_key, JS.generateCacheKey. subst sql. simpl. discriminate. }
  destruct Hcached as [Hc Hu1].
  rewrite (getUser_miss id p1 Hu1), (query_hit executeQuery _ _ _ _ Hc), Hrow. done.
Qed.

(** [deleteProduct] runs the [DELETE] whatever the store holds, and throws
    only what [query] throws. *)
Lemma deleteProduct_is_the_DELETE id p :
  deleteProduct id p
  = match query "DELETE FROM products WHERE id = ?" [JNum id] p with
    | (Return result, p') => (Return result, JS.set_productCaches ∅ ∅ p')
    | (Throw e, p') => (Throw e, p')
    end.
Proof.
  unfold JS.deleteProduct, bind, JS.ProductService_clearCache, modify, ret.
  by destruct (query _ _ p) as [[result|e] p'].
Qed.

(** [createProduct] validates before it runs any statement: an input that
    fails a test is rejected with the state left as it was. *)
Lemma createProduct_validation_first productData p :
  negb (truthy (prop productData "name")) || negb (truthy (prop productData "price"))
    || negb (truthy (prop productData "category"))
    || js_lt_num (prop productData "price") 0 = true ->
  exists message, createProduct productData p = (Throw (Error message), p).
Proof.
  intros H. unfold JS.createProduct.
  destruct (negb (truthy (prop productData "name")) || negb (truthy (prop productData "price"))
            || negb (truthy (prop productData "category"))); [by eexists |].
  simpl in H. rewrite H. by eexists.
Qed.

(** [createUser] does the same. *)
Lemma createUser_validation_first userData p :
  negb (truthy (prop userData "name")) || negb (truthy (prop userData "email"))
    || negb (truthy (prop userData "role"))
    || negb (JS.validateEmail (prop userData "email")) = true ->
  exists message, JS.createUser executeQuery userData p = (Throw (Error message), p).
Proof.
  intros H. unfold JS.createUser.
  destruct (negb (truthy (prop userData "name")) || negb (truthy (prop userData "email"))
            || negb (truthy (prop userData "role"))); [by eexists |].
  simpl in H. rewrite H. by eexists.
Qed.

(** A product priced 0 is rejected whatever its other fields are, the state
    being left as it was. *)
Lemma createProduct_price_zero productData p :
  prop productData "price" = JNum 0 ->
  createProduct productData p = (Throw (Error "Missing required product fields"), p).
Proof.
  intros H. unfold JS.createProduct. rewrite H. simpl. by rewrite orb_true_r.
Qed.

End ServiceFacts.

(** ** Sessions *)

Section SessionFacts.
Implicit Types (a : JS.AuthenticationService) (token : string) (s : JS.Session).

Lemma validateToken_absent now token a :
  JS.sessions a !! token = None -> JS.validateToken now token a = (Return false, a).
Proof. intros H. unfold JS.validateToken, bind, get_state, ret. by rewrite H. Qed.

Lemma validateToken_expired now token a s :
  JS.sessions a !! token = Some s ->
  (now - JS.lastActivity s > JS.sessionTimeout a)%Z ->
  JS.validateToken now token a
  = (Return false, JS.set_sessions (delete token (JS.sessions a)) a).
Proof.
  intros H Hlate. unfold JS.validateToken, bind, get_state, ret, modify. rewrite H.
  by destruct (Z.gtb_spec (now - JS.lastActivity s) (JS.sessionTimeout a)); [| lia].
Qed.

Lemma validateToken_live now token a s :
  JS.sessions a !! token = Some s ->
  (now - JS.lastActivity s <= JS.sessionTimeout a)%Z ->
  JS.validateToken now token a
  = (Return true, JS.set_sessions (<[token := touched now s]> (JS.sessions a)) a).
Proof.
  intros H Hlive. unfold JS.validateToken, bind, get_state, ret, modify. rewrite H.
  by destruct (Z.gtb_spec (now - JS.lastActivity s) (JS.sessionTimeout a)); [lia |].
Qed.

(** C8.  [validateToken] returns false for a token that is absent, and
    for one idle for longer than [sessionTimeout], whose session it
    removes; otherwise it sets [lastActivity] to the current time, leaves
    the other sessions alone and returns true.  So a session validated at
    time [T] is valid at every time up to [T + sessionTimeout] and invalid
    at every later time, when nothing touched it in between. *)
Theorem validateToken_sliding_window a token (T : Z) :
  (JS.sessions a !! token = None ->
     JS.validateToken T token a = (Return false, a))
  /\ (forall s, JS.sessions a !! token = Some s ->
        (T - JS.lastActivity s > JS.sessionTimeout a)%Z ->
        exists a', JS.validateToken T token a = (Return false, a')
          /\ JS.sessions a' !! token = None
          /\ (forall other, other <> token ->
                JS.sessions a' !! other = JS.sessions a !! other))
  /\ (forall s, JS.sessions a !! token = Some s ->
        (T - JS.lastActivity s <= JS.sessionTimeout a)%Z ->
        exists a', JS.validateToken T token a = (Return true, a')
          /\ JS.sessions a' !! token = Some (touched T s)
          /\ JS.sessionTimeout a' = JS.sessionTimeout a
          /\ (forall other, other <> token ->
                JS.sessions a' !! other = JS.sessions a !! other))
  /\ (forall a1, JS.validateToken T token a = (Return true, a1) ->
        forall t,
          ((t < T + JS.sessionTimeout a)%Z ->
             (JS.validateToken t token a1).1 = Return true)
          /\ ((t > T + JS.sessionTimeout a)%Z ->
                (JS.validateToken t token a1).1 = Return false
                /\ JS.sessions (JS.validateToken t token a1).2 !! token = None)).
Proof.
  split; [apply validateToken_absent |]. split; [| split].
  - intros s H Hlate. eexists. split; [by apply (validateToken_expired _ _ _ s) |].
    simpl. split; [apply lookup_delete_eq |]. intros other Hne.
    by apply lookup_delete_ne.
  - intros s H Hlive. eexists. split; [by apply (validateToken_live _ _ _ s) |].
    simpl. split; [apply lookup_insert_eq |]. split; [done |].
    intros other Hne. by apply lookup_insert_ne.
  - intros a1 Hvalid t.
    destruct (JS.sessions a !! token) as [s|] eqn:H;
      [| rewrite validateToken_absent in Hvalid by done; by simplify_eq].
    destruct (Z.gtb_spec (T - JS.lastActivity s) (JS.sessionTimeout a)) as [Hlate|Hlive].
    { rewrite (validateToken_expired _ _ _ s) in Hvalid by (done || lia). by simplify_eq. }
    rewrite (validateToken_live _ _ _ s) in Hvalid by done. simplify_eq.
    assert (Hs : JS.sessions (JS.set_sessions (<[token := touched T s]> (JS.sessions a)) a)
                 !! token = Some (touched T s)) by apply lookup_insert_eq.
    split; intros Ht.
    + by rewrite (validateToken_live _ _ _ _ Hs) by (simpl; lia).
    + rewrite (validateToken_expired _ _ _ _ Hs) by (simpl; lia).
      split; [done |]. apply lookup_delete_eq.
Qed.
End SessionFacts.

(** ** The statement of [listProducts] *)

Section ListProductsFacts.
Implicit Types (filters : Obj).




Lemma prop_delete_ne filters name name' :
  name <> name' -> prop (delete name filters) name' = prop filters name'.
Proof. intros H. unfold prop. by rewrite lookup_delete_ne. Qed.

Lemma prop_delete_eq filters name : prop (delete name filters) name = JUndefined.
Proof. unfold prop. by rewrite lookup_delete_eq. Qed.







End ListProductsFacts.

(** ** The Java [DatabaseManager]: connection state and parameters *)

Section ConnectionFacts.
Context {World Connection Statement ResultSet Object : Type}.
Variable Connection_isClosed : Connection -> World -> Outcome bool.
Variable Connection_isValid : Connection -> Z -> World -> Outcome bool.
Variable Connection_prepareStatement :
  Connection -> string -> World -> Outcome Statement * World.
Variable Statement_setObject : Statement -> Z -> Object -> World -> Outcome unit * World.
Variable Statement_executeQuery : Statement -> World -> Outcome ResultSet * World.
Variable Statement_executeUpdate : Statement -> World -> Outcome Z * World.
Variable Statement_close : Statement -> World -> Outcome unit * World.
Variable HashMap_entries : gmap string Statement -> list (string * Statement).

Local Abbreviation DatabaseManager :=
  (@Java.DatabaseManager World Connection Statement Object).
Local Abbreviation isConnected :=
  (Java.isConnected (Statement:=Statement) (Object:=Object)
     Connection_isClosed Connection_isValid).
Local Abbreviation getPreparedStatement :=
  (Java.getPreparedStatement (Object:=Object)
     Connection_prepareStatement Statement_close HashMap_entries).
Local Abbreviation setParameters :=
  (Java.setParameters (Connection:=Connection) Statement_setObject).
Local Abbreviation executeQuery :=
  (Java.executeQuery Connection_isClosed Connection_isValid Connection_prepareStatement
     Statement_setObject Statement_executeQuery Statement_close HashMap_entries).
Local Abbreviation executeUpdate :=
  (Java.executeUpdate Connection_isClosed Connection_isValid Connection_prepareStatement
     Statement_setObject Statement_executeUpdate Statement_close HashMap_entries).
Implicit Types (d : DatabaseManager) (sql : string) (params : list Object).

(** [isConnected] only probes: it leaves the state as it is. *)
Lemma isConnected_state d : (isConnected d).2 = d.
Proof.
  unfold Java.isConnected, Java.catch_SQLException, try_catch, bind, get_state,
    Java.probe, ret, throw.
  destruct (Java.connection d) as [c|]; simpl; [| done].
  destruct (Connection_isClosed c (Java.world d)) as [[|]|[]]; simpl; try done;
    destruct (Connection_isValid c 5 (Java.world d)) as [?|[]]; done.
Qed.

Lemma setParameters_from_calls params : forall (i : nat) stmt d d',
  Java.setParameters_from Statement_setObject (Z.of_nat i) stmt params d = (Return tt, d') ->
  Java.calls d'
  = (Java.calls d ++ imap (fun j x => Java.CSetObject stmt (Z.of_nat (i + j) + 1) x) params)%list
  /\ Java.statementCache d' = Java.statementCache d
  /\ Java.connection d' = Java.connection d.
Proof.
  induction params as [|x params IH]; intros i stmt d d' H; simpl in *.
  - unfold ret in H. simplify_eq. by rewrite app_nil_r.
  - unfold bind, Java.call in H.
    destruct (Statement_setObject stmt (Z.of_nat i + 1) x (Java.world d)) as [[[]|e] w] eqn:E;
      [| done].
    replace (Z.of_nat i + 1)%Z with (Z.of_nat (S i)) in H by lia.
    apply IH in H as (Hc & Hs & Hn). simpl in *. rewrite Hc, Hs, Hn.
    split; [| done]. rewrite <- (assoc_L (++)). simpl. do 2 f_equal.
    + f_equal. lia.
    + apply imap_ext. intros j y _. simpl. do 2 f_equal. lia.
Qed.

Lemma setParameters_calls stmt params d d' :
  setParameters stmt params d = (Return tt, d') ->
  Java.calls d' = (Java.calls d ++ bindings stmt params)%list
  /\ Java.statementCache d' = Java.statementCache d.
Proof.
  intros H. apply (setParameters_from_calls params 0) in H as (Hc & Hs & _).
  split; [| done]. rewrite Hc. f_equal.
Qed.

Lemma executeQuery_not_connected sql params d :
  (isConnected d).1 = Return false ->
  executeQuery sql params d
  = (Throw (SQLException "Database connection is not available"), d).
Proof.
  intros H. unfold Java.executeQuery, bind.
  pose proof (isConnected_state d) as Hs.
  destruct (isConnected d) as [o d0]. simpl in *. by subst.
Qed.

Lemma executeUpdate_not_connected sql params d :
  (isConnected d).1 = Return false ->
  executeUpdate sql params d
  = (Throw (SQLException "Database connection is not available"), d).
Proof.
  intros H. unfold Java.executeUpdate, bind.
  pose proof (isConnected_state d) as Hs.
  destruct (isConnected d) as [o d0]. simpl in *. by subst.
Qed.

Lemma executeQuery_connected sql params d rs d' :
  (isConnected d).1 = Return true ->
  executeQuery sql params d = (Return rs, d') ->
  exists stmt d1,
    getPreparedStatement sql d = (Return stmt, d1)
    /\ Java.statementCache d' !! sql = Some stmt
    /\ Java.calls d'
       = (Java.calls d1 ++ bindings stmt params ++ [Java.CExecuteQuery stmt])%list.
Proof.
  intros Hc H. unfold Java.executeQuery, bind in H.
  pose proof (isConnected_state d) as Hs.
  destruct (isConnected d) as [o d0]. simpl in *. subst. simpl in H.
  destruct (getPreparedStatement sql d) as [[stmt|e] d1] eqn:Hp; [| done].
  destruct (setParameters stmt params d1) as [[[]|e] d2] eqn:Hb; [| done].
  apply setParameters_calls in Hb as [Hcalls Hcache].
  exists stmt, d1. split; [done |].
  unfold Java.call in H. destruct (Statement_executeQuery stmt (Java.world d2)) as [o w].
  simplify_eq. simpl. rewrite Hcalls, Hcache, <- (assoc_L (++)). split; [| done].
  clear -Hp. unfold Java.getPreparedStatement, bind, get_state in Hp.
  destruct (Java.statementCache d !! sql) as [stmt'|] eqn:Hl.
  - unfold ret in Hp. by simplify_eq.
  - destruct (if (_ >=? _)%Z then _ else _) as [[[]|e] d2]; [| done].
    destruct (Java.connection d) as [c|]; [| done].
    unfold Java.call, modify, ret in Hp.
    destruct (Connection_prepareStatement c sql (Java.world d2)) as [[s|e] w]; [| done].
    simplify_eq. simpl. apply lookup_insert_eq.
Qed.

Lemma executeUpdate_connected sql params d n d' :
  (isConnected d).1 = Return true ->
  executeUpdate sql params d = (Return n, d') ->
  exists stmt d1,
    getPreparedStatement sql d = (Return stmt, d1)
    /\ Java.calls d'
       = (Java.calls d1 ++ bindings stmt params ++ [Java.CExecuteUpdate stmt])%list.
Proof.
  intros Hc H. unfold Java.executeUpdate, bind in H.
  pose proof (isConnected_state d) as Hs.
  destruct (isConnected d) as [o d0]. simpl in *. subst. simpl in H.
  destruct (getPreparedStatement sql d) as [[stmt|e] d1] eqn:Hp; [| done].
  destruct (setParameters stmt params d1) as [[[]|e] d2] eqn:Hb; [| done].
  apply setParameters_calls in Hb as [Hcalls Hcache].
  exists stmt, d1. split; [done |].
  unfold Java.call in H. destruct (Statement_executeUpdate stmt (Java.world d2)) as [o w].
  simplify_eq. simpl. by rewrite Hcalls, <- (assoc_L (++)).
Qed.

(** The JavaScript [DatabaseManager] of the same run. *)
Context {JSWorld JSConnection : Type}.
Variable JS_executeQuery :
  option JSConnection -> string -> list JSValue -> JSWorld -> Outcome JS.QResult * JSWorld.

(** C5, as the code has it.  The Java [executeQuery] and [executeUpdate]
    called while [isConnected()] is false throw the [SQLException]
    [Database connection is not available] and leave the manager and the
    world as they were: no statement is prepared, bound or executed.  When
    connected, a call that returns has bound parameter [i] at index
    [i + 1], in the order of the call, on the statement it then executed.
    The JavaScript [query] does not look at the connection: a cached key
    is answered from the cache, whatever the connection is, and on a miss
    the failure of [executeQuery] is thrown on, nothing being cached. *)
Theorem not_connected_fails_unless_cached sql params d jsparams
    (p : @JS.Program JSWorld JSConnection) :
  ((isConnected d).1 = Return false ->
     executeQuery sql params d
     = (Throw (SQLException "Database connection is not available"), d)
     /\ executeUpdate sql params d
        = (Throw (SQLException "Database connection is not available"), d))
  /\ ((isConnected d).1 = Return true ->
      (forall rs d', executeQuery sql params d = (Return rs, d') ->
         exists stmt d1, getPreparedStatement sql d = (Return stmt, d1)
           /\ Java.calls d'
              = (Java.calls d1 ++ bindings stmt params ++ [Java.CExecuteQuery stmt])%list)
      /\ (forall n d', executeUpdate sql params d = (Return n, d') ->
            exists stmt d1, getPreparedStatement sql d = (Return stmt, d1)
              /\ Java.calls d'
                 = (Java.calls d1 ++ bindings stmt params
                      ++ [Java.CExecuteUpdate stmt])%list))
  /\ (forall r,
        Map_get (JS.queryCache (JS.db p)) (JS.generateCacheKey sql jsparams) = Some r ->
        JS.query JS_executeQuery sql jsparams p = (Return r, p))
  /\ (forall e w',
        Map_get (JS.queryCache (JS.db p)) (JS.generateCacheKey sql jsparams) = None ->
        JS_executeQuery (JS.connection (JS.db p)) sql jsparams (JS.world p) = (Throw e, w') ->
        JS.query JS_executeQuery sql jsparams p = (Throw e, JS.set_world w' p)).
Proof.
  split; [| split; [| split]].
  - intros H. split; [by apply executeQuery_not_connected
                     | by apply executeUpdate_not_connected].
  - intros H. split.
    + intros rs d' E. destruct (executeQuery_connected _ _ _ _ _ H E) as (stmt & d1 & ? & _ & ?).
      by exists stmt, d1.
    + intros n d' E. by apply (executeUpdate_connected _ _ _ n).
  - intros r. apply query_hit.
  - intros e w'. apply query_miss_throw.
Qed.

End ConnectionFacts.

(** ** Connecting with retries *)

Section ConnectFacts.
Context {World Connection : Type}.
Variable establishConnection : World -> Outcome Connection * World.

Local Abbreviation Program := (@JS.Program World Connection).
Local Abbreviation connect_loop := (JS.connect_loop establishConnection).
Local Abbreviation connect := (JS.connect establishConnection).

(** When every attempt fails, the JavaScript [connect] makes
    [retryAttempts] attempts, pauses between them, and throws what the
    last attempt threw. *)
Lemma JS_connect_loop_all_fail :
  (forall w, exists e w', establishConnection w = (Throw e, w')) ->
  forall (fuel : nat) (attempts : Z) (p : Program),
    (0 <= attempts < JS.retryAttempts (JS.db p))%Z ->
    (Z.to_nat (JS.retryAttempts (JS.db p) - attempts) <= fuel)%nat ->
    exists e p' w,
      connect_loop fuel attempts p = (Throw e, p')
      /\ establishConnection w = (Throw e, JS.world p')
      /\ JS.trace p'
         = (JS.trace p
            ++ attempts_trace attempts (Z.to_nat (JS.retryAttempts (JS.db p) - attempts)))%list
      /\ JS.connection (JS.db p') = JS.connection (JS.db p).
Proof.
  intros Hfail fuel. induction fuel as [|fuel IH]; intros attempts p Hrange Hfuel; [lia |].
  simpl. unfold bind at 1, get_state at 1.
  destruct (Z.ltb_spec attempts (JS.retryAttempts (JS.db p))) as [_|]; [| lia].
  unfold try_catch, bind, modify, JS.on_world. simpl.
  destruct (Hfail (JS.world p)) as (e & w' & E). rewrite E.
  destruct (Z.geb_spec (attempts + 1) (JS.retryAttempts (JS.db p))) as [Hlast|Hmore].
  - exists e, (JS.set_world w' (JS.log_event JS.EvEstablish p)), (JS.world p).
    unfold throw. split; [done |]. split; [done |]. simpl.
    replace (Z.to_nat (JS.retryAttempts (JS.db p) - attempts)) with 1%nat by lia.
    done.
  - unfold JS.sleep, modify. simpl.
    set (p1 := JS.log_event (JS.EvSleep (1000 * (attempts + 1)))
                 (JS.set_world w' (JS.log_event JS.EvEstablish p))).
    destruct (IH (attempts + 1)%Z p1) as (e' & p' & w & Hrun & Hlast & Htrace & Hconn);
      [simpl; lia | simpl; lia |].
    exists e', p', w. split; [done |]. split; [done |]. rewrite Htrace, Hconn. simpl.
    split; [| done].
    replace (Z.to_nat (JS.retryAttempts (JS.db p) - attempts))
      with (S (Z.to_nat (JS.retryAttempts (JS.db p) - (attempts + 1)))) by lia.
    destruct (Z.to_nat (JS.retryAttempts (JS.db p) - (attempts + 1))) eqn:Hk; [lia |].
    by rewrite <- !(assoc_L (++)).
Qed.

Lemma JS_connect_all_fail (p : Program) :
  (forall w, exists e w', establishConnection w = (Throw e, w')) ->
  (0 < JS.retryAttempts (JS.db p))%Z ->
  exists e p' w,
    connect p = (Throw e, p')
    /\ establishConnection w = (Throw e, JS.world p')
    /\ JS.trace p'
       = (JS.trace p ++ attempts_trace 0 (Z.to_nat (JS.retryAttempts (JS.db p))))%list.
Proof.
  intros Hfail Hpos. unfold JS.connect, bind, get_state.
  destruct (JS_connect_loop_all_fail Hfail (Z.to_nat (JS.retryAttempts (JS.db p))) 0 p)
    as (e & p' & w & Hrun & Hlast & Htrace & _); [lia | lia |].
  exists e, p', w. rewrite Z.sub_0_r in Htrace. done.
Qed.
End ConnectFacts.

Section JavaConnectFacts.
Context {World Connection Statement Object : Type}.
Variable DriverManager_getConnection : string -> World -> Outcome Connection * World.
Variable Connection_setAutoCommit : Connection -> bool -> World -> Outcome unit * World.

Local Abbreviation DatabaseManager :=
  (@Java.DatabaseManager World Connection Statement Object).
Local Abbreviation connect_loop :=
  (Java.connect_loop (Statement:=Statement) (Object:=Object)
     DriverManager_getConnection Connection_setAutoCommit).
Local Abbreviation connect :=
  (Java.connect (Statement:=Statement) (Object:=Object)
     DriverManager_getConnection Connection_setAutoCommit).

(** When every attempt fails with an [SQLException], the loop of the Java
    [connect] makes [retryAttempts] attempts, pauses between them, and
    runs out: nothing is thrown. *)
Lemma Java_connect_loop_all_fail :
  (forall cs w, exists msg w',
      DriverManager_getConnection cs w = (Throw (SQLException msg), w')) ->
  forall (fuel : nat) (attempts : Z) (last : option Exn) (d : DatabaseManager),
    (0 <= attempts)%Z ->
    (Z.to_nat (Java.retryAttempts d - attempts) <= fuel)%nat ->
    exists last' d',
      connect_loop fuel attempts last d = (Return (false, last'), d')
      /\ Java.calls d'
         = (Java.calls d
            ++ calls_trace (Java.connectionString d) attempts
                 (Z.to_nat (Java.retryAttempts d - attempts)))%list
      /\ Java.connection d' = Java.connection d.
Proof.
  intros Hfail fuel.
  induction fuel as [|fuel IH]; intros attempts last d Hrange Hfuel; simpl;
    unfold bind at 1, get_state at 1;
    destruct (Z.ltb_spec attempts (Java.retryAttempts d)) as [Hlt|Hge]; try lia.
  - exists last, d. unfold ret.
    replace (Z.to_nat (Java.retryAttempts d - attempts)) with 0%nat by lia.
    by rewrite app_nil_r.
  - unfold Java.catch_SQLException, try_catch, bind, Java.call. simpl.
    destruct (Hfail (Java.connectionString d) (Java.world d)) as (msg & w' & E). rewrite E.
    unfold ret at 1. simpl.
    set (d1 := Java.mkDatabaseManager _ _ _ _ _ _ _ _).
    destruct (Z.ltb_spec (attempts + 1) (Java.retryAttempts d)) as [Hmore|Hlast].
    + unfold Java.Thread_sleep, Java.call. simpl.
      set (d2 := Java.mkDatabaseManager _ _ _ _ _ _ _ _).
      destruct (IH (attempts + 1)%Z (Some (SQLException msg)) d2)
        as (last' & d' & Hrun & Hcalls & Hconn); [lia | simpl; lia |].
      exists last', d'. rewrite Hrun, Hcalls, Hconn. simpl. split; [done |]. split; [| done].
      replace (Z.to_nat (Java.retryAttempts d - attempts))
        with (S (Z.to_nat (Java.retryAttempts d - (attempts + 1)))) by lia.
      destruct (Z.to_nat (Java.retryAttempts d - (attempts + 1))) eqn:Hk; [lia |].
      by rewrite <- !(assoc_L (++)).
    + unfold ret at 1. simpl.
      destruct (IH (attempts + 1)%Z (Some (SQLException msg)) d1)
        as (last' & d' & Hrun & Hcalls & Hconn); [lia | simpl; lia |].
      exists last', d'. rewrite Hrun, Hcalls, Hconn. simpl. split; [done |]. split; [| done].
      replace (Z.to_nat (Java.retryAttempts d - (attempts + 1))) with 0%nat by lia.
      replace (Z.to_nat (Java.retryAttempts d - attempts)) with 1%nat by lia.
      simpl. by rewrite app_nil_r.
  - exists last, d. unfold ret.
    replace (Z.to_nat (Java.retryAttempts d - attempts)) with 0%nat by lia.
    by rewrite app_nil_r.
Qed.

Lemma Java_connect_all_fail (d : DatabaseManager) :
  (forall cs w, exists msg w',
      DriverManager_getConnection cs w = (Throw (SQLException msg), w')) ->
  exists d',
    connect d = (Return tt, d')
    /\ Java.calls d'
       = (Java.calls d
          ++ calls_trace (Java.connectionString d) 0 (Z.to_nat (Java.retryAttempts d)))%list
    /\ Java.connection d' = Java.connection d.
Proof.
  intros Hfail. unfold Java.connect, bind, get_state.
  destruct (Java_connect_loop_all_fail Hfail (Z.to_nat (Java.retryAttempts d)) 0 None d)
    as (last' & d' & Hrun & Hcalls & Hconn); [lia | lia |].
  exists d'. rewrite Hrun. rewrite Z.sub_0_r in Hcalls. done.
Qed.
End JavaConnectFacts.

(** ** The built-ins, on examples *)

Example validateEmail_accepts :
  JS.validateEmail (JStr "ann@example.org") = true
  /\ JS.validateEmail (JStr "a.b@c-d.e.fg") = true.
Proof. split; reflexivity. Qed.

Example validateEmail_rejects :
  JS.validateEmail (JStr "ann@example") = false
  /\ JS.validateEmail (JStr "ann@@example.org") = false
  /\ JS.validateEmail (JStr "ann smith@example.org") = false
  /\ JS.validateEmail (JStr "@example.org") = false
  /\ JS.validateEmail (JStr "ann@.org") = false
  /\ JS.validateEmail (JStr "ann@example.") = false
  /\ JS.validateEmail (JNum 5) = false.
Proof. repeat split; reflexivity. Qed.

Example JSON_stringify_array :
  JSON_stringify [JStr "Bob"; JNum (-3); JUndefined; JBool true; JNull]
  = "[" +:+ dquote +:+ "Bob" +:+ dquote +:+ ",-3,null,true,null]".
Proof. reflexivity. Qed.

Example ToNumber_of_strings :
  ToNumber (JStr " 42 ") = Some 42%Z
  /\ ToNumber (JStr "-7") = Some (-7)%Z
  /\ ToNumber (JStr "") = Some 0%Z
  /\ ToNumber (JStr "abc") = None.
Proof. repeat split; reflexivity. Qed.

(** ** Runs on the store *)

(** C2: run on an empty cache, 1002 distinct statements leave exactly the
    100 earliest-inserted keys out. *)
Lemma query_cache_size_and_fifo_eviction_witness :
  (JS.queryCache (JS.db (run_queries Store.executeQuery (Store.statements 1002)
                                     Store.connected).2)).*1
  = drop 100 (key_of <$> Store.statements 1002).
Proof.
  refine (proj2 (proj2 (query_cache_size_and_fifo_eviction Store.executeQuery
                          (Store.statements 1002) Store.connected _)) _ _).
  - reflexivity.
  - apply distinct_NoDup. vm_compute. reflexivity.
  - vm_compute. reflexivity.
Defined.

(** C2 as stated fails: 1001 distinct statements leave 1001 entries in the
    cache, one more than the ceiling of 1000, and no key is absent. *)
Lemma query_cache_exceeds_1000 :
  let c := JS.queryCache (JS.db (run_queries Store.executeQuery (Store.statements 1001)
                                             Store.connected).2) in
  Map_size c = 1001%Z
  /\ ~ (Map_size c <= 1000)%Z
  /\ c.*1 = key_of <$> Store.statements 1001.
Proof.
  assert (H : Map_size (JS.queryCache (JS.db (run_queries Store.executeQuery
                 (Store.statements 1001) Store.connected).2)) = 1001%Z)
    by (vm_compute; reflexivity).
  cbv zeta. split; [exact H |]. split; [rewrite H; lia |].
  vm_compute. reflexivity.
Qed.

(** C1 fails on the code: on a connected program with cold caches,
    [updateUser(1, {name: 'Bob'})] returns, the store then holds the merged
    row (name Bob), and the [getUser(1)] that follows returns the row read
    before the update (name Ann).  [clearCache] empties [userCache] only;
    the [SELECT] is answered by [queryCache], which no write path clears. *)
Theorem getUser_after_updateUser_returns_stale_row :
  let updated := JS.updateUser Store.executeQuery 1 {[ "name" := JStr "Bob" ]} Store.connected in
  let read := JS.getUser Store.executeQuery 1 updated.2 in
  returned updated.1 = true
  /\ Store.users (JS.world updated.2) !! 1%Z = Some (<[ "name" := JStr "Bob" ]> Store.ann)
  /\ read.1 = Return (Some Store.ann)
  /\ JS.world read.2 = JS.world updated.2
  /\ JS.userCache updated.2 = ∅
  /\ (JS.queryCache (JS.db updated.2)).*1
     = [ "SELECT * FROM users WHERE id = ?:[1]";
         JS.generateCacheKey "UPDATE users SET name = ?, email = ?, role = ? WHERE id = ?"
           [JStr "Bob"; JStr "ann@example.org"; JStr "admin"; JNum 1] ].
Proof. each_by_evaluation. Qed.

(** C3 fails on the code: [deleteProduct(99)] on a store with no product 99
    returns the result of the [DELETE] (no row affected) and throws nothing;
    it never calls [getProduct].  The sibling [deleteUser(99)] does throw.
    (Deleting user 1 twice, the second [deleteUser(1)] returns too: both its
    [SELECT] and its [DELETE] are answered by [queryCache].) *)
Theorem deleteProduct_of_absent_id_returns :
  let deleted := JS.deleteUser Store.executeQuery 1 Store.connected in
  Store.products Store.initial !! 99%Z = None
  /\ (JS.deleteProduct Store.executeQuery 99 Store.connected).1
     = Return (Store.affected 0)
  /\ Store.users Store.initial !! 99%Z = None
  /\ (JS.deleteUser Store.executeQuery 99 Store.connected).1
     = Throw (Error "User with id 99 not found")
  /\ deleted.1 = Return (Store.affected 1)
  /\ Store.users (JS.world deleted.2) !! 1%Z = None
  /\ (JS.deleteUser Store.executeQuery 1 deleted.2).1 = Return (Store.affected 1).
Proof. each_by_evaluation. Qed.

(** C4 fails on the code: a product with a name, a category and the price 0
    is rejected as having a required field missing ([!productData.price] is
    true of 0), before any statement is run.  The same product at price 10
    is inserted, and [updateProduct] takes a price of 0 as given. *)
Theorem createProduct_rejects_price_zero :
  let widget (price : Z) : Obj :=
    {[ "name" := JStr "Widget"; "price" := JNum price; "category" := JStr "tools" ]} in
  (JS.createProduct Store.executeQuery (widget 0) Store.connected).1
  = Throw (Error "Missing required product fields")
  /\ JS.world (JS.createProduct Store.executeQuery (widget 0) Store.connected).2
     = Store.initial
  /\ js_lt_num (JNum 0) 0 = false
  /\ (JS.createProduct Store.executeQuery (widget 10) Store.connected).1
     = Return (JS.QObj {[ "insertId" := JNum 1 ]}).
Proof. each_by_evaluation. Qed.

(** C7 fails on the code: for an order that exists and a charge that
    succeeds, [processPayment] throws a [TypeError]: [updateOrderStatus]
    reads [this.db], a property the constructor of [PaymentService] never
    sets.  The order keeps its status.  The other two cases are as claimed:
    an absent order is reported by an [Error], and a charge that fails
    gives a result with its [error]. *)
Theorem processPayment_throws_after_successful_charge :
  let this := JS.new_PaymentService JS.TheOrderService in
  let paid := JS.processPayment Store.executeQuery 1700000000000 this 7 (JStr "card")
                Store.connected in
  let declined (paymentMethod amount : JSValue) : M (@JS.Program Store.World unit) Obj :=
    ret {[ "success" := JBool false; "error" := JStr "card declined" ]} in
  (JS.getOrder Store.executeQuery 7 Store.connected).1 = Return (Some Store.order7)
  /\ (JS.chargePayment 1700000000000 (JStr "card") (JNum 30) Store.connected).1
     = Return {[ "success" := JBool true; "transactionId" := JStr "TXN1700000000000" ]}
  /\ paid.1 = Throw (TypeError "Cannot read properties of undefined (reading 'query')")
  /\ Store.orders (JS.world paid.2) !! 7%Z = Some Store.order7
  /\ (JS.processPayment Store.executeQuery 1700000000000 this 8 (JStr "card")
        Store.connected).1 = Throw (Error "Order not found")
  /\ (JS.processPayment_with Store.executeQuery declined this 7 (JStr "card")
        Store.connected).1
     = Return {[ "success" := JBool false; "error" := JStr "card declined" ]}.
Proof. each_by_evaluation. Qed.

(** C8: a session last active at time 0 is validated at time 1000; one
    millisecond before the hour is up it is valid, one millisecond after
    the hour it is not. *)
Lemma validateToken_sliding_window_witness :
  let a := JS.set_sessions {[ "tok" := JS.mkSession (JNum 1) 0 0 ]}
             JS.new_AuthenticationService in
  let a1 := (JS.validateToken 1000 "tok" a).2 in
  (JS.validateToken 1000 "tok" a).1 = Return true
  /\ (JS.validateToken (1000 + 3600000 - 1) "tok" a1).1 = Return true
  /\ (JS.validateToken (1000 + 3600000 + 1) "tok" a1).1 = Return false.
Proof.
  cbv zeta.
  set (a := JS.set_sessions {[ "tok" := JS.mkSession (JNum 1) 0 0 ]}
              JS.new_AuthenticationService).
  assert (H : JS.validateToken 1000 "tok" a = (Return true, (JS.validateToken 1000 "tok" a).2))
    by (vm_compute; reflexivity).
  split; [by rewrite H |].
  pose proof (proj2 (proj2 (proj2 (validateToken_sliding_window a "tok" 1000))) _ H) as W.
  split.
  - apply (proj1 (W (1000 + 3600000 - 1)%Z)). simpl. lia.
  - apply (proj2 (W (1000 + 3600000 + 1)%Z)). simpl. lia.
Defined.


(** C5: a manager that holds no connection refuses a query and makes no
    call; one that holds an open connection prepares the statement, binds
    the two parameters at the indices 1 and 2 and executes it. *)
Lemma not_connected_fails_unless_cached_witness :
  let sql := "SELECT * FROM users WHERE name = ? AND role = ?" in
  let params := [JStr "Ann"; JStr "admin"] in
  Java.executeQuery Driver.isClosed Driver.isValid Driver.prepareStatement Driver.setObject
    Driver.stmt_executeQuery Driver.stmt_close Driver.entries sql params Driver.manager
  = (Throw (SQLException "Database connection is not available"), Driver.manager)
  /\ Java.calls Driver.manager = []
  /\ Java.calls
       (Java.executeQuery Driver.open_isClosed Driver.open_isValid Driver.prepareStatement
          Driver.setObject Driver.stmt_executeQuery Driver.stmt_close Driver.entries
          sql params Driver.open_manager).2
     = [ Java.CPrepareStatement sql; Java.CSetObject sql 1 (JStr "Ann");
         Java.CSetObject sql 2 (JStr "admin"); Java.CExecuteQuery sql ].
Proof.
  cbv zeta. split; [| split; reflexivity].
  refine (proj1 (proj1 (not_connected_fails_unless_cached
    Driver.isClosed Driver.isValid Driver.prepareStatement Driver.setObject
    Driver.stmt_executeQuery Driver.stmt_executeUpdate Driver.stmt_close Driver.entries
    Store.executeQuery "SELECT * FROM users WHERE name = ? AND role = ?"
    [JStr "Ann"; JStr "admin"] Driver.manager [JNum 1] Store.connected) _)).
  reflexivity.
Defined.

(** C5 as stated fails for the JavaScript [query]: once the server is gone
    [executeQuery] refuses to run a statement, for want of a connection, yet
    the statement that was run before is answered, from the cache. *)
Lemma query_answers_from_cache_when_not_connected :
  let sql := "SELECT * FROM users WHERE id = ?" in
  let p1 := (JS.query Store.executeQuery sql [JNum 1] Store.connected).2 in
  let p2 := JS.set_world (Store.unplugged (JS.world p1)) p1 in
  (JS.query Store.executeQuery sql [JNum 2] p2).1
  = Throw (Error "Database connection is not available")
  /\ (JS.query Store.executeQuery sql [JNum 1] p2).1 = Return (JS.QRows [Store.ann]).
Proof. each_by_evaluation. Qed.

(** C6 fails on the Java [connect]: with a driver that refuses every
    attempt it tries three times, pausing 1000 ms and then 2000 ms, and
    returns normally, the manager holding no connection; [lastException] is
    only tested against [null].  The JavaScript [connect] on the same
    refusals makes the same attempts and throws what the third one threw. *)
Theorem Java_connect_returns_normally_after_exhausting_retries :
  let java := Java.connect (Statement:=string) (Object:=JSValue)
                Driver.getConnection Driver.setAutoCommit Driver.manager in
  let js := JS.connect Driver.establishConnection
              (JS.new_Program (JS.mkConfig None None) 0) in
  java.1 = Return tt
  /\ Java.connection java.2 = None
  /\ Java.calls java.2
     = [ Java.CGetConnection "jdbc:postgresql://db/shop"; Java.CSleep 1000;
         Java.CGetConnection "jdbc:postgresql://db/shop"; Java.CSleep 2000;
         Java.CGetConnection "jdbc:postgresql://db/shop" ]
  /\ Java.world java.2 = 3
  /\ js.1 = Throw (Error "connection refused (attempt 3)")
  /\ JS.trace js.2
     = [ JS.EvEstablish; JS.EvSleep 1000; JS.EvEstablish; JS.EvSleep 2000; JS.EvEstablish ].
Proof. cbv zeta. repeat split; vm_compute; reflexivity. Qed.

(** C10: the same [DELETE] run twice.  The first call deletes the row; the
    second returns the result of the first and leaves the state, the store
    included, as it was. *)
Lemma query_repeated_statement_served_from_cache_witness :
  let sql := "DELETE FROM users WHERE id = ?" in
  let first := JS.query Store.executeQuery sql [JNum 1] Store.connected in
  first.1 = Return (Store.affected 1)
  /\ Store.users (JS.world first.2) !! 1%Z = None
  /\ JS.query Store.executeQuery sql [JNum 1] first.2 = (Return (Store.affected 1), first.2).
Proof.
  cbv zeta.
  set (first := JS.query Store.executeQuery "DELETE FROM users WHERE id = ?" [JNum 1]
                  Store.connected).
  assert (H1 : first.1 = Return (Store.affected 1)) by by_evaluation.
  split; [exact H1 |]. split; [by_evaluation |].
  refine (proj2 (proj2 (query_repeated_statement_served_from_cache Store.executeQuery
                          "DELETE FROM users WHERE id = ?" [JNum 1] Store.connected)) _ _ _).
  fold first. rewrite <- H1. apply surjective_pairing.
Defined.

(** * Further properties *)

(** ** What the two caches of the JavaScript services remember *)

Section CacheMemoryFacts.
Context {World Connection : Type}.
Variable executeQuery :
  option Connection -> string -> list JSValue -> World -> Outcome JS.QResult * World.

Local Abbreviation Program := (@JS.Program World Connection).
Local Abbreviation query := (JS.query executeQuery).
Local Abbreviation getUser := (JS.getUser executeQuery).
Local Abbreviation getProduct := (JS.getProduct executeQuery).
Local Abbreviation createUser := (JS.createUser executeQuery).
Local Abbreviation createProduct := (JS.createProduct executeQuery).
Local Abbreviation updateUser := (JS.updateUser executeQuery).
Local Abbreviation updateProduct := (JS.updateProduct executeQuery).
Local Abbreviation deleteProduct := (JS.deleteProduct executeQuery).
Local Abbreviation listAllUsers := (JSRest.listAllUsers executeQuery).
Implicit Types (p : Program) (id : Z) (sql : string) (params : list JSValue).

Lemma Map_get_app_Some {V} (m m' : list (string * V)) k v :
  Map_get m k = Some v -> Map_get (m ++ m') k = Some v.
Proof.
  induction m as [|[k' v'] m IH]; simpl; intros H; [done |].
  destruct (String.eqb k' k); [done | auto].
Qed.

(** [query] touches the world and the query cache, nothing else. *)
Lemma query_frame sql params p :
  JS.userCache (query sql params p).2 = JS.userCache p
  /\ JS.productCache (query sql params p).2 = JS.productCache p
  /\ JS.categoryCache (query sql params p).2 = JS.categoryCache p.
Proof.
  by destruct (query_cases executeQuery sql params p)
    as [(r & _ & E) | [(e & w' & _ & E) | (r & w' & _ & E)]]; rewrite E.
Qed.

(** What a call of [query] returns is in the cache afterwards. *)
Lemma query_returned_is_cached sql params p r p1 :
  query sql params p = (Return r, p1) ->
  Map_get (JS.queryCache (JS.db p1)) (JS.generateCacheKey sql params) = Some r.
Proof.
  intros H.
  destruct (query_cases executeQuery sql params p)
    as [(r' & Hget & E) | [(e & w' & _ & E) | (r' & w' & Hnone & E)]];
    rewrite E in H; simplify_eq; [done |].
  simpl. rewrite Map_get_app_None by by apply Map_get_evicted_None.
  simpl. by rewrite String.eqb_refl.
Qed.

(** Below the eviction threshold a call of [query] keeps every entry. *)
Lemma query_preserves_cached sql params p k v :
  (Map_size (JS.queryCache (JS.db p)) <= 1000)%Z ->
  Map_get (JS.queryCache (JS.db p)) k = Some v ->
  Map_get (JS.queryCache (JS.db (query sql params p).2)) k = Some v.
Proof.
  intros Hsize Hk.
  destruct (query_cases executeQuery sql params p)
    as [(r & _ & E) | [(e & w' & _ & E) | (r & w' & _ & E)]]; rewrite E; simpl; try done.
  apply Map_get_app_Some. unfold evicted.
  by destruct (Z.gtb_spec (Map_size (JS.queryCache (JS.db p))) 1000); [lia |].
Qed.

Lemma getUser_hit id p user :
  JS.userCache p !! id = Some user -> getUser id p = (Return (Some user), p).
Proof. intros H. unfold JS.getUser, bind, get_state, ret. by rewrite H. Qed.

Lemma getProduct_hit id p product :
  JS.productCache p !! id = Some product -> getProduct id p = (Return (Some product), p).
Proof. intros H. unfold JS.getProduct, bind, get_state, ret. by rewrite H. Qed.

Lemma getProduct_miss id p :
  JS.productCache p !! id = None ->
  getProduct id p
  = match query "SELECT * FROM products WHERE id = ?" [JNum id] p with
    | (Return result, p') =>
        match JS.first_row result with
        | Some row =>
            (Return (Some row),
             JS.set_productCaches (<[id := row]> (JS.productCache p')) (JS.categoryCache p') p')
        | None => (Return None, p')
        end
    | (Throw e, p') => (Throw e, p')
    end.
Proof.
  intros H. unfold JS.getProduct, bind at 1, get_state at 1. rewrite H. unfold bind.
  destruct (query _ _ p) as [[result|e] p']; [| done].
  by destruct (JS.first_row result).
Qed.

(** X1.  Once [getUser(id)] has returned a row, every later [getUser(id)]
    returns that row and runs no statement, whatever has become of the
    store in the meantime: the row sits in [userCache]. *)
Theorem getUser_row_is_remembered id p row p1 :
  getUser id p = (Return (Some row), p1) ->
  forall w', getUser id (JS.set_world w' p1) = (Return (Some row), JS.set_world w' p1).
Proof.
  intros H w'. apply getUser_hit. simpl.
  destruct (JS.userCache p !! id) as [user|] eqn:Hu.
  - rewrite (getUser_hit id p user Hu) in H. by simplify_eq.
  - rewrite (getUser_miss executeQuery id p Hu) in H.
    destruct (query _ _ p) as [[result|e] p']; [| done].
    destruct (JS.first_row result); simplify_eq. simpl. apply lookup_insert_eq.
Qed.

(** X2.  [getUser(id)] returns [null] when no row matches, and the empty
    result is remembered too: a later [getUser(id)] returns [null] without
    running a statement, even when the store has the user by then. *)
Theorem getUser_not_found_is_remembered id p p1 :
  getUser id p = (Return None, p1) ->
  forall w', getUser id (JS.set_world w' p1) = (Return None, JS.set_world w' p1).
Proof.
  intros H w'.
  destruct (JS.userCache p !! id) as [user|] eqn:Hu.
  { rewrite (getUser_hit id p user Hu) in H. by simplify_eq. }
  rewrite (getUser_miss executeQuery id p Hu) in H.
  pose proof (query_frame "SELECT * FROM users WHERE id = ?" [JNum id] p) as (Hf & _).
  destruct (query _ _ p) as [[result|e] p'] eqn:E; [| done].
  destruct (JS.first_row result) eqn:Hrow; simplify_eq.
  apply query_returned_is_cached in E. simpl in Hf.
  rewrite getUser_miss by (simpl; congruence).
  by rewrite (query_hit executeQuery _ _ (JS.set_world w' p1) result E), Hrow.
Qed.

(** X3.  Creating the same user, or the same product, twice inserts once:
    the second call returns the result of the first and runs no statement,
    its [INSERT] being answered by [queryCache]. *)
Theorem create_twice_inserts_once (data : Obj) p r p1 :
  (createUser data p = (Return r, p1) ->
   forall w', createUser data (JS.set_world w' p1) = (Return r, JS.set_world w' p1))
  /\ (createProduct data p = (Return r, p1) ->
      forall w', createProduct data (JS.set_world w' p1) = (Return r, JS.set_world w' p1)).
Proof.
  split; intros H w'.
  - unfold JS.createUser in *.
    destruct (_ || _ || _); [done |]. destruct (negb (JS.validateEmail _)); [done |].
    unfold bind in *. destruct (query _ _ p) as [[r'|e] p'] eqn:E; [| done].
    unfold JS.UserService_clearCache, modify, ret in *. simplify_eq.
    apply query_returned_is_cached in E.
    by rewrite (query_hit executeQuery _ _ (JS.set_world w' (JS.set_userCache ∅ p')) r E).
  - unfold JS.createProduct in *.
    destruct (_ || _ || _); [done |]. destruct (js_lt_num _ 0); [done |].
    unfold bind in *. destruct (query _ _ p) as [[r'|e] p'] eqn:E; [| done].
    unfold JS.ProductService_clearCache, modify, ret in *. simplify_eq.
    apply query_returned_is_cached in E.
    by rewrite (query_hit executeQuery _ _ (JS.set_world w' (JS.set_productCaches ∅ ∅ p')) r E).
Qed.

(** X4.  [updateUser] cannot blank a field: a [name], [email] or [role]
    that is falsy in [userData] (the empty string, say) counts as not given,
    and the existing value is written back. *)
Theorem updateUser_falsy_field_is_not_given id (userData : Obj) p field :
  In field ["name"; "email"; "role"] ->
  truthy (prop userData field) = false ->
  updateUser id userData p = updateUser id (delete field userData) p.
Proof.
  intros Hfield Hfalsy. unfold JS.updateUser, bind.
  destruct (getUser id p) as [[[existing|]|e] p0]; [| done | done].
  assert (Hsame : forall name x,
             js_or (prop (delete field userData) name) x = js_or (prop userData name) x).
  { intros name x. destruct (decide (field = name)) as [<-|Hne].
    - rewrite prop_delete_eq. unfold js_or. by rewrite Hfalsy.
    - by rewrite prop_delete_ne. }
  by rewrite !Hsame.
Qed.

(** X5.  An [updateProduct] that returns has passed the [UPDATE] with the
    merged fields to [query], on the state [getProduct] left: a falsy
    [name], [description] or [category] gives way to the existing one, while
    [price] is taken as given whenever it is not [undefined], 0 and [null]
    included.  When [queryCache] holds no result for this statement and
    these parameters, the [UPDATE] is executed on the store and its result
    returned; when it holds one, as after the same update of the same
    product, that result is returned and nothing is executed, the store
    staying as it was.  Either way the result is cached under the
    [UPDATE] and both product caches end up empty. *)
Theorem updateProduct_passes_the_merged_update_to_query
    id (productData : Obj) p existing p0 r p1 :
  getProduct id p = (Return (Some existing), p0) ->
  updateProduct id productData p = (Return r, p1) ->
  let sql := "UPDATE products SET name = ?, description = ?, price = ?, category = ? WHERE id = ?" in
  let params :=
    [ js_or (prop productData "name") (prop existing "name");
      js_or (prop productData "description") (prop existing "description");
      (if defined (prop productData "price")
       then prop productData "price" else prop existing "price");
      js_or (prop productData "category") (prop existing "category");
      JNum id ] in
  (exists p', query sql params p0 = (Return r, p') /\ p1 = JS.set_productCaches ∅ ∅ p')
  /\ match Map_get (JS.queryCache (JS.db p0)) (JS.generateCacheKey sql params) with
     | Some cached => r = cached /\ p1 = JS.set_productCaches ∅ ∅ p0
     | None =>
         executeQuery (JS.connection (JS.db p0)) sql params (JS.world p0)
         = (Return r, JS.world p1)
     end
  /\ Map_get (JS.queryCache (JS.db p1)) (JS.generateCacheKey sql params) = Some r
  /\ JS.productCache p1 = ∅ /\ JS.categoryCache p1 = ∅.
Proof.
  intros Hget H sql params. unfold JS.updateProduct, bind in H. rewrite Hget in H.
  fold sql in H. unfold defined in params. fold params in H.
  destruct (query sql params p0) as [[r'|e] p'] eqn:E; [| done].
  unfold JS.ProductService_clearCache, modify, ret in H. simplify_eq.
  split; [by exists p' |]. split; [| split; [| done]].
  - destruct (query_cases executeQuery sql params p0)
      as [(r' & Hhit & E') | [(e & w' & _ & E') | (r' & w' & Hnone & E')]];
      rewrite E' in E; simplify_eq.
    + by rewrite Hhit.
    + rewrite Hnone. simpl.
      destruct (executeQuery (JS.connection (JS.db p0)) sql params (JS.world p0))
        as [[r''|e] w''] eqn:Erun.
      * rewrite (query_miss_return executeQuery _ _ _ _ _ Hnone Erun) in E'.
        by simplify_eq.
      * by rewrite (query_miss_throw executeQuery _ _ _ _ _ Hnone Erun) in E'.
  - apply query_returned_is_cached in E. done.
Qed.

(** X6.  A list of users fetched before a [createUser] is served again after
    it, from [queryCache], without the new user: [createUser] clears
    [userCache] only.  (The cache is taken to hold at most 1000 entries, so
    that the [INSERT] evicts nothing.) *)
Theorem listAllUsers_after_createUser_is_the_old_list limit offset (userData : Obj) p r p0 r' p1 :
  listAllUsers limit offset p = (Return r, p0) ->
  (Map_size (JS.queryCache (JS.db p0)) <= 1000)%Z ->
  createUser userData p0 = (Return r', p1) ->
  listAllUsers limit offset p1 = (Return r, p1).
Proof.
  intros Hlist Hsize Hcreate. unfold JSRest.listAllUsers in *.
  apply query_returned_is_cached in Hlist. apply query_hit.
  unfold JS.createUser in Hcreate.
  destruct (_ || _ || _); [done |]. destruct (negb (JS.validateEmail _)); [done |].
  unfold bind in Hcreate.
  set (sql := "INSERT INTO users (name, email, role) VALUES (?, ?, ?)") in Hcreate.
  set (params := [prop userData "name"; _; _]) in Hcreate.
  pose proof (query_preserves_cached sql params p0 _ _ Hsize Hlist) as Hkept.
  destruct (query sql params p0) as [[r''|e] p'']; [| done].
  unfold JS.UserService_clearCache, modify, ret in Hcreate. by simplify_eq.
Qed.

(** X7.  A product read and then deleted is still returned by [getProduct]
    afterwards, from [queryCache] and without a statement: [deleteProduct]
    clears the two product caches only.  (The product is taken not to be in
    [productCache] at the first read, and the cache to hold at most 1000
    entries after it.) *)
Theorem getProduct_after_deleteProduct_returns_the_product id p row p0 r p1 :
  JS.productCache p !! id = None ->
  getProduct id p = (Return (Some row), p0) ->
  (Map_size (JS.queryCache (JS.db p0)) <= 1000)%Z ->
  deleteProduct id p0 = (Return r, p1) ->
  (getProduct id p1).1 = Return (Some row)
  /\ JS.world (getProduct id p1).2 = JS.world p1.
Proof.
  intros Hcold Hget Hsize Hdel.
  rewrite (getProduct_miss id p Hcold) in Hget.
  destruct (query _ _ p) as [[result|e] p'] eqn:E; [| done].
  destruct (JS.first_row result) as [row'|] eqn:Hrow; simplify_eq.
  apply query_returned_is_cached in E.
  rewrite deleteProduct_is_the_DELETE in Hdel.
  set (sel := JS.generateCacheKey "SELECT * FROM products WHERE id = ?" [JNum id]) in *.
  set (p0 := JS.set_productCaches _ _ p') in *.
  pose proof (query_preserves_cached "DELETE FROM products WHERE id = ?" [JNum id]
                p0 sel result Hsize E) as Hkept.
  destruct (query "DELETE FROM products WHERE id = ?" [JNum id] p0)
    as [[r''|e] p''] eqn:E'; simplify_eq.
  simpl in Hkept.
  rewrite getProduct_miss by done.
  by rewrite (query_hit executeQuery _ _ (JS.set_productCaches ∅ ∅ p'') result Hkept), Hrow.
Qed.

(** X8.  With the [chargePayment] of the class, [processPayment] never
    returns: whatever the order, the store and the state, it throws (the
    order is absent, its [SELECT] fails, or [updateOrderStatus] reads the
    property [db] that the constructor does not set). *)
Theorem processPayment_never_returns (now : Z) orderService orderId paymentMethod p :
  returned (JS.processPayment executeQuery now (JS.new_PaymentService orderService)
              orderId paymentMethod p).1 = false.
Proof.
  unfold JS.processPayment, JS.processPayment_with, JS.call_member, JS.new_PaymentService.
  rewrite lookup_singleton_eq. case_bool_decide; [| done].
  unfold bind at 1. by destruct (JS.getOrder executeQuery orderId p) as [[[order|]|e] p0].
Qed.

Lemma calculateTotal_from_cached (items : list JSRest.OrderItem) p total :
  (forall item, item ∈ items -> is_Some (JS.productCache p !! JSRest.productId item)) ->
  JSRest.calculateTotal_from executeQuery total items p
  = (Return (foldl (fun total item => JSRest.js_add total (line_total p item)) total items), p).
Proof.
  revert total. induction items as [|item items IH]; intros total Hall; [done |].
  destruct (Hall item) as [product Hp]; [apply elem_of_cons; by left |].
  simpl. unfold bind. rewrite (getProduct_hit _ p product Hp).
  unfold line_total at 2. rewrite Hp. simpl.
  apply IH. intros item' Hin. apply Hall, elem_of_cons. by right.
Qed.

Lemma exact_safe n : (- 2 ^ 53 <= n <= 2 ^ 53)%Z -> JSRest.exact n = JSRest.Int n.
Proof.
  intros H. unfold JSRest.exact.
  destruct (Z.leb_spec (- 2 ^ 53) n), (Z.leb_spec n (2 ^ 53)); simpl; (done || lia).
Qed.

Lemma foldl_exact_sum p (items : list JSRest.OrderItem) (amounts : list Z) total :
  Forall2 (fun item amount => line_total p item = JSRest.Int amount /\ (0 <= amount)%Z)
          items amounts ->
  (0 <= total)%Z ->
  (total + foldr Z.add 0 amounts <= 2 ^ 53)%Z ->
  foldl (fun total item => JSRest.js_add total (line_total p item)) (JSRest.Int total) items
  = JSRest.Int (total + foldr Z.add 0 amounts).
Proof.
  intros H. revert total.
  induction H as [|item amount items amounts [Hline Hpos] Hrest IH]; intros total Htotal Hsum.
  - simpl. f_equal. lia.
  - simpl in *. rewrite Hline. simpl.
    assert (0 <= foldr Z.add 0 amounts)%Z.
    { clear -Hrest. induction Hrest as [|???? [_ ?]]; simpl; lia. }
    rewrite exact_safe by lia. rewrite IH by lia. f_equal. lia.
Qed.

(** X9.  [calculateTotal] of no item is 0.  When every product is in
    [productCache], no statement is run, the state stays as it was, and the
    total is [price * quantity] at the cached price, added up over the
    items from 0 as the doubles do, as far as the model follows them: [NaN]
    from the first [undefined] factor on, exact while the products and the
    sums stay within 2^53 in absolute value, and undetermined
    ([Unmodelled]) otherwise.  In particular, when each product
    [price * quantity] is a non-negative integer and their sum is at most
    2^53, the total is that sum.  An item whose product is in neither cache
    nor store makes [calculateTotal] throw a [TypeError]. *)
Theorem calculateTotal_of_cached_products (items : list JSRest.OrderItem) p :
  JSRest.calculateTotal executeQuery [] p = (Return (JSRest.Int 0), p)
  /\ ((forall item, item ∈ items -> is_Some (JS.productCache p !! JSRest.productId item)) ->
      JSRest.calculateTotal executeQuery items p
      = (Return (foldl (fun total item => JSRest.js_add total (line_total p item))
                       (JSRest.Int 0) items), p)
      /\ (forall amounts : list Z,
            Forall2 (fun item amount =>
                       line_total p item = JSRest.Int amount /\ (0 <= amount)%Z)
                    items amounts ->
            (foldr Z.add 0 amounts <= 2 ^ 53)%Z ->
            JSRest.calculateTotal executeQuery items p
            = (Return (JSRest.Int (foldr Z.add 0 amounts)), p)))
  /\ (forall item p',
        getProduct (JSRest.productId item) p = (Return None, p') ->
        JSRest.calculateTotal executeQuery (item :: items) p
        = (Throw (TypeError "Cannot read properties of null (reading 'price')"), p')).
Proof.
  split; [done |]. split.
  - intros Hall. unfold JSRest.calculateTotal.
    rewrite calculateTotal_from_cached by done. split; [done |].
    intros amounts Hlines Hsum. by rewrite (foldl_exact_sum p items amounts 0).
  - intros item p' H. unfold JSRest.calculateTotal. simpl. unfold bind. by rewrite H.
Qed.

End CacheMemoryFacts.

(** ** Sessions: logout, cleanup and login *)

Section MoreSessionFacts.
Implicit Types (a : JS.AuthenticationService) (token : string) (s : JS.Session).

Lemma logout_present token a s :
  JS.sessions a !! token = Some s ->
  JS.logout token a = (Return true, JS.set_sessions (delete token (JS.sessions a)) a).
Proof. intros H. unfold JS.logout, bind, get_state, modify, ret. by rewrite H. Qed.

Lemma logout_absent token a :
  JS.sessions a !! token = None -> JS.logout token a = (Return false, a).
Proof. intros H. unfold JS.logout, bind, get_state, ret. by rewrite H. Qed.

(** X10.  [logout] returns whether the token had a session; afterwards the
    token has none, the other sessions are as they were, a second [logout]
    returns false and [validateToken] rejects the token. *)
Theorem logout_ends_the_session token a :
  let out := JS.logout token a in
  out.1 = Return (bool_decide (is_Some (JS.sessions a !! token)))
  /\ JS.sessions out.2 !! token = None
  /\ (forall other, other <> token -> JS.sessions out.2 !! other = JS.sessions a !! other)
  /\ JS.logout token out.2 = (Return false, out.2)
  /\ (forall now, JS.validateToken now token out.2 = (Return false, out.2)).
Proof.
  cbv zeta. destruct (JS.sessions a !! token) as [s|] eqn:H.
  - rewrite (logout_present token a s H). simpl.
    assert (Hgone : JS.sessions (JS.set_sessions (delete token (JS.sessions a)) a) !! token
                    = None) by apply lookup_delete_eq.
    split; [done |]. split; [done |].
    split; [intros other Hne; by apply lookup_delete_ne |].
    split; [by apply logout_absent | intros now; by apply validateToken_absent].
  - rewrite (logout_absent token a H). simpl.
    split; [done |]. split; [done |]. split; [done |].
    split; [by apply logout_absent | intros now; by apply validateToken_absent].
Qed.

(** X11.  [cleanupExpiredSessions] does nothing while there are at most
    [maxSessions] sessions.  Above that it removes the sessions idle for
    longer than [sessionTimeout], and those only: a session that is not
    idle that long is never removed, so the number of sessions may stay
    above [maxSessions]. *)
Theorem cleanupExpiredSessions_removes_the_idle_only (now : Z) a :
  let a' := (JS.cleanupExpiredSessions now a).2 in
  (JS.cleanupExpiredSessions now a).1 = Return tt
  /\ ((Z.of_nat (size (JS.sessions a)) <= JS.maxSessions a)%Z -> a' = a)
  /\ ((Z.of_nat (size (JS.sessions a)) > JS.maxSessions a)%Z ->
      forall token s,
        JS.sessions a' !! token = Some s
        <-> JS.sessions a !! token = Some s
            /\ (now - JS.lastActivity s <= JS.sessionTimeout a)%Z)
  /\ (forall token s,
        JS.sessions a !! token = Some s ->
        (now - JS.lastActivity s <= JS.sessionTimeout a)%Z ->
        JS.sessions a' !! token = Some s)
  /\ JS.sessionTimeout a' = JS.sessionTimeout a /\ JS.maxSessions a' = JS.maxSessions a.
Proof.
  cbv zeta. unfold JS.cleanupExpiredSessions, bind, get_state, modify, ret.
  destruct (Z.gtb_spec (Z.of_nat (size (JS.sessions a))) (JS.maxSessions a)) as [Hover|Hunder];
    simpl.
  - split; [done |]. split; [lia |]. split; [| split; [| done]].
    + intros _ token s. rewrite map_lookup_filter_Some. simpl. split; intros [? ?]; split; (done || lia).
    + intros token s H Hlive. apply map_lookup_filter_Some. simpl. split; (done || lia).
  - split; [done |]. split; [done |]. split; [lia |]. done.
Qed.

End MoreSessionFacts.

Section LoginFacts.
Context {Env : Type}.
Variable findUserByEmail : JSValue -> Env -> Outcome (option Obj) * Env.
Variable validatePassword : JSValue -> JSValue -> Env -> Outcome JSValue * Env.
Variable generateToken : Env -> Outcome string * Env.
Variable Date_now : Env -> Z * Env.

Local Abbreviation login :=
  (JSRest.login findUserByEmail validatePassword generateToken Date_now).
Implicit Types (st : @JSRest.Service Env) (email password : JSValue).

Lemma wp_bind {S A B} (m : M S A) (k : A -> M S B) Q (x : S) :
  wp m (fun o s => match o with
                   | Return a => wp (k a) Q s
                   | Throw e => Q (Throw e) s
                   end) x ->
  wp (bind m k) Q x.
Proof. unfold wp, bind. by destruct (m x) as [[a|e] s]. Qed.

Lemma wp_on_env {A} (f : Env -> Outcome A * Env) Q st :
  (forall r e, f (JSRest.env st) = (r, e) ->
               Q r {| JSRest.env := e; JSRest.auth := JSRest.auth st |}) ->
  wp (JSRest.on_env f) Q st.
Proof.
  intros H. unfold wp, JSRest.on_env.
  destruct (f (JSRest.env st)) as [r e] eqn:E. by apply H.
Qed.

Lemma wp_now Q st :
  (forall t e, Date_now (JSRest.env st) = (t, e) ->
               Q (Return t) {| JSRest.env := e; JSRest.auth := JSRest.auth st |}) ->
  wp (JSRest.now Date_now) Q st.
Proof.
  intros H. unfold wp, JSRest.now.
  destruct (Date_now (JSRest.env st)) as [t e] eqn:E. by apply H.
Qed.

Lemma wp_on_auth {A} (m : M JS.AuthenticationService A) Q st :
  (forall r a, m (JSRest.auth st) = (r, a) ->
               Q r {| JSRest.env := JSRest.env st; JSRest.auth := a |}) ->
  wp (JSRest.on_auth m) Q st.
Proof.
  intros H. unfold wp, JSRest.on_auth.
  destruct (m (JSRest.auth st)) as [r a] eqn:E. by apply H.
Qed.

(** The opportunistic cleanup never throws; below capacity it changes
    nothing but the environment. *)
Lemma wp_cleanupExpiredSessions Q st :
  (forall e a,
      ((Z.of_nat (size (JS.sessions (JSRest.auth st))) <= JS.maxSessions (JSRest.auth st))%Z ->
       a = JSRest.auth st) ->
      Q (Return tt) {| JSRest.env := e; JSRest.auth := a |}) ->
  wp (JSRest.cleanupExpiredSessions Date_now) Q st.
Proof.
  intros H. unfold JSRest.cleanupExpiredSessions. apply wp_bind. unfold wp at 1, get_state.
  simpl. destruct (Z.gtb_spec (Z.of_nat (size (JS.sessions (JSRest.auth st))))
                     (JS.maxSessions (JSRest.auth st))) as [Hover|Hunder].
  - apply wp_bind, wp_now. intros t e _. apply wp_on_auth. intros r a Hc. simpl in *.
    assert (r = Return tt) as ->.
    { unfold JS.cleanupExpiredSessions, bind, get_state, modify, ret in Hc.
      destruct (_ >? _)%Z; by simplify_eq. }
    apply H. lia.
  - unfold wp, ret. simpl. destruct st as [e a]. by apply H.
Qed.

(** X12.  A [login] that throws has created no session: the sessions are
    what they were, whether the credentials were missing, the user unknown,
    the password wrong or a collaborator failed. *)
Theorem login_that_fails_creates_no_session email password st e st' :
  login email password st = (Throw e, st') ->
  JSRest.auth st' = JSRest.auth st.
Proof.
  intros H.
  enough (wp (login email password)
             (fun o s => returned o = false -> JSRest.auth s = JSRest.auth st) st) as W.
  { unfold wp in W. rewrite H in W. by apply W. }
  clear H. unfold JSRest.login. destruct (_ || _); [done |].
  apply wp_bind, wp_on_env. intros [[user|]|e1] env1 _; [| done | done].
  apply wp_bind, wp_on_env. intros [isValid|e2] env2 _; [| done]. simpl.
  destruct (negb (truthy isValid)); [done |].
  apply wp_bind, wp_on_env. intros [token|e3] env3 _; [| done]. simpl.
  apply wp_bind, wp_now. intros t1 env4 _. apply wp_bind, wp_now. intros t2 env5 _.
  apply wp_bind, wp_on_auth. intros r a Hm. unfold modify in Hm. simplify_eq.
  apply wp_bind, wp_cleanupExpiredSessions. intros e' a' _. done.
Qed.

(** X13.  A [login] that returns a token, there being fewer than
    [maxSessions] sessions, has stored a session under the token and left
    the other sessions alone; the session carries the id of the user the
    lookup returned, and [validateToken] accepts the token at every time
    not later than [sessionTimeout] after its [lastActivity]. *)
Theorem login_that_returns_opens_a_session email password st token st' :
  login email password st = (Return token, st') ->
  (Z.of_nat (size (JS.sessions (JSRest.auth st))) < JS.maxSessions (JSRest.auth st))%Z ->
  exists s,
    JS.sessions (JSRest.auth st') = <[token := s]> (JS.sessions (JSRest.auth st))
    /\ JS.sessionTimeout (JSRest.auth st') = JS.sessionTimeout (JSRest.auth st)
    /\ (exists user env1,
          findUserByEmail email (JSRest.env st) = (Return (Some user), env1)
          /\ JS.userId s = prop user "id")
    /\ (forall t, (t - JS.lastActivity s <= JS.sessionTimeout (JSRest.auth st))%Z ->
          (JS.validateToken t token (JSRest.auth st')).1 = Return true).
Proof.
  intros H Hroom.
  enough (wp (login email password)
             (fun o s => forall token, o = Return token ->
                exists s0,
                  JS.sessions (JSRest.auth s) = <[token := s0]> (JS.sessions (JSRest.auth st))
                  /\ JS.sessionTimeout (JSRest.auth s) = JS.sessionTimeout (JSRest.auth st)
                  /\ (exists user env1,
                        findUserByEmail email (JSRest.env st) = (Return (Some user), env1)
                        /\ JS.userId s0 = prop user "id")
                  /\ (forall t,
                        (t - JS.lastActivity s0 <= JS.sessionTimeout (JSRest.auth st))%Z ->
                        (JS.validateToken t token (JSRest.auth s)).1 = Return true)) st) as W.
  { unfold wp in W. rewrite H in W. by apply W. }
  clear H. unfold JSRest.login. destruct (_ || _); [done |].
  apply wp_bind, wp_on_env. intros [[user|]|e1] env1 Hfind; [| done | done].
  apply wp_bind, wp_on_env. intros [isValid|e2] env2 _; [| done]. simpl.
  destruct (negb (truthy isValid)); [done |].
  apply wp_bind, wp_on_env. intros [token'|e3] env3 _; [| done]. simpl.
  apply wp_bind, wp_now. intros t1 env4 _. apply wp_bind, wp_now. intros t2 env5 _.
  apply wp_bind, wp_on_auth. intros r a Hm. unfold modify in Hm. simplify_eq.
  apply wp_bind, wp_cleanupExpiredSessions. intros e' a' Hsame. simpl in *.
  rewrite Hsame.
  2:{ pose proof (map_size_insert token' (JS.mkSession (prop user "id") t1 t2)
                    (JS.sessions (JSRest.auth st))) as Hsize.
      destruct (JS.sessions (JSRest.auth st) !! token'); simpl in Hsize; lia. }
  intros ? [= <-]. exists (JS.mkSession (prop user "id") t1 t2). simpl.
  split; [done |]. split; [done |]. split; [by exists user, env1 |].
  intros t Ht.
  by rewrite (validateToken_live t token' _ (JS.mkSession (prop user "id") t1 t2))
    by (apply lookup_insert_eq || done).
Qed.

End LoginFacts.

(** ** Runs of the further properties *)

Lemma set_world_same {World Connection} (p : @JS.Program World Connection) :
  JS.set_world (JS.world p) p = p.
Proof. by destruct p. Qed.

Lemma run_eq {S A} (m : M S A) (st : S) (r : Outcome A) :
  (m st).1 = r -> m st = (r, (m st).2).
Proof. intros <-. apply surjective_pairing. Qed.

(** X1: user 1 is read, then deleted from the store behind the program's
    back; [getUser(1)] still returns the row. *)
Lemma getUser_row_is_remembered_witness :
  let p1 := (JS.getUser Store.executeQuery 1 Store.connected).2 in
  let gone := JS.set_world (StoreRest.emptied Store.initial) p1 in
  Store.users (JS.world gone) !! 1%Z = None
  /\ JS.getUser Store.executeQuery 1 gone = (Return (Some Store.ann), gone).
Proof.
  cbv zeta. split; [by_evaluation |].
  apply (getUser_row_is_remembered Store.executeQuery 1 Store.connected).
  apply run_eq. by_evaluation.
Defined.

(** X2: user 5 is looked up in vain, then added to the store behind the
    program's back; [getUser(5)] still returns [null]. *)
Lemma getUser_not_found_is_remembered_witness :
  let p1 := (JS.getUser Store.executeQuery 5 Store.connected).2 in
  let added := JS.set_world (Store.set_users {[ 5%Z := StoreRest.bob ]} Store.initial) p1 in
  Store.users (JS.world added) !! 5%Z = Some StoreRest.bob
  /\ JS.getUser Store.executeQuery 5 added = (Return None, added).
Proof.
  cbv zeta. split; [by_evaluation |].
  apply (getUser_not_found_is_remembered Store.executeQuery 5 Store.connected).
  apply run_eq. by_evaluation.
Defined.

(** X3: the same product created twice: one row, one id. *)
Lemma create_twice_inserts_once_witness :
  let first := JS.createProduct Store.executeQuery StoreRest.widget Store.connected in
  let second := JS.createProduct Store.executeQuery StoreRest.widget first.2 in
  first.1 = Return (JS.QObj {[ "insertId" := JNum 1 ]})
  /\ second = (Return (JS.QObj {[ "insertId" := JNum 1 ]}), first.2)
  /\ size (Store.products (JS.world second.2)) = 1%nat.
Proof.
  cbv zeta.
  set (first := JS.createProduct Store.executeQuery StoreRest.widget Store.connected).
  assert (H1 : first.1 = Return (JS.QObj {[ "insertId" := JNum 1 ]})) by by_evaluation.
  assert (H2 : JS.createProduct Store.executeQuery StoreRest.widget first.2
               = (Return (JS.QObj {[ "insertId" := JNum 1 ]}), first.2)).
  { pose proof (proj2 (create_twice_inserts_once Store.executeQuery StoreRest.widget
                         Store.connected _ _) (run_eq _ _ _ H1) (JS.world first.2)) as H.
    by rewrite set_world_same in H. }
  split; [exact H1 |]. split; [exact H2 |]. rewrite H2. by_evaluation.
Defined.

(** X4: an update with the empty string for a name leaves the name. *)
Lemma updateUser_falsy_field_is_not_given_witness :
  let blank := JS.updateUser Store.executeQuery 1 {[ "name" := JStr "" ]} Store.connected in
  blank = JS.updateUser Store.executeQuery 1 ∅ Store.connected
  /\ (fun row => prop row "name") <$> Store.users (JS.world blank.2) !! 1%Z
     = Some (JStr "Ann").
Proof.
  cbv zeta. split; [| by_evaluation].
  rewrite (updateUser_falsy_field_is_not_given Store.executeQuery 1 {[ "name" := JStr "" ]}
             Store.connected "name"); [by rewrite delete_singleton_eq | simpl; auto | done].
Defined.

(** X5: a product priced 10 is updated to the price 0: the [UPDATE] carries
    the name, the description and the category it had, and the store holds
    the price 0.  The same update once more finds the [UPDATE] cached and
    changes nothing, state and store being as the first update left
    them. *)
Lemma updateProduct_passes_the_merged_update_to_query_witness :
  let sql := "UPDATE products SET name = ?, description = ?, price = ?, category = ? WHERE id = ?" in
  let params := [JStr "Widget"; JStr ""; JNum 0; JStr "tools"; JNum 1] in
  let update := JS.updateProduct StoreRest.executeQuery 1 {[ "price" := JNum 0 ]} in
  Store.products (JS.world StoreRest.stocked) !! 1 = Some StoreRest.widget_row
  /\ update StoreRest.stocked = (Return (Store.affected 1), StoreRest.repriced)
  /\ StoreRest.executeQuery (Some tt) sql params (JS.world StoreRest.stocked)
     = (Return (Store.affected 1), JS.world StoreRest.repriced)
  /\ Store.products (JS.world StoreRest.repriced) !! 1
     = Some (<["price" := JNum 0]> StoreRest.widget_row)
  /\ update StoreRest.repriced = (Return (Store.affected 1), StoreRest.repriced).
Proof.
  cbv zeta.
  assert (Hfirst : JS.updateProduct StoreRest.executeQuery 1 {[ "price" := JNum 0 ]}
                     StoreRest.stocked
                   = (Return (Store.affected 1), StoreRest.repriced)).
  { apply run_eq. by vm_compute. }
  assert (Hagain : JS.updateProduct StoreRest.executeQuery 1 {[ "price" := JNum 0 ]}
                     StoreRest.repriced
                   = (Return (Store.affected 1), StoreRest.repriced)).
  { by vm_compute. }
  split; [by_evaluation |]. split; [exact Hfirst |].
  split; [| split; [by_evaluation | exact Hagain]].
  assert (Hget : JS.getProduct StoreRest.executeQuery 1 StoreRest.stocked
                 = (Return (Some StoreRest.widget_row),
                    (JS.getProduct StoreRest.executeQuery 1 StoreRest.stocked).2)).
  { apply run_eq. by_evaluation. }
  pose proof (proj1 (proj2 (updateProduct_passes_the_merged_update_to_query
    StoreRest.executeQuery 1 {[ "price" := JNum 0 ]} StoreRest.stocked StoreRest.widget_row
    _ _ _ Hget Hfirst))) as H.
  vm_compute in H. vm_compute. exact H.
Defined.

(** X6: the list holds Ann; Bob is created; the list is fetched again and
    still holds Ann alone, the store holding both. *)
Lemma listAllUsers_after_createUser_is_the_old_list_witness :
  let listed := JSRest.listAllUsers StoreRest.executeQuery JUndefined JUndefined
                  Store.connected in
  let created := JS.createUser StoreRest.executeQuery StoreRest.bob listed.2 in
  listed.1 = Return (JS.QRows [Store.ann])
  /\ size (Store.users (JS.world created.2)) = 2%nat
  /\ JSRest.listAllUsers StoreRest.executeQuery JUndefined JUndefined created.2
     = (Return (JS.QRows [Store.ann]), created.2).
Proof.
  cbv zeta.
  set (listed := JSRest.listAllUsers StoreRest.executeQuery JUndefined JUndefined
                   Store.connected).
  set (created := JS.createUser StoreRest.executeQuery StoreRest.bob listed.2).
  assert (H1 : listed.1 = Return (JS.QRows [Store.ann])) by by_evaluation.
  split; [exact H1 |]. split; [by_evaluation |].
  apply (listAllUsers_after_createUser_is_the_old_list StoreRest.executeQuery
           JUndefined JUndefined StoreRest.bob Store.connected _ listed.2
           (JS.QObj {[ "insertId" := JNum 2 ]})).
  - by apply run_eq.
  - by_evaluation.
  - apply run_eq. by_evaluation.
Defined.

(** X7: a product is created, read, deleted and read again: the second
    read returns it, the store having no product left. *)
Lemma getProduct_after_deleteProduct_returns_the_product_witness :
  let p := (JS.createProduct Store.executeQuery StoreRest.widget Store.connected).2 in
  let p0 := (JS.getProduct Store.executeQuery 1 p).2 in
  let p1 := (JS.deleteProduct Store.executeQuery 1 p0).2 in
  Store.products (JS.world p1) = ∅
  /\ (JS.getProduct Store.executeQuery 1 p1).1 = Return (Some StoreRest.widget_row).
Proof.
  cbv zeta. split; [by_evaluation |].
  set (p := (JS.createProduct Store.executeQuery StoreRest.widget Store.connected).2).
  refine (proj1 (getProduct_after_deleteProduct_returns_the_product Store.executeQuery 1 p
                   StoreRest.widget_row (JS.getProduct Store.executeQuery 1 p).2
                   (Store.affected 1) _ _ _ _ _)).
  - by_evaluation.
  - apply run_eq. by_evaluation.
  - by_evaluation.
  - apply run_eq. by_evaluation.
Defined.

(** X9: three widgets and two more, the quantity of the latter given as a
    string, at the cached price of 10. *)
Lemma calculateTotal_of_cached_products_witness :
  let p := (JS.createProduct Store.executeQuery StoreRest.widget Store.connected).2 in
  let p0 := (JS.getProduct Store.executeQuery 1 p).2 in
  let items := [JSRest.mkOrderItem 1 (JNum 3); JSRest.mkOrderItem 1 (JStr "2")] in
  line_total p0 (JSRest.mkOrderItem 1 (JNum 3)) = JSRest.Int 30
  /\ line_total p0 (JSRest.mkOrderItem 1 (JStr "2")) = JSRest.Int 20
  /\ JSRest.calculateTotal Store.executeQuery items p0 = (Return (JSRest.Int 50), p0).
Proof.
  cbv zeta.
  set (p0 := (JS.getProduct Store.executeQuery 1 _).2).
  assert (H1 : line_total p0 (JSRest.mkOrderItem 1 (JNum 3)) = JSRest.Int 30)
    by by vm_compute.
  assert (H2 : line_total p0 (JSRest.mkOrderItem 1 (JStr "2")) = JSRest.Int 20)
    by by vm_compute.
  split; [exact H1 |]. split; [exact H2 |].
  refine (proj2 (proj1 (proj2 (calculateTotal_of_cached_products Store.executeQuery
    [JSRest.mkOrderItem 1 (JNum 3); JSRest.mkOrderItem 1 (JStr "2")] p0)) _)
    [30; 20]%Z _ _).
  - intros item Hin.
    repeat (apply elem_of_cons in Hin as [-> | Hin]); [by_evaluation | by_evaluation |].
    by apply elem_of_nil in Hin.
  - repeat constructor; (assumption || done).
  - by vm_compute.
Defined.

(** X12: a wrong password: no session. *)
Lemma login_that_fails_creates_no_session_witness :
  let out := Accounts.login (JStr "ann@example.org") (JStr "guess") Accounts.initial in
  out.1 = Throw (Error "Invalid password")
  /\ JSRest.auth out.2 = JS.new_AuthenticationService.
Proof.
  cbv zeta. split; [reflexivity |].
  apply (login_that_fails_creates_no_session Accounts.findUserByEmail
           Accounts.validatePassword Accounts.generateToken Accounts.Date_now
           (JStr "ann@example.org") (JStr "guess") Accounts.initial
           (Error "Invalid password")).
  apply run_eq. reflexivity.
Defined.

(** X13: the right password: a token, accepted an hour later. *)
Lemma login_that_returns_opens_a_session_witness :
  let out := Accounts.login (JStr "ann@example.org") (JStr "secret") Accounts.initial in
  out.1 = Return "token-1"
  /\ JS.sessions (JSRest.auth out.2) !! "token-1" = Some (JS.mkSession (JNum 1) 1000 1001)
  /\ (JS.validateToken (1001 + 3600000) "token-1" (JSRest.auth out.2)).1 = Return true.
Proof.
  cbv zeta.
  set (out := Accounts.login (JStr "ann@example.org") (JStr "secret") Accounts.initial).
  assert (H1 : out.1 = Return "token-1") by reflexivity.
  assert (H2 : JS.sessions (JSRest.auth out.2) !! "token-1"
               = Some (JS.mkSession (JNum 1) 1000 1001)) by reflexivity.
  split; [exact H1 |]. split; [exact H2 |].
  destruct (login_that_returns_opens_a_session Accounts.findUserByEmail
              Accounts.validatePassword Accounts.generateToken Accounts.Date_now
              (JStr "ann@example.org") (JStr "secret") Accounts.initial "token-1" out.2
              (run_eq _ _ _ H1)) as (s & Hs & _ & _ & Hvalid); [reflexivity |].
  apply Hvalid. rewrite Hs, lookup_insert_eq in H2. injection H2 as ->. simpl. lia.
Defined.

(** ** What the two address checks accept *)

Section RegexFacts.
Local Arguments String.append !_ _ / : simpl nomatch.

Lemma append_nil_r (s : string) : s +:+ "" = s.
Proof. induction s; simpl; congruence. Qed.

Lemma append_assoc (s1 s2 s3 : string) : (s1 +:+ s2) +:+ s3 = s1 +:+ (s2 +:+ s3).
Proof. induction s1; simpl; congruence. Qed.

Lemma append_eq_nil (s1 s2 : string) : s1 +:+ s2 = "" -> s1 = "" /\ s2 = "".
Proof. destruct s1; simpl; [done | discriminate]. Qed.

Lemma matches_nullable r : nullable r = true <-> matches r "".
Proof.
  split.
  - induction r; simpl; intros H; try discriminate.
    + constructor.
    + apply andb_true_iff in H as [H1 H2].
      change "" with ("" +:+ ""). constructor; auto.
    + apply orb_true_iff in H as [H|H]; [apply MAltL | apply MAltR]; auto.
    + constructor.
  - intros H. remember "" as s eqn:Hs. induction H; simpl; try done.
    + apply append_eq_nil in Hs as [-> ->]. rewrite IHmatches1, IHmatches2; done.
    + rewrite IHmatches; done.
    + rewrite IHmatches, orb_true_r; done.
Qed.

(** A non-empty match of a star starts with a non-empty match of its body. *)
Lemma matches_star_cons r c s :
  matches (RStar r) (String c s) ->
  exists s1 s2, s = s1 +:+ s2 /\ matches r (String c s1) /\ matches (RStar r) s2.
Proof.
  intros H. remember (RStar r) as r' eqn:Hr. remember (String c s) as s' eqn:Hs.
  revert c s Hs. induction H; intros c' s' Hs; try discriminate.
  injection Hr as ->. destruct s1 as [|c1 s1]; simpl in Hs.
  - apply IHmatches2; done.
  - injection Hs as -> <-. exists s1, s2. done.
Qed.

Lemma matches_derive r : forall c s, matches (derive c r) s <-> matches r (String c s).
Proof.
  induction r as [| | accepts | r1 IH1 r2 IH2 | r1 IH1 r2 IH2 | r IH]; intros c s; simpl.
  - split; inversion 1.
  - split; inversion 1.
  - destruct (accepts c) eqn:E; split; intros H.
    + inversion H; subst. by constructor.
    + inversion H; subst. constructor.
    + inversion H.
    + inversion H; subst. congruence.
  - assert (matches (RSeq (derive c r1) r2) s -> matches (RSeq r1 r2) (String c s)) as Hleft.
    { intros H. inversion H as [| |? ? s1 s2 H1 H2| | | |]; subst.
      apply IH1 in H1. change (String c (s1 +:+ s2)) with (String c s1 +:+ s2).
      by constructor. }
    assert (matches (RSeq r1 r2) (String c s) ->
            matches (RSeq (derive c r1) r2) s
            \/ (nullable r1 = true /\ matches (derive c r2) s)) as Hright.
    { intros H. inversion H as [| |? ? s1 s2 H1 H2 Hr Hs| | | |]; subst.
      destruct s1 as [|c1 s1]; simpl in Hs.
      - right. subst. split; [by apply matches_nullable | by apply IH2].
      - injection Hs as -> <-. left. constructor; [by apply IH1 | done]. }
    destruct (nullable r1) eqn:N.
    + split; intros H.
      * inversion H; subst; [by apply Hleft |].
        change (String c s) with ("" +:+ String c s).
        constructor; [by apply matches_nullable | by apply IH2].
      * destruct (Hright H) as [?|[_ ?]]; [by apply MAltL | by apply MAltR].
    + split; intros H; [by apply Hleft |].
      destruct (Hright H) as [?|[? _]]; [done | discriminate].
  - split; intros H.
    + inversion H; subst; [apply MAltL; by apply IH1 | apply MAltR; by apply IH2].
    + inversion H; subst; [apply MAltL; by apply IH1 | apply MAltR; by apply IH2].
  - split; intros H.
    + inversion H as [| |? ? s1 s2 H1 H2| | | |]; subst. apply IH in H1.
      change (String c (s1 +:+ s2)) with (String c s1 +:+ s2). by constructor.
    + apply matches_star_cons in H as (s1 & s2 & -> & H1 & H2).
      constructor; [by apply IH | done].
Qed.

(** [regex_test] decides [matches]. *)
Lemma regex_test_matches s : forall r, regex_test r s = true <-> matches r s.
Proof.
  induction s as [|c s IH]; intros r; simpl.
  - apply matches_nullable.
  - rewrite IH. apply matches_derive.
Qed.

Lemma matches_star_class accepts s :
  matches (RStar (RClass accepts)) s <-> all_of accepts s = true.
Proof.
  split.
  - intros H. remember (RStar (RClass accepts)) as r eqn:Hr.
    induction H; try discriminate; [done |].
    injection Hr as ->. inversion H; subst. simpl.
    rewrite IHmatches2 by done. by rewrite andb_true_r.
  - induction s as [|c s IH]; simpl; intros H; [constructor |].
    apply andb_true_iff in H as [Hc Hs].
    change (String c s) with (String c "" +:+ s).
    constructor; [by constructor | auto].
Qed.

Lemma matches_plus_class accepts s :
  matches (RPlus (RClass accepts)) s <-> s <> "" /\ all_of accepts s = true.
Proof.
  unfold RPlus. split.
  - intros H. inversion H as [| |? ? s1 s2 H1 H2| | | |]; subst.
    inversion H1; subst. simpl. apply matches_star_class in H2.
    split; [done |]. by rewrite H2, andb_true_r.
  - intros [Hne H]. destruct s as [|c s]; [done |]. simpl in H.
    apply andb_true_iff in H as [Hc Hs].
    change (String c s) with (String c "" +:+ s).
    constructor; [by constructor | by apply matches_star_class].
Qed.

Lemma matches_char c s : matches (RChar c) s <-> s = String c "".
Proof.
  unfold RChar. split.
  - inversion 1 as [|? c' Hc| | | | |]; subst. apply Ascii.eqb_eq in Hc. by subst.
  - intros ->. constructor. apply Ascii.eqb_refl.
Qed.

Lemma matches_seq r1 r2 s :
  matches (RSeq r1 r2) s <-> exists s1 s2, s = s1 +:+ s2 /\ matches r1 s1 /\ matches r2 s2.
Proof.
  split.
  - inversion 1; subst. eauto.
  - intros (s1 & s2 & -> & H1 & H2). by constructor.
Qed.

End RegexFacts.

Section EmailFacts.
Local Arguments String.append !_ _ / : simpl nomatch.

Lemma all_of_append accepts s1 s2 :
  all_of accepts (s1 +:+ s2) = all_of accepts s1 && all_of accepts s2.
Proof. induction s1 as [|c s1 IH]; simpl; [done |]. by rewrite IH, andb_assoc. Qed.

Lemma string_of_uint_not_at d : all_of not_at (NilEmpty.string_of_uint d) = true.
Proof. induction d; simpl; done. Qed.

Lemma Number_toString_not_at n : all_of not_at (Number_toString n) = true.
Proof.
  unfold Number_toString, NilZero.string_of_int, NilZero.string_of_uint.
  destruct (Z.to_int n) as [d|d]; simpl; destruct d; simpl; try done;
    apply string_of_uint_not_at.
Qed.

Lemma validateEmail_needs_at s :
  all_of not_at s = true -> regex_test JS.email_regex s = false.
Proof.
  intros H. apply not_true_is_false. intros Ht.
  apply regex_test_matches in Ht. unfold JS.email_regex in Ht.
  apply matches_seq in Ht as (s1 & s2 & -> & _ & Ht).
  apply matches_seq in Ht as (s3 & s4 & -> & Ha & _). apply matches_char in Ha as ->.
  rewrite !all_of_append in H. simpl in H. by rewrite andb_false_r in H.
Qed.
End EmailFacts.

(** X14.  The JavaScript [validateEmail] accepts exactly the strings
    [name@domain.tld] whose three parts are non-empty and hold neither
    white space nor [@] (a dot may occur in any of them).  It rejects
    [undefined], [null], the booleans and the integers, whose strings hold
    no [@].  (An array or an object, which [regex.test] converts with its
    own [toString], is no value of the model.) *)
Theorem validateEmail_accepts_exactly :
  (forall s : string,
     JS.validateEmail (JStr s) = true
     <-> exists name domain tld,
           s = name +:+ "@" +:+ domain +:+ "." +:+ tld
           /\ name <> "" /\ domain <> "" /\ tld <> ""
           /\ all_of plain name = true /\ all_of plain domain = true
           /\ all_of plain tld = true)
  /\ JS.validateEmail JUndefined = false
  /\ JS.validateEmail JNull = false
  /\ (forall b : bool, JS.validateEmail (JBool b) = false)
  /\ (forall n : Z, JS.validateEmail (JNum n) = false).
Proof.
  split.
  - intros s. unfold JS.validateEmail, JS.email_regex. simpl ToString.
    rewrite regex_test_matches. fold plain.
    rewrite matches_seq. split.
    + intros (name & s1 & -> & Hn & H). apply matches_plus_class in Hn as [? ?].
      apply matches_seq in H as (at_ & s2 & -> & Ha & H). apply matches_char in Ha as ->.
      apply matches_seq in H as (domain & s3 & -> & Hd & H).
      apply matches_plus_class in Hd as [? ?].
      apply matches_seq in H as (dot & tld & -> & Hdot & Ht).
      apply matches_char in Hdot as ->.
      apply matches_plus_class in Ht as [? ?].
      exists name, domain, tld. done.
    + intros (name & domain & tld & -> & ? & ? & ? & ? & ? & ?).
      exists name, ("@" +:+ domain +:+ "." +:+ tld). split; [done |].
      split; [by apply matches_plus_class |].
      apply matches_seq. exists "@", (domain +:+ "." +:+ tld). split; [done |].
      split; [by apply matches_char |].
      apply matches_seq. exists domain, ("." +:+ tld). split; [done |].
      split; [by apply matches_plus_class |].
      apply matches_seq. exists ".", tld. split; [done |].
      split; [by apply matches_char | by apply matches_plus_class].
  - split; [done |]. split; [done |]. split; [by intros [] |].
    intros n. apply validateEmail_needs_at, Number_toString_not_at.
Qed.

(** X15.  The Java [isValidEmail] accepts exactly the strings made of a
    non-empty local part over [[A-Za-z0-9+_.-]], an [@], and a non-empty
    rest without line terminator.  The rest is not looked at any further:
    it needs no dot and may hold blanks or more [@]. *)
Theorem Java_isValidEmail_accepts_exactly (s : string) :
  JavaRest.isValidEmail s = true
  <-> exists name rest,
        s = name +:+ "@" +:+ rest
        /\ name <> "" /\ rest <> ""
        /\ all_of JavaRest.local_part name = true
        /\ all_of JavaRest.not_line_terminator rest = true.
Proof.
  unfold JavaRest.isValidEmail, JavaRest.email_regex.
  rewrite regex_test_matches, matches_seq. split.
  - intros (name & s1 & -> & Hn & H). apply matches_plus_class in Hn as [? ?].
    apply matches_seq in H as (at_ & rest & -> & Ha & Hr). apply matches_char in Ha as ->.
    apply matches_plus_class in Hr as [? ?].
    by exists name, rest.
  - intros (name & rest & -> & ? & ? & ? & ?).
    exists name, ("@" +:+ rest). split; [done |].
    split; [by apply matches_plus_class |].
    apply matches_seq. exists "@", rest. split; [done |].
    split; [by apply matches_char | by apply matches_plus_class].
Qed.

(** ** The key of the query cache *)

Section CacheKeyFacts.
Local Arguments String.append !_ _ / : simpl nomatch.

Lemma append_inj_l (s t1 t2 : string) : s +:+ t1 = s +:+ t2 -> t1 = t2.
Proof. induction s; simpl; intros H; [done |]. injection H. auto. Qed.

(** Two ways of cutting one string: one of the two heads extends the
    other. *)
Lemma append_eq_append (s1 : string) : forall s2 t1 t2,
  s1 +:+ t1 = s2 +:+ t2 ->
  (exists u, s2 = s1 +:+ u /\ t1 = u +:+ t2) \/ (exists u, s1 = s2 +:+ u /\ t2 = u +:+ t1).
Proof.
  induction s1 as [|c s1 IH]; intros s2 t1 t2 H; simpl in H.
  - left. by exists s2.
  - destruct s2 as [|c2 s2]; simpl in H.
    + right. by exists (String c s1).
    + injection H as -> H. destruct (IH _ _ _ H) as [(u & -> & ->)|(u & -> & ->)].
      * left. by exists u.
      * right. by exists u.
Qed.

Lemma read_append s1 : forall at_ s2,
  read at_ (s1 +:+ s2) = read at_ s1 ≫= fun next => read next s2.
Proof.
  induction s1 as [|c s1 IH]; intros at_ s2; simpl; [done |].
  destruct (advance at_ c); [apply IH | done].
Qed.

Lemma read_bare s : all_of bare s = true -> read Outside s = Some Outside.
Proof.
  induction s as [|c s IH]; simpl; [done |]. intros H.
  apply andb_true_iff in H as [Hc Hs]. unfold bare in Hc.
  apply negb_true_iff in Hc. repeat (apply orb_false_iff in Hc as [Hc ?]).
  rewrite Hc. simpl.
  replace (Ascii.eqb c "\") with false by done.
  replace (Ascii.eqb c ":") with false by done. simpl. auto.
Qed.

Lemma read_escape_char c : read Inside (json_escape_char c) = Some Inside.
Proof. by destruct c as [[] [] [] [] [] [] [] []]. Qed.

Lemma read_escape s : read Inside (json_escape s) = Some Inside.
Proof.
  induction s as [|c s IH]; simpl; [done |].
  by rewrite read_append, read_escape_char.
Qed.

Lemma string_of_uint_bare d : all_of bare (NilEmpty.string_of_uint d) = true.
Proof. induction d; simpl; done. Qed.

Lemma Number_toString_bare n : all_of bare (Number_toString n) = true.
Proof.
  unfold Number_toString, NilZero.string_of_int, NilZero.string_of_uint.
  destruct (Z.to_int n) as [d|d]; simpl; destruct d; simpl; try done;
    apply string_of_uint_bare.
Qed.

(** A serialised element that is no string literal. *)
Lemma element_bare v :
  (forall s, v <> JStr s) -> all_of bare (JSON_stringify_element v) = true.
Proof.
  intros H. destruct v as [| |[]|n|s]; try done.
  - apply Number_toString_bare.
  - by destruct (H s).
Qed.

Lemma read_element v : read Outside (JSON_stringify_element v) = Some Outside.
Proof.
  destruct v as [| |[]|n|s]; try done.
  - apply read_bare, Number_toString_bare.
  - simpl. unfold dquote. simpl.
    rewrite read_append, read_escape. done.
Qed.

Lemma read_join (l : list JSValue) :
  read Outside (join_commas (map JSON_stringify_element l)) = Some Outside.
Proof.
  induction l as [|v l IH]; [done |].
  destruct l as [|v' l]; [apply read_element |].
  change (join_commas (map JSON_stringify_element (v :: v' :: l)))
    with (JSON_stringify_element v +:+ "," +:+
          join_commas (map JSON_stringify_element (v' :: l))).
  rewrite read_append, read_element. simpl. exact IH.
Qed.

Lemma read_JSON_stringify params : read Outside (JSON_stringify params) = Some Outside.
Proof.
  unfold JSON_stringify. simpl. rewrite read_append, read_join. done.
Qed.

(** Read from outside and from inside a string literal, a text never ends
    at the same position. *)
Lemma read_opposite s : forall a b,
  (read Outside s = Some a -> read Inside s = Some b ->
   (a = Outside /\ b = Inside) \/ (a = Inside /\ b = Outside)).
Proof.
  assert (forall x y a b,
            (x = Outside /\ y = Inside) \/ (x = Inside /\ y = Outside) ->
            read x s = Some a -> read y s = Some b ->
            (a = Outside /\ b = Inside) \/ (a = Inside /\ b = Outside)) as H.
  { induction s as [|c s IH]; intros x y a b Hxy; simpl.
    - intros [= <-] [= <-]. done.
    - destruct Hxy as [[-> ->]|[-> ->]]; simpl;
        destruct (Ascii.eqb c "034"); try (apply IH; tauto);
        destruct (Ascii.eqb c "\"); simpl; try done;
        destruct (Ascii.eqb c ":"); simpl; try done; apply IH; tauto. }
  intros a b. apply H. tauto.
Qed.

(** The serialised parameters do not end in a colon followed by serialised
    parameters. *)
Lemma JSON_stringify_no_suffix params params' u :
  JSON_stringify params <> u +:+ ":" +:+ JSON_stringify params'.
Proof.
  intros H. pose proof (read_JSON_stringify params) as Hr. rewrite H in Hr.
  rewrite read_append in Hr.
  destruct (read Outside u) as [at_|] eqn:Hu; [| done]. simpl in Hr.
  assert (read Inside (JSON_stringify params') = Some Outside) as Hin.
  { destruct at_; simpl in Hr; done. }
  destruct (read_opposite _ _ _ (read_JSON_stringify params') Hin) as [[_ ?]|[? _]]; done.
Qed.

(** The key determines the statement and the serialised parameters. *)
Lemma generateCacheKey_parts sql1 params1 sql2 params2 :
  JS.generateCacheKey sql1 params1 = JS.generateCacheKey sql2 params2 ->
  sql1 = sql2 /\ JSON_stringify params1 = JSON_stringify params2.
Proof.
  unfold JS.generateCacheKey. intros H.
  assert (forall s : string, s +:+ "" = s) as Hnil.
  { intros s. induction s; simpl; congruence. }
  destruct (append_eq_append _ _ _ _ H) as [(u & -> & Hu)|(u & -> & Hu)];
    (destruct u as [|c u];
     [ change (":" +:+ JSON_stringify params1 = ":" +:+ JSON_stringify params2) in Hu
       || change (":" +:+ JSON_stringify params2 = ":" +:+ JSON_stringify params1) in Hu;
       apply append_inj_l in Hu; by rewrite Hnil
     | exfalso ]).
  - change (String ":" (JSON_stringify params1)
            = String c (u +:+ ":" +:+ JSON_stringify params2)) in Hu.
    injection Hu as <- Hu. by apply JSON_stringify_no_suffix in Hu.
  - change (String ":" (JSON_stringify params2)
            = String c (u +:+ ":" +:+ JSON_stringify params1)) in Hu.
    injection Hu as <- Hu. by apply JSON_stringify_no_suffix in Hu.
Qed.

(** *** The serialised elements are told apart *)

Lemma unescape_escape c rest : unescape (json_escape_char c +:+ rest) = Some (c, rest).
Proof. by destruct c as [[] [] [] [] [] [] [] []]. Qed.

Lemma json_escape_inj s1 : forall s2, json_escape s1 = json_escape s2 -> s1 = s2.
Proof.
  induction s1 as [|c1 s1 IH]; intros [|c2 s2] H; simpl in H; [done | | |].
  - apply (f_equal unescape) in H. by rewrite unescape_escape in H.
  - apply (f_equal unescape) in H. by rewrite unescape_escape in H.
  - apply (f_equal unescape) in H. rewrite !unescape_escape in H.
    injection H as -> H. f_equal. by apply IH.
Qed.

Lemma append_inj_r (s1 : string) : forall s2 t, s1 +:+ t = s2 +:+ t -> s1 = s2.
Proof.
  assert (forall s t : string, String.length (s +:+ t) = (String.length s + String.length t)%nat)
    as Hlen.
  { intros s t. induction s; simpl; congruence. }
  induction s1 as [|c1 s1 IH]; intros [|c2 s2] t H; simpl in H; [done | | |].
  - apply (f_equal String.length) in H. simpl in H. rewrite Hlen in H. lia.
  - apply (f_equal String.length) in H. simpl in H. rewrite Hlen in H. lia.
  - injection H as -> H. f_equal. by apply (IH _ t).
Qed.

Lemma Number_toString_inj n1 n2 : Number_toString n1 = Number_toString n2 -> n1 = n2.
Proof.
  unfold Number_toString. intros H. apply DecimalZ.to_int_inj.
  assert (forall n, NilZero.int_of_string (NilZero.string_of_int (Z.to_int n))
                    = Some (Z.to_int n)) as Hback.
  { intros n. apply NilZero.isi; destruct n; simpl; try done;
      intros [= Hp]; by apply DecimalPos.Unsigned.to_uint_nonnil in Hp. }
  apply (f_equal NilZero.int_of_string) in H. rewrite !Hback in H. by injection H.
Qed.

(** A serialised number starts with a digit or a minus sign. *)
Lemma Number_toString_head n :
  exists c s, Number_toString n = String c s /\ bare c = true.
Proof.
  pose proof (Number_toString_bare n) as H.
  assert (Number_toString n <> "") as Hne.
  { unfold Number_toString, NilZero.string_of_int, NilZero.string_of_uint.
    destruct (Z.to_int n) as [d|d]; [| done]. by destruct d. }
  destruct (Number_toString n) as [|c s]; [done |]. simpl in H.
  apply andb_true_iff in H as [Hc _]. by exists c, s.
Qed.

Lemma element_inj v1 v2 :
  JSON_stringify_element v1 = JSON_stringify_element v2 ->
  undefined_as_null v1 = undefined_as_null v2.
Proof.
  assert (forall n c s, bare c = false -> Number_toString n <> String c s) as Hbare.
  { intros n c s Hc H. destruct (Number_toString_head n) as (c' & s' & H' & Hc').
    rewrite H' in H. injection H as -> _. congruence. }
  assert (forall n kw, In kw ["null"; "true"; "false"] -> Number_toString n <> kw) as Hkw.
  { intros n kw Hin H. destruct (Number_toString_head n) as (c & s & H' & _).
    pose proof (Number_toString_bare n) as Hall. rewrite H in Hall.
    apply (f_equal (NilZero.int_of_string)) in H.
    assert (NilZero.int_of_string (Number_toString n) = Some (Z.to_int n)) as Hback.
    { unfold Number_toString. apply NilZero.isi; destruct n; simpl; try done;
        intros [= Hp]; by apply DecimalPos.Unsigned.to_uint_nonnil in Hp. }
    rewrite Hback in H. simpl in Hin.
    destruct Hin as [<-|[<-|[<-|[]]]]; vm_compute in H; done. }
  destruct v1 as [| |[]|n1|s1], v2 as [| |[]|n2|s2]; simpl; intros H; try done;
    try (exfalso; by (eapply Hkw; [| exact H]; simpl; tauto));
    try (exfalso; by (eapply Hkw; [| symmetry; exact H]; simpl; tauto));
    try (exfalso; by (eapply Hbare; [| exact H]));
    try (exfalso; by (eapply Hbare; [| symmetry; exact H])).
  - f_equal. by apply Number_toString_inj.
  - f_equal. unfold dquote in H. simpl in H. injection H as H.
    apply append_inj_r in H. by apply json_escape_inj.
Qed.

(** *** The serialised array is cut into its elements in one way *)

Lemma to_closing_quote_escape_char c s :
  to_closing_quote false (json_escape_char c +:+ s)
  = ((json_escape_char c +:+ (to_closing_quote false s).1), (to_closing_quote false s).2).
Proof.
  destruct (to_closing_quote false s) as [literal rest] eqn:E.
  destruct c as [[] [] [] [] [] [] [] []]; simpl; by rewrite E.
Qed.

Lemma to_closing_quote_escape s rest :
  to_closing_quote false (json_escape s +:+ dquote +:+ rest)
  = (json_escape s +:+ dquote, rest).
Proof.
  induction s as [|c s IH]; [done |].
  assert (forall a b c : string, (a +:+ b) +:+ c = a +:+ (b +:+ c)) as Hassoc.
  { intros a b c'. induction a; simpl; congruence. }
  change (json_escape (String c s)) with (json_escape_char c +:+ json_escape s).
  rewrite !Hassoc, to_closing_quote_escape_char, IH. done.
Qed.

Lemma to_delimiter_bare s rest :
  all_of bare s = true -> ends_element rest = true ->
  to_delimiter (s +:+ rest) = (s, rest).
Proof.
  intros Hs Hrest. induction s as [|c s IH]; simpl.
  - destruct rest as [|c rest]; [done |]. simpl in *. by rewrite Hrest.
  - simpl in Hs. apply andb_true_iff in Hs as [Hc Hs]. rewrite IH by done.
    unfold bare in Hc. apply negb_true_iff in Hc.
    repeat (apply orb_false_iff in Hc as [Hc ?]).
    replace (Ascii.eqb c ",") with false by done.
    replace (Ascii.eqb c "]") with false by done. done.
Qed.

Lemma first_element_spec v rest :
  ends_element rest = true ->
  first_element (JSON_stringify_element v +:+ rest) = (JSON_stringify_element v, rest).
Proof.
  intros Hrest.
  assert (forall s, all_of bare s = true -> s <> "" ->
            first_element (s +:+ rest) = (s, rest)) as Hbare.
  { intros [|c s] Hs Hne; [done |].
    change (first_element (String c s +:+ rest))
      with (if Ascii.eqb c "034"
            then let '(literal, rest0) := to_closing_quote false (s +:+ rest) in
                 (String c literal, rest0)
            else to_delimiter (String c s +:+ rest)).
    pose proof Hs as Hc. simpl in Hc. apply andb_true_iff in Hc as [Hc _].
    unfold bare in Hc. apply negb_true_iff in Hc.
    repeat (apply orb_false_iff in Hc as [Hc ?]). rewrite Hc.
    by apply to_delimiter_bare. }
  destruct v as [| |[]|n|s]; try (by apply Hbare).
  - apply Hbare; [apply Number_toString_bare |].
    destruct (Number_toString_head n) as (c & s & H & _). simpl. by rewrite H.
  - simpl. unfold dquote at 1. simpl.
    assert (forall a b c : string, (a +:+ b) +:+ c = a +:+ (b +:+ c)) as Hassoc.
    { intros a b c'. induction a; simpl; congruence. }
    rewrite Hassoc, to_closing_quote_escape. done.
Qed.

Lemma element_nonempty v : JSON_stringify_element v <> "".
Proof.
  destruct v as [| |[]|n|s]; try done.
  destruct (Number_toString_head n) as (c & s & H & _). simpl. by rewrite H.
Qed.

(** The elements and the closing bracket. *)
Lemma join_commas_cons (x y : string) l :
  join_commas (x :: y :: l) = x +:+ "," +:+ join_commas (y :: l).
Proof. done. Qed.

Lemma JSON_stringify_elements l1 : forall l2,
  join_commas (map JSON_stringify_element l1) +:+ "]"
  = join_commas (map JSON_stringify_element l2) +:+ "]" ->
  map JSON_stringify_element l1 = map JSON_stringify_element l2.
Proof.
  assert (forall a b c : string, (a +:+ b) +:+ c = a +:+ (b +:+ c)) as Hassoc.
  { intros a b c'. induction a; simpl; congruence. }
  assert (forall v l, exists rest,
            join_commas (map JSON_stringify_element (v :: l)) +:+ "]"
            = JSON_stringify_element v +:+ rest
            /\ ends_element rest = true
            /\ (l = [] -> rest = "]")
            /\ (l <> [] ->
                rest = "," +:+ join_commas (map JSON_stringify_element l) +:+ "]")) as Hcut.
  { intros v [|v' l].
    - exists "]". done.
    - exists ("," +:+ join_commas (map JSON_stringify_element (v' :: l)) +:+ "]").
      simpl map. rewrite join_commas_cons, !Hassoc. done. }
  induction l1 as [|v1 l1 IH]; intros [|v2 l2] H; [done | | |].
  - exfalso. destruct (Hcut v2 l2) as (rest & E & Hends & _). rewrite E in H.
    change (join_commas (map JSON_stringify_element []) +:+ "]") with "]" in H.
    apply (f_equal first_element) in H. rewrite first_element_spec in H by done.
    injection H as H _. symmetry in H. by apply element_nonempty in H.
  - exfalso. destruct (Hcut v1 l1) as (rest & E & Hends & _). rewrite E in H.
    change (join_commas (map JSON_stringify_element []) +:+ "]") with "]" in H.
    apply (f_equal first_element) in H. rewrite first_element_spec in H by done.
    injection H as H _. by apply element_nonempty in H.
  - destruct (Hcut v1 l1) as (rest1 & E1 & Hends1 & Hnil1 & Hcons1).
    destruct (Hcut v2 l2) as (rest2 & E2 & Hends2 & Hnil2 & Hcons2).
    rewrite E1, E2 in H. apply (f_equal first_element) in H.
    rewrite !first_element_spec in H by done. injection H as Hv Hrest.
    simpl. rewrite Hv. f_equal.
    destruct l1 as [|v1' l1], l2 as [|v2' l2]; [done | | |].
    + rewrite Hnil1, Hcons2 in Hrest by done. done.
    + rewrite Hcons1, Hnil2 in Hrest by done. done.
    + apply IH. rewrite Hcons1, Hcons2 in Hrest by done.
      by apply (append_inj_l ",") in Hrest.
Qed.

(** X29.  For parameters that are [undefined], [null], booleans, integers
    of at most 2^53 in absolute value or strings, two calls of [query]
    share a cache key exactly when they have the same statement and the
    same parameters, [undefined] and [null] being taken for one another:
    the key of a statement and its parameters is the key of no other
    statement, however the texts are chosen, and of no other such
    parameters but for [undefined] in the place of [null].  ([NaN] and the
    infinities, which are written as [null], the negative zero, which is
    written as 0, larger numbers, arrays and objects are no values of the
    model.) *)
Theorem generateCacheKey_tells_calls_apart sql1 params1 sql2 params2 :
  forallb safe_integer params1 = true ->
  forallb safe_integer params2 = true ->
  JS.generateCacheKey sql1 params1 = JS.generateCacheKey sql2 params2
  <-> sql1 = sql2 /\ undefined_as_null <$> params1 = undefined_as_null <$> params2.
Proof.
  intros _ _. split.
  - intros H. apply generateCacheKey_parts in H as [-> H]. split; [done |].
    unfold JSON_stringify in H. apply (append_inj_l "[") in H.
    apply JSON_stringify_elements in H. revert params2 H.
    induction params1 as [|v1 l1 IH]; intros [|v2 l2] H; simpl in H; try done.
    injection H as Hv H. rewrite !fmap_cons, (element_inj v1 v2 Hv), (IH l2 H). done.
  - intros [-> H]. unfold JS.generateCacheKey, JSON_stringify.
    assert (map JSON_stringify_element params1 = map JSON_stringify_element params2)
      as ->; [| done].
    revert params2 H. induction params1 as [|v1 l1 IH]; intros [|v2 l2] H; try done.
    rewrite !fmap_cons in H. injection H as Hv H. simpl. rewrite (IH l2 H). f_equal.
    destruct v1, v2; simpl in Hv; by simplify_eq.
Qed.
End CacheKeyFacts.

(** ** Deleting a user twice *)

Section DeleteUserFacts.
Context {World Connection : Type}.
Variable executeQuery :
  option Connection -> string -> list JSValue -> World -> Outcome JS.QResult * World.

Local Abbreviation Program := (@JS.Program World Connection).
Local Abbreviation query := (JS.query executeQuery).
Local Abbreviation getUser := (JS.getUser executeQuery).
Local Abbreviation deleteUser := (JS.deleteUser executeQuery).
Implicit Types (p : Program) (id : Z).

(** X16.  The JavaScript [deleteUser] called again with the id it has just
    deleted returns the result of the first call and leaves the whole state
    as it is, the store included: the user is found in [queryCache], and so
    is the [DELETE].  (The user is taken not to be in [userCache] before the
    first call, and [queryCache] to hold at most 1000 entries then.) *)
Theorem deleteUser_again_reports_the_first_deletion id p r p1 :
  JS.userCache p !! id = None ->
  (Map_size (JS.queryCache (JS.db p)) <= 1000)%Z ->
  deleteUser id p = (Return r, p1) ->
  deleteUser id p1 = (Return r, p1).
Proof.
  intros Hcold Hsize Hdel.
  set (sel := JS.generateCacheKey "SELECT * FROM users WHERE id = ?" [JNum id]).
  set (del := JS.generateCacheKey "DELETE FROM users WHERE id = ?" [JNum id]).
  assert (del <> sel) as Hne by done.
  unfold JS.deleteUser, bind at 1 in Hdel.
  rewrite (getUser_miss executeQuery id p Hcold) in Hdel.
  pose proof (query_cases executeQuery "SELECT * FROM users WHERE id = ?" [JNum id] p)
    as Hsel.
  destruct (query "SELECT * FROM users WHERE id = ?" [JNum id] p) as [[result|e] p'] eqn:E;
    [| done].
  destruct (JS.first_row result) as [row|] eqn:Hrow; [| done].
  unfold bind at 1 in Hdel.
  set (p0 := JS.set_userCache _ p') in Hdel.
  pose proof (query_cases executeQuery "DELETE FROM users WHERE id = ?" [JNum id] p0)
    as Hcases.
  destruct (query "DELETE FROM users WHERE id = ?" [JNum id] p0) as [[r'|e] p''] eqn:E';
    [| done].
  unfold bind, JS.UserService_clearCache, modify, ret in Hdel. simplify_eq.
  assert (Map_get (JS.queryCache (JS.db p'')) sel = Some result
          /\ Map_get (JS.queryCache (JS.db p'')) del = Some r) as [Hs Hd].
  { fold sel in Hsel. fold del in Hcases. cbv zeta in Hsel, Hcases.
    destruct Hcases as [(r1 & Hget & Eq) | [(e & w' & _ & Eq) | (r1 & w' & Hnone & Eq)]];
      simplify_eq.
    - split; [| done].
      destruct Hsel as [(r2 & Hget' & Eq) | [(e & w' & _ & Eq) | (r2 & w' & Hnone & Eq)]];
        simplify_eq; [done |].
      simpl. rewrite Map_get_app_None by by apply Map_get_evicted_None.
      simpl. by rewrite String.eqb_refl.
    - simpl in *. split.
      + destruct Hsel as [(r2 & Hget' & Eq) | [(e & w'' & _ & Eq) | (r2 & w'' & Hnone' & Eq)]];
          simplify_eq; simpl in *.
        * apply Map_get_app_Some. unfold evicted.
          by destruct (Z.gtb_spec (Map_size (JS.queryCache (JS.db p))) 1000); [lia |].
        * apply Map_get_newest_survives; [by apply Map_get_evicted_None | done].
      + rewrite Map_get_app_None by by apply Map_get_evicted_None.
        simpl. by rewrite String.eqb_refl. }
  unfold JS.deleteUser, bind at 1.
  rewrite (getUser_miss executeQuery id) by done.
  rewrite (query_hit executeQuery _ _ (JS.set_userCache ∅ p'') result) by exact Hs.
  rewrite Hrow. unfold bind at 1.
  rewrite (query_hit executeQuery _ _ _ r) by exact Hd.
  unfold bind, JS.UserService_clearCache, modify, ret. simpl. done.
Qed.
End DeleteUserFacts.

(** ** The JavaScript [connect] in general *)

Section MoreConnectFacts.
Context {World Connection : Type}.
Variable establishConnection : World -> Outcome Connection * World.

Local Abbreviation Program := (@JS.Program World Connection).
Local Abbreviation connect_loop := (JS.connect_loop establishConnection).
Local Abbreviation connect := (JS.connect establishConnection).

Lemma JS_connect_loop_result :
  forall (fuel : nat) (attempts : Z) (p : Program) o p',
    (0 <= attempts < JS.retryAttempts (JS.db p))%Z ->
    (Z.to_nat (JS.retryAttempts (JS.db p) - attempts) <= fuel)%nat ->
    connect_loop fuel attempts p = (o, p') ->
    connect_result establishConnection p attempts o p'.
Proof.
  unfold connect_result.
  intros fuel. induction fuel as [|fuel IH]; intros attempts p o p' Hrange Hfuel; [lia |].
  simpl. unfold bind at 1, get_state at 1.
  destruct (Z.ltb_spec attempts (JS.retryAttempts (JS.db p))) as [_|]; [| lia].
  unfold try_catch, bind, modify, JS.on_world. simpl.
  destruct (establishConnection (JS.world p)) as [[c|e] w'] eqn:E; simpl.
  - intros [= <- <-]. split; [done |]. exists 1%nat, c, (JS.world p). simpl.
    repeat split; try done; lia.
  - destruct (Z.geb_spec (attempts + 1) (JS.retryAttempts (JS.db p))) as [Hlast|Hmore].
    + unfold throw. intros [= <- <-]. simpl. split; [done |]. exists (JS.world p).
      replace (Z.to_nat (JS.retryAttempts (JS.db p) - attempts)) with 1%nat by lia.
      done.
    + unfold JS.sleep, modify. simpl.
      set (p1 := JS.log_event (JS.EvSleep (1000 * (attempts + 1)))
                   (JS.set_world w' (JS.log_event JS.EvEstablish p))).
      intros Hrun.
      destruct (IH (attempts + 1)%Z p1 o p') as [Hretry Hres];
        [simpl; lia | simpl; lia | done |].
      simpl in *. split; [done |]. destruct o as [[]|e'].
      * destruct Hres as (k & c & w & Hk1 & Hk2 & Hlast & Hconn & Htrace).
        exists (S k), c, w. rewrite Htrace. simpl.
        repeat split; try done; try lia.
        destruct k; [lia |]. by rewrite <- !(assoc_L (++)).
      * destruct Hres as (w & Hlast & Hconn & Htrace).
        exists w. rewrite Htrace, Hconn. simpl. repeat split; try done.
        replace (Z.to_nat (JS.retryAttempts (JS.db p) - attempts))
          with (S (Z.to_nat (JS.retryAttempts (JS.db p) - (attempts + 1)))) by lia.
        destruct (Z.to_nat (JS.retryAttempts (JS.db p) - (attempts + 1))) eqn:Hk; [lia |].
        by rewrite <- !(assoc_L (++)).
Qed.

(** X17.  The JavaScript [connect], whatever [establishConnection] does.
    With [retryAttempts <= 0] it returns at once and changes nothing.
    Otherwise, when it returns, some attempt [k <= retryAttempts] has
    succeeded, the manager holds the connection that attempt returned, and
    the attempts before it were followed by pauses of 1000, 2000, ... ms;
    when it throws, it has made exactly [retryAttempts] attempts, it throws
    what the last one threw, and the connection is as before. *)
Theorem JS_connect_returns_connected_or_throws_the_last_failure (p : Program) :
  let n := JS.retryAttempts (JS.db p) in
  let p' := (connect p).2 in
  match (connect p).1 with
  | Return _ =>
      (n <= 0 /\ p' = p)
      \/ (0 < n
          /\ exists (k : nat) c w,
               (1 <= k)%nat /\ Z.of_nat k <= n
               /\ establishConnection w = (Return c, JS.world p')
               /\ JS.connection (JS.db p') = Some c
               /\ JS.trace p' = (JS.trace p ++ attempts_trace 0 k)%list)
  | Throw e =>
      0 < n
      /\ exists w,
           establishConnection w = (Throw e, JS.world p')
           /\ JS.connection (JS.db p') = JS.connection (JS.db p)
           /\ JS.trace p' = (JS.trace p ++ attempts_trace 0 (Z.to_nat n))%list
  end.
Proof.
  intros n p'. subst n p'. unfold JS.connect, bind, get_state.
  destruct (Z.le_gt_cases (JS.retryAttempts (JS.db p)) 0) as [Hn|Hn].
  - replace (Z.to_nat (JS.retryAttempts (JS.db p))) with 0%nat by lia. simpl.
    unfold bind, get_state.
    destruct (Z.ltb_spec 0 (JS.retryAttempts (JS.db p))); [lia |]. simpl. by left.
  - destruct (connect_loop _ 0 p) as [o p'] eqn:Hrun.
    apply JS_connect_loop_result in Hrun as [_ H]; [| lia | lia].
    rewrite Z.sub_0_r in H. simpl.
    destruct o as [[]|e].
    + right. split; [lia |]. done.
    + split; [lia |]. done.
Qed.
End MoreConnectFacts.

(** ** The statement cache of the Java manager *)

Section StatementCacheFacts.
Context {World Connection Statement ResultSet Object : Type}.
Variable Connection_isClosed : Connection -> World -> Outcome bool.
Variable Connection_isValid : Connection -> Z -> World -> Outcome bool.
Variable Connection_prepareStatement :
  Connection -> string -> World -> Outcome Statement * World.
Variable Statement_setObject : Statement -> Z -> Object -> World -> Outcome unit * World.
Variable Statement_executeQuery : Statement -> World -> Outcome ResultSet * World.
Variable Statement_executeUpdate : Statement -> World -> Outcome Z * World.
Variable Statement_close : Statement -> World -> Outcome unit * World.
Variable HashMap_entries : gmap string Statement -> list (string * Statement).

Local Abbreviation DatabaseManager :=
  (@Java.DatabaseManager World Connection Statement Object).
Local Abbreviation isConnected :=
  (Java.isConnected (Statement:=Statement) (Object:=Object)
     Connection_isClosed Connection_isValid).
Local Abbreviation clearOldestStatements_loop :=
  (Java.clearOldestStatements_loop (Connection:=Connection) (Object:=Object) Statement_close).
Local Abbreviation clearOldestStatements :=
  (Java.clearOldestStatements (Connection:=Connection) (Object:=Object)
     Statement_close HashMap_entries).
Local Abbreviation getPreparedStatement :=
  (Java.getPreparedStatement (Object:=Object)
     Connection_prepareStatement Statement_close HashMap_entries).
Local Abbreviation setParameters :=
  (Java.setParameters (Connection:=Connection) Statement_setObject).
Local Abbreviation executeQuery :=
  (Java.executeQuery Connection_isClosed Connection_isValid Connection_prepareStatement
     Statement_setObject Statement_executeQuery Statement_close HashMap_entries).
Local Abbreviation executeUpdate :=
  (Java.executeUpdate Connection_isClosed Connection_isValid Connection_prepareStatement
     Statement_setObject Statement_executeUpdate Statement_close HashMap_entries).
Implicit Types (d : DatabaseManager) (sql : string) (params : list Object).

Lemma call_fields {A} c (f : World -> Outcome A * World) d :
  same_fields d (Java.call c f d).2
  /\ Java.calls (Java.call c f d).2 = (Java.calls d ++ [c])%list.
Proof. unfold Java.call. by destruct (f (Java.world d)). Qed.

Lemma size_removed_le {V} keys : forall m : gmap string V, (size (removed keys m) <= size m)%nat.
Proof.
  induction keys as [|k keys IH]; intros m; simpl; [done |].
  etrans; [apply IH |]. rewrite map_size_delete. destruct (m !! k); simpl; lia.
Qed.

Lemma size_removed {V} keys : forall m : gmap string V,
  NoDup keys -> (forall k, k ∈ keys -> is_Some (m !! k)) ->
  size (removed keys m) = (size m - length keys)%nat.
Proof.
  induction keys as [|k keys IH]; intros m Hnd Hin; simpl; [lia |].
  apply NoDup_cons in Hnd as [Hk Hnd].
  rewrite IH; [| done |].
  - rewrite map_size_delete_Some by (apply Hin; left). lia.
  - intros k' Hk'. rewrite lookup_delete_ne; [apply Hin; by right |].
    intros ->. done.
Qed.

(** The loop of [clearOldestStatements] removes the first entries of the
    iteration, as many as asked for when it runs to its end, and has then
    closed each of them. *)
Lemma clearOldestStatements_loop_spec entries : forall n d o d',
  clearOldestStatements_loop entries n d = (o, d') ->
  exists j : nat,
    (j <= length entries)%nat /\ (Z.of_nat j <= Z.max n 0)%Z
    /\ Java.statementCache d' = removed (take j entries).*1 (Java.statementCache d)
    /\ Java.maxCacheSize d' = Java.maxCacheSize d
    /\ Java.connection d' = Java.connection d
    /\ (returned o = true ->
        j = Nat.min (Z.to_nat n) (length entries)
        /\ Java.calls d'
           = (Java.calls d ++ (Java.CCloseStatement <$> (take j entries).*2))%list).
Proof.
  induction entries as [|entry entries IH]; intros n d o d' H; simpl in H.
  - unfold ret in H. simplify_eq. exists 0%nat. simpl.
    repeat split; try done; try lia. by rewrite app_nil_r.
  - destruct (Z.gtb_spec n 0) as [Hn|Hn].
    + unfold bind at 1, Java.catch_SQLException, try_catch in H.
      pose proof (call_fields (Java.CCloseStatement entry.2) (Statement_close entry.2) d)
        as [(Hc & Hm & Hconn) Hcalls].
      destruct (Java.call _ _ d) as [r d1]. simpl in *.
      assert (bind (modify (fun d0 =>
                Java.set_statementCache (delete entry.1 (Java.statementCache d0)) d0))
                (fun _ => clearOldestStatements_loop entries (n - 1)) d1 = (o, d') ->
              exists j : nat,
                (j <= S (length entries))%nat /\ (Z.of_nat j <= Z.max n 0)%Z
                /\ Java.statementCache d'
                   = removed (take j (entry :: entries)).*1 (Java.statementCache d)
                /\ Java.maxCacheSize d' = Java.maxCacheSize d
                /\ Java.connection d' = Java.connection d
                /\ (returned o = true ->
                    j = Nat.min (Z.to_nat n) (S (length entries))
                    /\ Java.calls d'
                       = (Java.calls d
                          ++ (Java.CCloseStatement <$> (take j (entry :: entries)).*2))%list))
        as Hgo.
      { unfold bind, modify. intros Hrun. apply IH in Hrun
          as (j & Hj & Hjn & Hcache & Hmax & Hcon & Hret).
        simpl in *. exists (S j). simpl. rewrite Hcache, Hc, Hmax, Hm, Hcon, Hconn.
        do 5 (split; [done || lia |]). intros Hr. apply Hret in Hr as [-> ->]. split; [lia |].
        rewrite Hcalls, <- (assoc_L (++)). done. }
      destruct r as [[]|e].
      * apply Hgo in H. done.
      * destruct e; try (unfold throw in H; simplify_eq; exists 0%nat; simpl;
          repeat split; try done; lia).
        unfold ret in H. apply Hgo in H. done.
    + unfold ret in H. simplify_eq. exists 0%nat. simpl.
      repeat split; try done; try lia. by rewrite app_nil_r.
Qed.

Lemma setParameters_from_fields params : forall i stmt d,
  same_fields d (Java.setParameters_from Statement_setObject i stmt params d).2
  /\ exists k : nat,
       Java.calls (Java.setParameters_from Statement_setObject i stmt params d).2
       = (Java.calls d
          ++ take k (imap (fun j x => Java.CSetObject stmt (i + Z.of_nat j + 1) x) params))%list
       /\ (returned (Java.setParameters_from Statement_setObject i stmt params d).1 = true ->
           k = length params).
Proof.
  induction params as [|x params IH]; intros i stmt d; simpl.
  - split; [done |]. exists 0%nat. by rewrite app_nil_r.
  - unfold bind.
    pose proof (call_fields (Java.CSetObject stmt (i + 1) x)
                  (Statement_setObject stmt (i + 1) x) d) as [(Hc & Hm & Hconn) Hcalls].
    destruct (Java.call _ _ d) as [[[]|e] d1]; simpl in *.
    + destruct (IH (i + 1)%Z stmt d1) as [(Hc' & Hm' & Hconn') (k & Hk & Hret)].
      split; [unfold same_fields; by rewrite Hc', Hm', Hconn' |].
      exists (S k). rewrite Hk, Hcalls, <- (assoc_L (++)). simpl. split.
      * do 2 f_equal; [f_equal; lia |]. f_equal. apply imap_ext. intros j y _. simpl.
        f_equal. lia.
      * intros Hr. by rewrite Hret.
    + split; [done |]. exists 1%nat. simpl. rewrite Hcalls, take_0.
      split; [| done]. do 3 f_equal. lia.
Qed.

Lemma getPreparedStatement_hit sql d stmt :
  Java.statementCache d !! sql = Some stmt ->
  getPreparedStatement sql d = (Return stmt, d).
Proof. intros H. unfold Java.getPreparedStatement, bind, get_state. by rewrite H. Qed.

(** Making room before a statement is cached (lines 651-653). *)
Lemma make_room_spec d o d1 :
  (forall m, HashMap_entries m ≡ₚ map_to_list m) ->
  4 <= Java.maxCacheSize d ->
  Z.of_nat (size (Java.statementCache d)) <= Java.maxCacheSize d ->
  (if (Z.of_nat (size (Java.statementCache d)) >=? Java.maxCacheSize d)%Z
   then clearOldestStatements else ret tt) d = (o, d1) ->
  (returned o = true -> Z.of_nat (size (Java.statementCache d1)) < Java.maxCacheSize d)
  /\ Z.of_nat (size (Java.statementCache d1)) <= Java.maxCacheSize d
  /\ Java.maxCacheSize d1 = Java.maxCacheSize d
  /\ Java.connection d1 = Java.connection d.
Proof.
  intros Hperm Hmax Hsize.
  destruct (Z.geb_spec (Z.of_nat (size (Java.statementCache d))) (Java.maxCacheSize d))
    as [Hfull|Hroom].
  - unfold Java.clearOldestStatements, bind, get_state. intros Hloop.
    apply clearOldestStatements_loop_spec in Hloop
      as (j & Hj & Hjn & Hcache & Hm & Hc & Hret).
    rewrite Hcache. split; [| split; [| done]].
    + intros Hr. apply Hret in Hr as [Hjeq _].
      rewrite size_removed.
      * rewrite length_fmap, length_take.
        assert (length (HashMap_entries (Java.statementCache d))
                = size (Java.statementCache d)) as Hlen.
        { rewrite (Permutation_length (Hperm _)). apply length_map_to_list. }
        rewrite Hlen in *.
        assert (1 <= Java.maxCacheSize d ÷ 4).
        { apply Z.quot_le_lower_bound; lia. }
        lia.
      * apply (sublist_NoDup _ (HashMap_entries (Java.statementCache d)).*1).
        -- rewrite (Hperm _). apply NoDup_fst_map_to_list.
        -- apply fmap_sublist, sublist_take.
      * intros k Hk. apply list_elem_of_fmap in Hk as ([k' v] & -> & Hk).
        apply elem_of_take in Hk as (i & Hk & _).
        apply list_elem_of_lookup_2 in Hk. rewrite (Hperm _) in Hk.
        apply elem_of_map_to_list in Hk. simpl. by rewrite Hk.
    + pose proof (size_removed_le (take j (HashMap_entries (Java.statementCache d))).*1
                    (Java.statementCache d)). lia.
  - unfold ret. intros [= <- <-]. repeat split; try done; lia.
Qed.

Lemma getPreparedStatement_size sql d o d' :
  (forall m, HashMap_entries m ≡ₚ map_to_list m) ->
  4 <= Java.maxCacheSize d ->
  Z.of_nat (size (Java.statementCache d)) <= Java.maxCacheSize d ->
  getPreparedStatement sql d = (o, d') ->
  Z.of_nat (size (Java.statementCache d')) <= Java.maxCacheSize d'
  /\ Java.maxCacheSize d' = Java.maxCacheSize d
  /\ Java.connection d' = Java.connection d.
Proof.
  intros Hperm Hmax Hsize H. unfold Java.getPreparedStatement, bind at 1, get_state at 1 in H.
  destruct (Java.statementCache d !! sql) as [stmt|] eqn:Hl.
  { unfold ret in H. by simplify_eq. }
  unfold bind at 1 in H.
  destruct ((if (Z.of_nat (size (Java.statementCache d)) >=? Java.maxCacheSize d)%Z
             then clearOldestStatements else ret tt) d) as [o1 d1] eqn:Hroom.
  apply make_room_spec in Hroom as (Hlt & Hle & Hm & Hc); [| done..].
  destruct o1 as [[]|e]; [| simplify_eq; split; [lia | done]].
  specialize (Hlt eq_refl).
  destruct (Java.connection d) as [c|]; [| unfold throw in H; simplify_eq; split; [lia | done]].
  unfold bind at 1 in H.
  pose proof (call_fields (Java.CPrepareStatement sql) (Connection_prepareStatement c sql) d1)
    as [(Hc2 & Hm2 & Hconn2) _].
  destruct (Java.call _ _ d1) as [[stmt|e] d2]; simpl in *;
    [| simplify_eq; rewrite Hc2, Hm2, Hm, Hconn2; split; [lia | done]].
  unfold bind, modify, ret in H. simplify_eq. simpl.
  rewrite map_size_insert, Hc2, Hm2, Hm, Hconn2.
  destruct (Java.statementCache d1 !! sql); simpl; split; try done; lia.
Qed.

Lemma take_min_length {A} (n : nat) (l : list A) : take (Nat.min n (length l)) l = take n l.
Proof.
  destruct (Nat.le_ge_cases n (length l)) as [H|H].
  - by rewrite Nat.min_l.
  - rewrite Nat.min_r by done. by rewrite !take_ge.
Qed.

Lemma clearOldestStatements_loop_returns entries : forall n d,
  (forall stmt w, match (Statement_close stmt w).1 with
                  | Return _ | Throw (SQLException _) => True
                  | Throw _ => False
                  end) ->
  returned (clearOldestStatements_loop entries n d).1 = true.
Proof.
  induction entries as [|entry entries IH]; intros n d Hclose; simpl; [done |].
  destruct (n >? 0)%Z; [| done].
  unfold bind at 1, Java.catch_SQLException, try_catch, Java.call.
  pose proof (Hclose entry.2 (Java.world d)) as Hnow.
  destruct (Statement_close entry.2 (Java.world d)) as [[[]|e] w]; simpl in Hnow |- *.
  - unfold bind, modify. by apply IH.
  - destruct e; try done. unfold ret, bind, modify. by apply IH.
Qed.

(** What [executeQuery] and [executeUpdate] have in common: the statement
    is fetched and bound, then [run] is called on it. *)
Local Abbreviation execute c run sql params :=
  (connected <- isConnected ;;
   if negb connected then throw (SQLException "Database connection is not available")
   else
     stmt <- getPreparedStatement sql ;;
     setParameters stmt params ;;;
     Java.call (c stmt) (run stmt)).

Lemma execute_size {A} c (run : Statement -> World -> Outcome A * World) sql params d o d' :
  (forall m, HashMap_entries m ≡ₚ map_to_list m) ->
  4 <= Java.maxCacheSize d ->
  Z.of_nat (size (Java.statementCache d)) <= Java.maxCacheSize d ->
  execute c run sql params d = (o, d') ->
  Z.of_nat (size (Java.statementCache d')) <= Java.maxCacheSize d'
  /\ Java.maxCacheSize d' = Java.maxCacheSize d.
Proof.
  intros Hperm Hmax Hsize. unfold bind at 1.
  pose proof (isConnected_state Connection_isClosed Connection_isValid d
                (Statement:=Statement) (Object:=Object)) as Hs.
  destruct (isConnected d) as [[connected|e] d0]; simpl in Hs; subst d0;
    [| by intros [= <- <-]].
  destruct connected; simpl; [| by intros [= <- <-]].
  unfold bind at 1.
  destruct (getPreparedStatement sql d) as [o1 d1] eqn:Hp.
  apply getPreparedStatement_size in Hp as (Hle & Hm & _); [| done..].
  destruct o1 as [stmt|e]; [| intros [= <- <-]; split; [lia | done]].
  unfold bind, Java.setParameters.
  pose proof (setParameters_from_fields params 0 stmt d1) as [(Hc & Hm' & _) _].
  destruct (Java.setParameters_from _ 0 stmt params d1) as [[[]|e] d2]; simpl in *.
  - pose proof (call_fields (c stmt) (run stmt) d2) as [(Hc1 & Hm1 & _) _].
    intros Hrun. rewrite Hrun in Hc1, Hm1. simpl in *.
    rewrite Hc1, Hm1, Hc, Hm', Hm. split; [lia | done].
  - intros [= <- <-]. rewrite Hc, Hm', Hm. split; [lia | done].
Qed.

Lemma execute_cached {A} c (run : Statement -> World -> Outcome A * World)
    sql params d stmt o d' :
  Java.statementCache d !! sql = Some stmt ->
  (isConnected d).1 = Return true ->
  execute c run sql params d = (o, d') ->
  Java.statementCache d' = Java.statementCache d
  /\ exists k : nat,
       Java.calls d' = (Java.calls d ++ take k (bindings stmt params ++ [c stmt]))%list
       /\ (returned o = true -> k = S (length params)).
Proof.
  intros Hstmt Hconn. unfold bind at 1.
  pose proof (isConnected_state Connection_isClosed Connection_isValid d
                (Statement:=Statement) (Object:=Object)) as Hs.
  destruct (isConnected d) as [o0 d0]. simpl in Hs, Hconn. subst. simpl.
  unfold bind at 1. rewrite (getPreparedStatement_hit _ _ _ Hstmt).
  unfold bind, Java.setParameters.
  pose proof (setParameters_from_fields params 0 stmt d) as [(Hc & _) (k & Hk & Hret)].
  destruct (Java.setParameters_from _ 0 stmt params d) as [[[]|e] d2]; simpl in *.
  - pose proof (call_fields (c stmt) (run stmt) d2) as [(Hc1 & _) Hcalls].
    intros Hrun. rewrite Hrun in Hc1, Hcalls. simpl in *.
    rewrite Hc1, Hc, Hcalls, Hk. split; [done |].
    rewrite (Hret eq_refl). exists (S (length params)). split; [| done].
    rewrite <- (assoc_L (++)). f_equal.
    unfold bindings. rewrite take_ge by (rewrite length_imap; lia).
    rewrite (take_ge (_ ++ _)) by (rewrite length_app, length_imap; simpl; lia).
    reflexivity.
  - intros [= <- <-]. rewrite Hc, Hk. split; [done |]. exists (Nat.min k (length params)).
    split; [| done]. f_equal. unfold bindings.
    rewrite take_app_le by (rewrite length_imap; lia).
    rewrite <- (take_min_length k), length_imap. reflexivity.
Qed.

(** X18.  The Java statement cache never outgrows [maxCacheSize]: when it
    holds at most [maxCacheSize] statements, so it does after
    [executeQuery] and after [executeUpdate], however they end.  (The
    iterator is taken to visit every entry once, and [maxCacheSize] to be
    at least 4, so that a quarter of it is at least one statement.) *)
Theorem Java_statementCache_stays_within_maxCacheSize sql params d :
  (forall m, HashMap_entries m ≡ₚ map_to_list m) ->
  4 <= Java.maxCacheSize d ->
  Z.of_nat (size (Java.statementCache d)) <= Java.maxCacheSize d ->
  let d1 := (executeQuery sql params d).2 in
  let d2 := (executeUpdate sql params d).2 in
  (Z.of_nat (size (Java.statementCache d1)) <= Java.maxCacheSize d1
   /\ Java.maxCacheSize d1 = Java.maxCacheSize d)
  /\ (Z.of_nat (size (Java.statementCache d2)) <= Java.maxCacheSize d2
      /\ Java.maxCacheSize d2 = Java.maxCacheSize d).
Proof.
  intros Hperm Hmax Hsize d1 d2. subst d1 d2. split.
  - destruct (executeQuery sql params d) as [o d1] eqn:Hrun.
    by apply (execute_size Java.CExecuteQuery Statement_executeQuery sql params d o d1).
  - destruct (executeUpdate sql params d) as [o d1] eqn:Hrun.
    by apply (execute_size Java.CExecuteUpdate Statement_executeUpdate sql params d o d1).
Qed.

(** X19.  Once [executeQuery] has returned for a statement, the statement
    is cached, and a further [executeQuery] or [executeUpdate] with the
    same text, while connected, neither prepares nor closes anything: it
    binds the parameters and executes the cached statement, the cache
    staying as it is. *)
Theorem Java_cached_statement_is_not_prepared_again sql params params' d rs d1 :
  executeQuery sql params d = (Return rs, d1) ->
  (isConnected d1).1 = Return true ->
  exists stmt,
    Java.statementCache d1 !! sql = Some stmt
    /\ (forall o d2, executeQuery sql params' d1 = (o, d2) ->
          Java.statementCache d2 = Java.statementCache d1
          /\ exists k : nat,
               Java.calls d2
               = (Java.calls d1
                  ++ take k (bindings stmt params' ++ [Java.CExecuteQuery stmt]))%list
               /\ (returned o = true -> k = S (length params')))
    /\ (forall o d2, executeUpdate sql params' d1 = (o, d2) ->
          Java.statementCache d2 = Java.statementCache d1
          /\ exists k : nat,
               Java.calls d2
               = (Java.calls d1
                  ++ take k (bindings stmt params' ++ [Java.CExecuteUpdate stmt]))%list
               /\ (returned o = true -> k = S (length params'))).
Proof.
  intros Hfirst Hconn.
  assert (exists stmt, Java.statementCache d1 !! sql = Some stmt) as [stmt Hstmt].
  { pose proof (isConnected_state Connection_isClosed Connection_isValid d
                  (Statement:=Statement) (Object:=Object)) as Hs.
    destruct (isConnected d) as [[connected|e] d0] eqn:Hc; simpl in Hs; subst d0.
    - destruct connected.
      + destruct (executeQuery_connected Connection_isClosed Connection_isValid
                    Connection_prepareStatement Statement_setObject Statement_executeQuery
                    Statement_close HashMap_entries sql params d rs d1)
          as (stmt & _ & _ & Hl & _); [by rewrite Hc | done |]. by exists stmt.
      + unfold Java.executeQuery, bind in Hfirst. by rewrite Hc in Hfirst.
    - unfold Java.executeQuery, bind in Hfirst. by rewrite Hc in Hfirst. }
  exists stmt. split; [done |]. split; intros o d2 Hrun.
  - by apply (execute_cached Java.CExecuteQuery Statement_executeQuery sql params' d1 stmt o d2).
  - by apply (execute_cached Java.CExecuteUpdate Statement_executeUpdate sql params' d1 stmt o d2).
Qed.

(** X20.  [clearOldestStatements] removes the first [maxCacheSize / 4]
    entries the iterator yields (all of them when there are fewer) and has
    called [close] on the statement of each, in that order; a close that
    throws an [SQLException] does not stop it.  ([close] is taken to throw
    nothing else.) *)
Theorem clearOldestStatements_closes_what_it_evicts d :
  (forall stmt w, match (Statement_close stmt w).1 with
                  | Return _ | Throw (SQLException _) => True
                  | Throw _ => False
                  end) ->
  let evicted :=
    take (Z.to_nat (Java.maxCacheSize d ÷ 4)) (HashMap_entries (Java.statementCache d)) in
  (clearOldestStatements d).1 = Return tt
  /\ Java.statementCache (clearOldestStatements d).2
     = removed evicted.*1 (Java.statementCache d)
  /\ Java.calls (clearOldestStatements d).2
     = (Java.calls d ++ (Java.CCloseStatement <$> evicted.*2))%list
  /\ Java.connection (clearOldestStatements d).2 = Java.connection d.
Proof.
  intros Hclose evicted. subst evicted.
  unfold Java.clearOldestStatements, bind, get_state.
  pose proof (clearOldestStatements_loop_returns
                (HashMap_entries (Java.statementCache d)) (Java.maxCacheSize d ÷ 4) d Hclose)
    as Hret.
  destruct (clearOldestStatements_loop _ _ d) as [o d'] eqn:Hloop.
  apply clearOldestStatements_loop_spec in Hloop as (j & _ & _ & Hcache & _ & Hc & Hj).
  simpl in *. destruct (Hj Hret) as [-> Hcalls].
  rewrite take_min_length in Hcache, Hcalls.
  destruct o as [[]|]; done.
Qed.
End StatementCacheFacts.

(** ** The Java [connect] when [setAutoCommit] fails *)

Section MoreJavaConnectFacts.
Context {World Connection Statement Object : Type}.
Variable DriverManager_getConnection : string -> World -> Outcome Connection * World.
Variable Connection_setAutoCommit : Connection -> bool -> World -> Outcome unit * World.

Local Abbreviation DatabaseManager :=
  (@Java.DatabaseManager World Connection Statement Object).
Local Abbreviation connect_loop :=
  (Java.connect_loop (Statement:=Statement) (Object:=Object)
     DriverManager_getConnection Connection_setAutoCommit).
Local Abbreviation connect :=
  (Java.connect (Statement:=Statement) (Object:=Object)
     DriverManager_getConnection Connection_setAutoCommit).

Lemma Java_connect_loop_setAutoCommit_fails :
  (forall cs w, exists c w', DriverManager_getConnection cs w = (Return c, w')) ->
  (forall c w, exists message w',
      Connection_setAutoCommit c false w = (Throw (SQLException message), w')) ->
  forall (fuel : nat) (attempts : Z) (last : option Exn) (d : DatabaseManager),
    (0 <= attempts < Java.retryAttempts d)%Z ->
    (Z.to_nat (Java.retryAttempts d - attempts) <= fuel)%nat ->
    exists last' d' c w w',
      connect_loop fuel attempts last d = (Return (false, last'), d')
      /\ Java.connection d' = Some c
      /\ DriverManager_getConnection (Java.connectionString d) w = (Return c, w').
Proof.
  intros Hget Hset fuel.
  induction fuel as [|fuel IH]; intros attempts last d Hrange Hfuel; [lia |].
  simpl. unfold bind at 1, get_state at 1.
  destruct (Z.ltb_spec attempts (Java.retryAttempts d)) as [_|]; [| lia].
  unfold Java.catch_SQLException, try_catch, bind, Java.call. simpl.
  destruct (Hget (Java.connectionString d) (Java.world d)) as (c & w1 & Eget). rewrite Eget.
  unfold modify. simpl.
  destruct (Hset c w1) as (message & w2 & Eset). rewrite Eset.
  unfold ret at 1. simpl.
  set (d1 := Java.mkDatabaseManager _ _ _ _ _ _ _ _).
  destruct (Z.ltb_spec (attempts + 1) (Java.retryAttempts d)) as [Hmore|Hlast].
  - unfold Java.Thread_sleep, Java.call. simpl.
    set (d2 := Java.mkDatabaseManager _ _ _ _ _ _ _ _).
    destruct (IH (attempts + 1)%Z (Some (SQLException message)) d2)
      as (last' & d' & c' & w & w' & Hrun & Hconn & Hc'); [simpl; lia | simpl; lia |].
    exists last', d', c', w, w'. by rewrite Hrun.
  - unfold ret at 1. simpl. clear IH.
    destruct fuel as [|fuel]; simpl; unfold bind, get_state; simpl;
      (destruct (Z.ltb_spec (attempts + 1) (Java.retryAttempts d)) as [|_]; [lia |]);
      unfold ret; exists (Some (SQLException message)); eexists; exists c, (Java.world d), w1;
      (split; [done |]); simpl; (split; [done |]); done.
Qed.

(** X21.  When [getConnection] succeeds but [setAutoCommit(false)] throws
    an [SQLException] at every attempt, the Java [connect] returns normally
    after its attempts, and the manager holds a connection the driver
    returned: the field is assigned before [setAutoCommit] is called and is
    not reset when the attempt fails. *)
Theorem Java_connect_keeps_a_connection_whose_setAutoCommit_failed (d : DatabaseManager) :
  (forall cs w, exists c w', DriverManager_getConnection cs w = (Return c, w')) ->
  (forall c w, exists message w',
      Connection_setAutoCommit c false w = (Throw (SQLException message), w')) ->
  (0 < Java.retryAttempts d)%Z ->
  exists d' c w w',
    connect d = (Return tt, d')
    /\ Java.connection d' = Some c
    /\ DriverManager_getConnection (Java.connectionString d) w = (Return c, w').
Proof.
  intros Hget Hset Hpos. unfold Java.connect, bind, get_state.
  destruct (Java_connect_loop_setAutoCommit_fails Hget Hset
              (Z.to_nat (Java.retryAttempts d)) 0 None d)
    as (last' & d' & c & w & w' & Hrun & Hconn & Hc); [lia | lia |].
  exists d', c, w, w'. by rewrite Hrun.
Qed.
End MoreJavaConnectFacts.

(** ** The Java [UserService] and [disconnect] *)

Section KeepsFacts.
Context {S : Type} (R : S -> S -> Prop) `{!Reflexive R} `{!Transitive R}.

Lemma keeps_ret {A} (a : A) : keeps R (ret a).
Proof. intros s. simpl. reflexivity. Qed.

Lemma keeps_throw {A} e : keeps R (throw e : M S A).
Proof. intros s. simpl. reflexivity. Qed.

Lemma keeps_get_state : keeps R get_state.
Proof. intros s. simpl. reflexivity. Qed.

Lemma keeps_pure {A} (o : Outcome A) : keeps R (fun s => (o, s)).
Proof. intros s. simpl. reflexivity. Qed.

Lemma keeps_bind {A B} (m : M S A) (k : A -> M S B) :
  keeps R m -> (forall a, keeps R (k a)) -> keeps R (bind m k).
Proof.
  intros Hm Hk s. unfold bind. specialize (Hm s).
  destruct (m s) as [[a|e] s1]; simpl in *; [| done].
  etrans; [exact Hm | apply Hk].
Qed.

Lemma keeps_try_catch {A} (m : M S A) (h : Exn -> M S A) :
  keeps R m -> (forall e, keeps R (h e)) -> keeps R (try_catch m h).
Proof.
  intros Hm Hh s. unfold try_catch. specialize (Hm s).
  destruct (m s) as [[a|e] s1]; simpl in *; [done |].
  etrans; [exact Hm | apply Hh].
Qed.

Lemma keeps_modify (f : S -> S) : (forall s, R s (f s)) -> keeps R (modify f).
Proof. intros H s. apply H. Qed.
End KeepsFacts.

Lemma updates_app {Statement Object} (l1 l2 : list (Java.Call Statement Object)) :
  updates (l1 ++ l2) = (updates l1 + updates l2)%nat.
Proof. unfold updates. by rewrite List.filter_app, length_app. Qed.

#[local] Instance no_update_refl {World Connection Statement Object} :
  Reflexive (@no_update World Connection Statement Object).
Proof. by intros d. Qed.

#[local] Instance no_update_trans {World Connection Statement Object} :
  Transitive (@no_update World Connection Statement Object).
Proof. unfold no_update. intros d1 d2 d3 H1 H2. congruence. Qed.

Section JavaUpdateFacts.
Context {World Connection Statement ResultSet Object : Type}.
Variable Connection_isClosed : Connection -> World -> Outcome bool.
Variable Connection_isValid : Connection -> Z -> World -> Outcome bool.
Variable Connection_prepareStatement :
  Connection -> string -> World -> Outcome Statement * World.
Variable Statement_setObject : Statement -> Z -> Object -> World -> Outcome unit * World.
Variable Statement_executeQuery : Statement -> World -> Outcome ResultSet * World.
Variable Statement_executeUpdate : Statement -> World -> Outcome Z * World.
Variable Statement_close : Statement -> World -> Outcome unit * World.
Variable HashMap_entries : gmap string Statement -> list (string * Statement).

Local Abbreviation DatabaseManager :=
  (@Java.DatabaseManager World Connection Statement Object).
Implicit Types (d : DatabaseManager) (sql : string) (params : list Object).

Lemma call_no_update {A} c (f : World -> Outcome A * World) :
  is_update c = false -> keeps no_update (Java.call c f : M DatabaseManager A).
Proof.
  intros Hc d. unfold no_update, Java.call. destruct (f (Java.world d)) as [r w]. simpl.
  rewrite updates_app. unfold updates at 2. simpl. rewrite Hc. simpl. lia.
Qed.

Lemma isConnected_no_update :
  keeps no_update (Java.isConnected Connection_isClosed Connection_isValid
                   : M DatabaseManager bool).
Proof. intros d. by rewrite isConnected_state. Qed.

Lemma clearOldestStatements_loop_no_update entries : forall n,
  keeps no_update (Java.clearOldestStatements_loop Statement_close entries n
                   : M DatabaseManager unit).
Proof.
  induction entries as [|entry entries IH]; intros n; simpl; [apply keeps_ret; apply _ |].
  destruct (n >? 0)%Z; [| apply keeps_ret; apply _].
  apply keeps_bind; [apply _ | |].
  - apply keeps_try_catch; [apply _ | by apply call_no_update |].
    intros []; first [apply keeps_ret | apply keeps_throw]; apply _.
  - intros _. apply keeps_bind; [apply _ | | done].
    apply keeps_modify. by intros d.
Qed.

Lemma getPreparedStatement_no_update sql :
  keeps no_update (Java.getPreparedStatement Connection_prepareStatement Statement_close
                     HashMap_entries sql : M DatabaseManager Statement).
Proof.
  unfold Java.getPreparedStatement.
  apply keeps_bind; [apply _ | apply keeps_get_state; apply _ |]. intros d.
  destruct (Java.statementCache d !! sql); [apply keeps_ret; apply _ |].
  apply keeps_bind; [apply _ | |].
  - destruct (_ >=? _)%Z; [| apply keeps_ret; apply _].
    unfold Java.clearOldestStatements.
    apply keeps_bind; [apply _ | apply keeps_get_state; apply _ |]. intros d0.
    apply clearOldestStatements_loop_no_update.
  - intros _. destruct (Java.connection d); [| apply keeps_throw; apply _].
    apply keeps_bind; [apply _ | by apply call_no_update |]. intros stmt.
    apply keeps_bind; [apply _ | | intros _; apply keeps_ret; apply _].
    apply keeps_modify. by intros d0.
Qed.

Lemma setParameters_no_update stmt params :
  keeps no_update (Java.setParameters Statement_setObject stmt params
                   : M DatabaseManager unit).
Proof.
  unfold Java.setParameters. generalize 0%Z.
  induction params as [|x params IH]; intros i; simpl; [apply keeps_ret; apply _ |].
  apply keeps_bind; [apply _ | by apply call_no_update | done].
Qed.

Lemma executeQuery_no_update sql params :
  keeps no_update
    (Java.executeQuery Connection_isClosed Connection_isValid Connection_prepareStatement
       Statement_setObject Statement_executeQuery Statement_close HashMap_entries sql params).
Proof.
  unfold Java.executeQuery.
  apply keeps_bind; [apply _ | apply isConnected_no_update |]. intros connected.
  destruct (negb connected); [apply keeps_throw; apply _ |].
  apply keeps_bind; [apply _ | apply getPreparedStatement_no_update |]. intros stmt.
  apply keeps_bind; [apply _ | apply setParameters_no_update |]. intros _.
  by apply call_no_update.
Qed.

(** [executeUpdate] executes one update when it returns, and at most one
    when it throws. *)
Lemma executeUpdate_updates sql params d o d' :
  Java.executeUpdate Connection_isClosed Connection_isValid Connection_prepareStatement
    Statement_setObject Statement_executeUpdate Statement_close HashMap_entries sql params d
  = (o, d') ->
  (returned o = true -> updates (Java.calls d') = Datatypes.S (updates (Java.calls d)))
  /\ (updates (Java.calls d) <= updates (Java.calls d')
      <= Datatypes.S (updates (Java.calls d)))%nat.
Proof.
  unfold Java.executeUpdate, bind at 1.
  pose proof (isConnected_no_update d) as H0. unfold no_update in H0.
  destruct (Java.isConnected _ _ d) as [[connected|e] d0]; simpl in *;
    [| intros [= <- <-]; rewrite H0; split; [done | lia]].
  destruct connected; simpl; [| intros [= <- <-]; rewrite H0; split; [done | lia]].
  unfold bind at 1.
  pose proof (getPreparedStatement_no_update sql d0) as H1. unfold no_update in H1.
  destruct (Java.getPreparedStatement _ _ _ sql d0) as [[stmt|e] d1]; simpl in *;
    [| intros [= <- <-]; rewrite H1, H0; split; [done | lia]].
  unfold bind.
  pose proof (setParameters_no_update stmt params d1) as H2. unfold no_update in H2.
  destruct (Java.setParameters _ stmt params d1) as [[[]|e] d2]; simpl in *;
    [| intros [= <- <-]; rewrite H2, H1, H0; split; [done | lia]].
  unfold Java.call. destruct (Statement_executeUpdate stmt (Java.world d2)) as [r w].
  intros [= <- <-]. simpl.
  rewrite updates_app, H2, H1, H0.
  change (updates [Java.CExecuteUpdate stmt]) with 1%nat. split; [intros _ |]; lia.
Qed.
End JavaUpdateFacts.

#[local] Instance same_executed_refl {World Connection Statement} :
  Reflexive (@same_executed World Connection Statement).
Proof. by intros p. Qed.

#[local] Instance same_executed_trans {World Connection Statement} :
  Transitive (@same_executed World Connection Statement).
Proof. unfold same_executed. intros p1 p2 p3 H1 H2. congruence. Qed.

Section JavaServiceFacts.
Context {World Connection Statement Row : Type}.
Variable Connection_isClosed : Connection -> World -> Outcome bool.
Variable Connection_isValid : Connection -> Z -> World -> Outcome bool.
Variable Connection_prepareStatement :
  Connection -> string -> World -> Outcome Statement * World.
Variable Statement_setObject :
  Statement -> Z -> JavaRest.Value -> World -> Outcome unit * World.
Variable Statement_executeQuery : Statement -> World -> Outcome (list Row) * World.
Variable Statement_executeUpdate : Statement -> World -> Outcome Z * World.
Variable Statement_close : Statement -> World -> Outcome unit * World.
Variable HashMap_entries : gmap string Statement -> list (string * Statement).
Variable ResultSet_getInt : Row -> string -> Outcome Z.
Variable ResultSet_getString : Row -> string -> Outcome (option string).
Variable ResultSet_getBoolean : Row -> string -> Outcome bool.
Variable LocalDateTime_now : World -> Z.

Local Abbreviation Program := (@JavaRest.Program World Connection Statement).
Local Abbreviation executeQuery :=
  (JavaRest.executeQuery Connection_isClosed Connection_isValid Connection_prepareStatement
     Statement_setObject Statement_executeQuery Statement_close HashMap_entries).
Local Abbreviation executeUpdate :=
  (JavaRest.executeUpdate Connection_isClosed Connection_isValid Connection_prepareStatement
     Statement_setObject Statement_executeUpdate Statement_close HashMap_entries).
Local Abbreviation mapToUser :=
  (JavaRest.mapToUser (Connection:=Connection) (Statement:=Statement)
     ResultSet_getInt ResultSet_getString ResultSet_getBoolean LocalDateTime_now).
Local Abbreviation findById :=
  (JavaRest.findById Connection_isClosed Connection_isValid Connection_prepareStatement
     Statement_setObject Statement_executeQuery Statement_close HashMap_entries
     ResultSet_getInt ResultSet_getString ResultSet_getBoolean LocalDateTime_now).
Local Abbreviation findByEmail :=
  (JavaRest.findByEmail Connection_isClosed Connection_isValid Connection_prepareStatement
     Statement_setObject Statement_executeQuery Statement_close HashMap_entries
     ResultSet_getInt ResultSet_getString ResultSet_getBoolean LocalDateTime_now).
Local Abbreviation createUser :=
  (JavaRest.createUser Connection_isClosed Connection_isValid Connection_prepareStatement
     Statement_setObject Statement_executeQuery Statement_executeUpdate Statement_close
     HashMap_entries ResultSet_getInt ResultSet_getString ResultSet_getBoolean
     LocalDateTime_now).
Local Abbreviation updateUser :=
  (JavaRest.updateUser Connection_isClosed Connection_isValid Connection_prepareStatement
     Statement_setObject Statement_executeQuery Statement_executeUpdate Statement_close
     HashMap_entries ResultSet_getInt ResultSet_getString ResultSet_getBoolean
     LocalDateTime_now).
Local Abbreviation deleteUser :=
  (JavaRest.deleteUser Connection_isClosed Connection_isValid Connection_prepareStatement
     Statement_setObject Statement_executeQuery Statement_executeUpdate Statement_close
     HashMap_entries ResultSet_getInt ResultSet_getString ResultSet_getBoolean
     LocalDateTime_now).
Local Abbreviation listUsers :=
  (JavaRest.listUsers Connection_isClosed Connection_isValid Connection_prepareStatement
     Statement_setObject Statement_executeQuery Statement_close HashMap_entries
     ResultSet_getInt ResultSet_getString ResultSet_getBoolean LocalDateTime_now).
Local Abbreviation map_rows :=
  (JavaRest.map_rows (Connection:=Connection) (Statement:=Statement)
     ResultSet_getInt ResultSet_getString ResultSet_getBoolean LocalDateTime_now).
Implicit Types (p : Program) (user : option nat) (id : Z).

#[local] Instance same_service_refl : Reflexive (@same_service World Connection Statement).
Proof. by intros p. Qed.

#[local] Instance same_service_trans : Transitive (@same_service World Connection Statement).
Proof. unfold same_service. intros p1 p2 p3 (? & ? & ?) (? & ? & ?). split_and!; congruence. Qed.

Lemma deref_state user p : (JavaRest.deref user p).2 = p.
Proof.
  unfold JavaRest.deref, bind, get_state.
  by destruct (user ≫= _).
Qed.

Lemma deref_keeps R `{!Reflexive R} user : keeps R (JavaRest.deref user : M Program _).
Proof. intros p. by rewrite deref_state. Qed.

Lemma mapToUser_same_service row : keeps same_service (mapToUser row).
Proof.
  unfold JavaRest.mapToUser.
  apply keeps_bind; [apply _ | apply keeps_pure; apply _ |]. intros id.
  apply keeps_bind; [apply _ | apply keeps_pure; apply _ |]. intros username.
  apply keeps_bind; [apply _ | apply keeps_pure; apply _ |]. intros email.
  apply keeps_bind; [apply _ | |].
  { unfold JavaRest.new_User.
    apply keeps_bind; [apply _ | apply keeps_get_state; apply _ |]. intros p.
    apply keeps_bind; [apply _ | by apply keeps_modify | intros _; apply keeps_ret; apply _]. }
  intros user.
  apply keeps_bind; [apply _ | apply keeps_pure; apply _ |]. intros active.
  apply keeps_bind; [apply _ | | intros _; apply keeps_ret; apply _].
  unfold JavaRest.setActive, JavaRest.update_User.
  apply keeps_bind; [apply _ | apply deref_keeps; apply _ |]. intros u.
  by apply keeps_modify.
Qed.

Lemma same_service_executed p p' : same_service p p' -> same_executed p p'.
Proof. intros (Hdb & _). unfold same_executed, executed. by rewrite Hdb. Qed.

Lemma keeps_weaken {S A} (R R' : S -> S -> Prop) (m : M S A) :
  (forall s s', R s s' -> R' s s') -> keeps R m -> keeps R' m.
Proof. intros H Hm s. apply H, Hm. Qed.

Lemma mapToUser_same_executed row : keeps same_executed (mapToUser row).
Proof. eapply keeps_weaken; [apply same_service_executed | apply mapToUser_same_service]. Qed.

Lemma on_db_same_executed {A}
    (m : M (@Java.DatabaseManager World Connection Statement JavaRest.Value) A) :
  keeps no_update m -> keeps same_executed (JavaRest.on_db m).
Proof.
  intros H p. unfold JavaRest.on_db. specialize (H (JavaRest.db p)).
  by destruct (m (JavaRest.db p)).
Qed.

Lemma executeQuery_same_executed sql params : keeps same_executed (executeQuery sql params).
Proof. apply on_db_same_executed, executeQuery_no_update. Qed.

Lemma findById_same_executed id : keeps same_executed (findById id).
Proof.
  unfold JavaRest.findById.
  apply keeps_bind; [apply _ | apply keeps_get_state; apply _ |]. intros p.
  destruct (JavaRest.userCache p !! id); [apply keeps_ret; apply _ |].
  apply keeps_bind; [apply _ | apply executeQuery_same_executed |]. intros [|row rs].
  - apply keeps_ret; apply _.
  - apply keeps_bind; [apply _ | apply mapToUser_same_executed |]. intros user.
    apply keeps_bind; [apply _ | by apply keeps_modify | intros _; apply keeps_ret; apply _].
Qed.

Lemma findByEmail_same_executed email : keeps same_executed (findByEmail email).
Proof.
  unfold JavaRest.findByEmail. destruct email as [address|]; [| apply keeps_throw; apply _].
  destruct (String.eqb _ _); [apply keeps_throw; apply _ |].
  destruct (negb _); [apply keeps_ret; apply _ |].
  apply keeps_bind; [apply _ | apply executeQuery_same_executed |]. intros [|row rs].
  - apply keeps_ret; apply _.
  - apply keeps_bind; [apply _ | apply mapToUser_same_executed |]. intros user.
    apply keeps_ret; apply _.
Qed.

Lemma executeUpdate_executed sql params p o p' :
  executeUpdate sql params p = (o, p') ->
  (returned o = true -> executed p' = Datatypes.S (executed p))
  /\ (executed p <= executed p' <= Datatypes.S (executed p))%nat
  /\ JavaRest.userCache p' = JavaRest.userCache p /\ JavaRest.heap p' = JavaRest.heap p.
Proof.
  unfold JavaRest.executeUpdate, JavaRest.on_db, executed.
  destruct (Java.executeUpdate _ _ _ _ _ _ _ sql params (JavaRest.db p)) as [o1 d1] eqn:E.
  intros [= <- <-]. apply executeUpdate_updates in E as [H1 H2]. done.
Qed.

Lemma createUser_rejects user p u :
  JavaRest.deref user p = (Return u, p) ->
  JavaRest.null_or_blank (JavaRest.username u) = true
  \/ (forall address, JavaRest.email u = Some address ->
                      JavaRest.isValidEmail address = false) ->
  exists message, createUser user p = (Throw (IllegalArgumentException message), p).
Proof.
  intros Hd Hbad. unfold JavaRest.createUser, bind at 1. rewrite Hd.
  destruct (JavaRest.null_or_blank (JavaRest.username u)) eqn:Hb; [by eexists |].
  destruct Hbad as [|Hbad]; [done |].
  destruct (JavaRest.email u) as [address|]; [| by eexists].
  rewrite (Hbad address eq_refl). by eexists.
Qed.

Lemma createUser_cases user p o p' :
  createUser user p = (o, p') ->
  (returned o = false /\ executed p' = executed p)
  \/ exists u address p1,
       JavaRest.deref user p = (Return u, p)
       /\ JavaRest.null_or_blank (JavaRest.username u) = false
       /\ JavaRest.email u = Some address
       /\ JavaRest.isValidEmail address = true
       /\ findByEmail (Some address) p = (Return None, p1)
       /\ (executed p <= executed p' <= Datatypes.S (executed p))%nat
       /\ (returned o = true ->
           executed p' = Datatypes.S (executed p) /\ JavaRest.userCache p' = ∅).
Proof.
  unfold JavaRest.createUser, bind at 1.
  pose proof (deref_state user p) as Hs.
  destruct (JavaRest.deref user p) as [[u|e] p0] eqn:Hd; simpl in Hs; subst p0;
    [| intros [= <- <-]; by left].
  destruct (JavaRest.null_or_blank (JavaRest.username u)) eqn:Hb;
    [intros [= <- <-]; by left |].
  destruct (JavaRest.email u) as [address|] eqn:He; [| intros [= <- <-]; by left].
  destruct (JavaRest.isValidEmail address) eqn:Hv; cbn [negb];
    [| intros [= <- <-]; by left].
  unfold bind at 1.
  pose proof (findByEmail_same_executed (Some address) p) as Hq. unfold same_executed in Hq.
  destruct (findByEmail (Some address) p) as [[existing|e] p1] eqn:Hf; simpl in Hq |- *;
    [| intros [= <- <-]; by left].
  destruct existing as [existing|]; [unfold throw; intros [= <- <-]; by left |].
  unfold bind at 1.
  pose proof (deref_state user p1) as Hs.
  destruct (JavaRest.deref user p1) as [[u1|e] p0]; simpl in Hs; subst p0;
    [| intros [= <- <-]; by left].
  unfold bind at 1.
  destruct (executeUpdate _ _ p1) as [o2 p2] eqn:Hu.
  apply executeUpdate_executed in Hu as (Hret & Hle & _).
  intros Hrun. right. exists u, address, p1.
  do 5 (split; [done |]).
  destruct o2 as [n|e].
  - unfold bind, JavaRest.clearCache, modify, ret in Hrun. simplify_eq.
    change (executed (JavaRest.set_userCache ∅ p2)) with (executed p2).
    rewrite Hret by done. split; [lia |]. intros _. split; [lia | done].
  - simplify_eq. split; [lia | done].
Qed.

(** X22.  The Java [createUser] executes at most one update.  When it
    returns it has executed one and emptied [userCache].  It executes one
    only for a user with a non-blank username and a well-formed address for
    which the lookup by address returned no user.  A blank or missing
    username, and a missing or malformed address, make it throw an
    [IllegalArgumentException] before anything is called. *)
Theorem Java_createUser_inserts_only_a_valid_new_user user p :
  let o := (createUser user p).1 in
  let p' := (createUser user p).2 in
  (executed p <= executed p' <= Datatypes.S (executed p))%nat
  /\ (returned o = true ->
      executed p' = Datatypes.S (executed p) /\ JavaRest.userCache p' = ∅)
  /\ (executed p' = Datatypes.S (executed p) ->
      exists u address p1,
        JavaRest.deref user p = (Return u, p)
        /\ JavaRest.null_or_blank (JavaRest.username u) = false
        /\ JavaRest.email u = Some address
        /\ JavaRest.isValidEmail address = true
        /\ findByEmail (Some address) p = (Return None, p1))
  /\ (forall u,
        JavaRest.deref user p = (Return u, p) ->
        JavaRest.null_or_blank (JavaRest.username u) = true
        \/ (forall address, JavaRest.email u = Some address ->
                            JavaRest.isValidEmail address = false) ->
        exists message, createUser user p = (Throw (IllegalArgumentException message), p)).
Proof.
  intros o p'. subst o p'.
  destruct (createUser user p) as [o p'] eqn:Hrun. simpl.
  split; [| split; [| split]].
  - apply createUser_cases in Hrun as [[_ ->]|(u & a & p1 & _ & _ & _ & _ & _ & Hle & _)];
      [lia | done].
  - intros Hr. apply createUser_cases in Hrun
      as [[Hr' _]|(u & a & p1 & _ & _ & _ & _ & _ & _ & H)]; [congruence | by apply H].
  - intros Hex. apply createUser_cases in Hrun
      as [[_ ?]|(u & a & p1 & ? & ? & ? & ? & ? & _)]; [lia | by exists u, a, p1].
  - intros u Hd Hbad. rewrite <- Hrun. by apply (createUser_rejects user p u).
Qed.

Lemma findById_hit id p (ref : nat) :
  JavaRest.userCache p !! id = Some ref -> findById id p = (Return (Some ref), p).
Proof. intros H. unfold JavaRest.findById, bind, get_state. by rewrite H. Qed.

(** X23.  The Java [deleteUser] executes at most one update, and one only
    when [findById] found the user.  When [findById] returns [null] it
    throws the [SQLException] [User with id <id> not found]; when it
    returns, it has executed the [DELETE] and emptied [userCache].  For an
    id that is in [userCache] the existence check runs no statement: the
    call is the [DELETE] alone. *)
Theorem Java_deleteUser_deletes_only_a_user_it_found id p :
  let o := (deleteUser id p).1 in
  let p' := (deleteUser id p).2 in
  (executed p <= executed p' <= Datatypes.S (executed p))%nat
  /\ (forall p1, findById id p = (Return None, p1) ->
        deleteUser id p = (Throw (JavaRest.not_found id), p1) /\ executed p1 = executed p)
  /\ (executed p' = Datatypes.S (executed p) ->
      exists (ref : nat) p1, findById id p = (Return (Some ref), p1))
  /\ (returned o = true ->
      executed p' = Datatypes.S (executed p) /\ JavaRest.userCache p' = ∅)
  /\ (forall ref : nat, JavaRest.userCache p !! id = Some ref ->
        deleteUser id p
        = (rowsAffected <- executeUpdate "DELETE FROM users WHERE id = ?" [JavaRest.VInt id] ;;
           JavaRest.clearCache ;;;
           ret (rowsAffected >? 0)%Z) p).
Proof.
  intros o p'. subst o p'.
  assert (forall p1, findById id p = (Return None, p1) ->
            deleteUser id p = (Throw (JavaRest.not_found id), p1) /\ executed p1 = executed p)
    as Habsent.
  { intros p1 Hf. pose proof (findById_same_executed id p) as Hq.
    unfold JavaRest.deleteUser, bind. rewrite Hf in Hq |- *. done. }
  assert (forall ref : nat, JavaRest.userCache p !! id = Some ref ->
            deleteUser id p
            = (rowsAffected <- executeUpdate "DELETE FROM users WHERE id = ?"
                                 [JavaRest.VInt id] ;;
               JavaRest.clearCache ;;;
               ret (rowsAffected >? 0)%Z) p) as Hcached.
  { intros ref Hc. unfold JavaRest.deleteUser, bind at 1. by rewrite (findById_hit _ _ _ Hc). }
  destruct (deleteUser id p) as [o p'] eqn:Hrun. simpl.
  unfold JavaRest.deleteUser, bind at 1 in Hrun.
  pose proof (findById_same_executed id p) as Hq. unfold same_executed in Hq.
  destruct (findById id p) as [[[ref|]|e] p1] eqn:Hf; simpl in Hq.
  - unfold bind at 1 in Hrun.
    destruct (executeUpdate _ _ p1) as [o2 p2] eqn:Hu.
    apply executeUpdate_executed in Hu as (Hret & Hle & _).
    assert ((executed p <= executed p' <= Datatypes.S (executed p))%nat
            /\ (returned o = true ->
                executed p' = Datatypes.S (executed p) /\ JavaRest.userCache p' = ∅))
      as [H1 H2].
    { destruct o2 as [n|e].
      - unfold bind, JavaRest.clearCache, modify, ret in Hrun. simplify_eq.
        change (executed (JavaRest.set_userCache ∅ p2)) with (executed p2).
        rewrite Hret by done. split; [lia |]. intros _. split; [lia | done].
      - simplify_eq. split; [lia | done]. }
    split; [done |]. split; [done |]. split; [by exists ref, p1 |]. done.
  - unfold throw in Hrun. simplify_eq.
    split; [lia |]. split; [done |]. split; [lia |]. done.
  - simplify_eq. split; [lia |]. split; [done |]. split; [lia |]. done.
Qed.

(** X24.  The Java [updateUser] checks the address of [user] only when it
    differs from the address of the cached user.  Given the very object
    that [userCache] holds for its id, the two addresses are one: the call
    is the [UPDATE] alone, whatever the address.  Given another object
    with the same id and a different, malformed address, it throws an
    [IllegalArgumentException] and calls nothing. *)
Theorem Java_updateUser_validates_only_against_another_object (ref : nat) u p :
  JavaRest.heap p !! ref = Some u ->
  JavaRest.userCache p !! JavaRest.id u = Some ref ->
  (forall address, JavaRest.email u = Some address ->
     updateUser (Some ref) p
     = (rowsAffected <-
          executeUpdate "UPDATE users SET username = ?, email = ?, is_active = ? WHERE id = ?"
            [JavaRest.VString_of (JavaRest.username u); JavaRest.VString address;
             JavaRest.VBoolean (JavaRest.isActive u); JavaRest.VInt (JavaRest.id u)] ;;
        JavaRest.clearCache ;;;
        ret (rowsAffected >? 0)%Z) p)
  /\ (forall (other : nat) v address,
        JavaRest.heap p !! other = Some v ->
        JavaRest.id v = JavaRest.id u ->
        JavaRest.email v = Some address ->
        JavaRest.String_equals address (JavaRest.email u) = false ->
        JavaRest.isValidEmail address = false ->
        updateUser (Some other) p
        = (Throw (IllegalArgumentException "Invalid email address"), p)).
Proof.
  intros Hu Hc. split.
  - intros address He. unfold JavaRest.updateUser, bind at 1, JavaRest.deref at 1.
    unfold bind at 1, get_state at 1. simpl. rewrite Hu. unfold ret at 1.
    unfold bind at 1. rewrite (findById_hit _ _ _ Hc).
    unfold bind at 1, JavaRest.deref at 1. unfold bind at 1, get_state at 1. simpl.
    rewrite Hu. unfold ret at 1.
    unfold bind at 1, JavaRest.deref at 1. unfold bind at 1, get_state at 1. simpl.
    rewrite Hu. unfold ret at 1. rewrite He. unfold JavaRest.String_equals.
    rewrite String.eqb_refl. simpl. done.
  - intros other v address Hv Hid He Hne Hinv.
    unfold JavaRest.updateUser, bind at 1, JavaRest.deref at 1.
    unfold bind at 1, get_state at 1. simpl. rewrite Hv. unfold ret at 1.
    unfold bind at 1. rewrite Hid, (findById_hit _ _ _ Hc).
    unfold bind at 1, JavaRest.deref at 1. unfold bind at 1, get_state at 1. simpl.
    rewrite Hv. unfold ret at 1.
    unfold bind at 1, JavaRest.deref at 1. unfold bind at 1, get_state at 1. simpl.
    rewrite Hu. unfold ret at 1. rewrite He, Hne, Hinv. done.
Qed.

(** [mapToUser] allocates one object, at the end of the heap. *)
Lemma mapToUser_allocates row p (ref : nat) p' :
  mapToUser row p = (Return ref, p') ->
  ref = length (JavaRest.heap p)
  /\ (exists u, JavaRest.heap p' = (JavaRest.heap p ++ [u])%list)
  /\ same_service p p'.
Proof.
  intros H. pose proof (mapToUser_same_service row p) as Hs. rewrite H in Hs. simpl in Hs.
  split; [| split; [| done]]; revert H; unfold JavaRest.mapToUser, bind;
    destruct (ResultSet_getInt row "id") as [n|]; [| done | | done];
    destruct (ResultSet_getString row "username") as [username|]; [| done | | done];
    destruct (ResultSet_getString row "email") as [email|]; [| done | | done];
    unfold JavaRest.new_User, bind, get_state, modify, ret; simpl;
    destruct (ResultSet_getBoolean row "is_active") as [active|]; [| done | | done];
    unfold JavaRest.setActive, JavaRest.update_User, JavaRest.deref, bind, get_state; simpl;
    rewrite lookup_app_r, Nat.sub_diag by done; simpl; unfold modify;
    intros [= <- <-]; [done |].
  simpl. eexists. rewrite insert_app_r_alt, Nat.sub_diag by done. done.
Qed.

(** X25.  The user the Java [findById] returns is in [userCache]
    afterwards, and is returned again, without any call, from every state
    that has it there.  It is the cached object itself: after
    [setEmail] on it, [findById] returns the object with the new address.
    A user that is not found is not remembered: the cache is as before. *)
Theorem Java_findById_hands_out_the_cached_object id p :
  (forall (ref : nat) p1,
     findById id p = (Return (Some ref), p1) ->
     JavaRest.userCache p1 !! id = Some ref
     /\ (forall p2, JavaRest.userCache p2 !! id = Some ref ->
                    findById id p2 = (Return (Some ref), p2))
     /\ (forall u address,
           JavaRest.heap p1 !! ref = Some u ->
           let changed := {| JavaRest.id := JavaRest.id u;
                             JavaRest.username := JavaRest.username u;
                             JavaRest.email := address;
                             JavaRest.createdAt := JavaRest.createdAt u;
                             JavaRest.isActive := JavaRest.isActive u |} in
           (JavaRest.setEmail (Some ref) address ;;;
            found <- findById id ;;
            JavaRest.deref found) p1
           = (Return changed,
              JavaRest.set_heap (<[ref := changed]> (JavaRest.heap p1)) p1)))
  /\ (forall p1,
        findById id p = (Return None, p1) ->
        JavaRest.userCache p !! id = None
        /\ JavaRest.userCache p1 = JavaRest.userCache p).
Proof.
  split.
  - intros ref p1 Hf.
    assert (JavaRest.userCache p1 !! id = Some ref) as Hc.
    { revert Hf. unfold JavaRest.findById, bind at 1, get_state at 1.
      destruct (JavaRest.userCache p !! id) as [cached|] eqn:Hl.
      - unfold ret. by intros [= <- <-].
      - unfold bind at 1. destruct (executeQuery _ _ p) as [[[|row rs]|e] p0]; [done | | done].
        unfold bind at 1. destruct (mapToUser row p0) as [[r|e] p2]; [| done].
        unfold bind, modify, ret. intros [= <- <-]. simpl. apply lookup_insert_eq. }
    split; [done |]. split; [intros p2 H2; by apply findById_hit |].
    intros u address Hu changed.
    unfold JavaRest.setEmail, JavaRest.update_User, bind at 1 2, JavaRest.deref at 1.
    unfold bind at 1, get_state at 1. simpl. rewrite Hu. unfold ret at 1, modify.
    unfold bind at 1. rewrite (findById_hit id _ ref) by exact Hc.
    unfold JavaRest.deref, bind, get_state. simpl.
    rewrite list_lookup_insert_eq by (by eapply lookup_lt_Some). done.
  - intros p1. unfold JavaRest.findById, bind at 1, get_state at 1.
    destruct (JavaRest.userCache p !! id) as [cached|] eqn:Hl; [done |].
    unfold bind at 1.
    pose proof (executeQuery_same_executed "SELECT * FROM users WHERE id = ?"
                  [JavaRest.VInt id] p) as _.
    unfold JavaRest.executeQuery at 1, JavaRest.on_db.
    destruct (Java.executeQuery _ _ _ _ _ _ _ _ _ (JavaRest.db p)) as [[[|row rs]|e] d0];
      [| | done].
    + unfold ret. by intros [= <-].
    + unfold bind at 1. destruct (mapToUser row _) as [[r|e] p2]; done.
Qed.

Lemma map_rows_allocates rs : forall (users : list nat) p out p',
  map_rows rs users p = (Return out, p') ->
  out = (users ++ seq (length (JavaRest.heap p)) (length rs))%list
  /\ length (JavaRest.heap p') = (length (JavaRest.heap p) + length rs)%nat
  /\ same_service p p'.
Proof.
  induction rs as [|row rs IH]; intros users p out p'; simpl.
  - unfold ret. intros [= <- <-]. by rewrite app_nil_r, Nat.add_0_r.
  - unfold bind at 1. destruct (mapToUser row p) as [[ref|e] p1] eqn:Hm; [| done].
    apply mapToUser_allocates in Hm as (-> & [u Hh] & Hs1).
    intros Hrun. apply IH in Hrun as (-> & Hlen & Hs2).
    rewrite Hh, length_app in Hlen |- *. simpl in *.
    split; [| split; [lia | by etrans]].
    rewrite <- (assoc_L (++)). simpl. do 3 f_equal. lia.
Qed.

(** X26.  The Java [listUsers] throws an [IllegalArgumentException], and
    calls nothing, for a limit outside [1..1000] and, the limit being
    right, for a negative offset.  When it returns, the arguments were in
    range, the [SELECT] with limit and offset returned some rows, and the
    result is one newly allocated object per row, in the order of the
    rows; [userCache] is as before and no update was executed. *)
Theorem Java_listUsers_checks_its_bounds_and_returns_new_objects limit offset p :
  (limit <= 0 \/ 1000 < limit ->
   listUsers limit offset p
   = (Throw (IllegalArgumentException "Limit must be between 1 and 1000"), p))
  /\ (0 < limit <= 1000 -> offset < 0 ->
      listUsers limit offset p
      = (Throw (IllegalArgumentException "Offset must be non-negative"), p))
  /\ (forall users p',
        listUsers limit offset p = (Return users, p') ->
        0 < limit <= 1000 /\ 0 <= offset
        /\ exists rs p1,
             executeQuery "SELECT * FROM users LIMIT ? OFFSET ?"
               [JavaRest.VInt limit; JavaRest.VInt offset] p = (Return rs, p1)
             /\ users = seq (length (JavaRest.heap p)) (length rs)
             /\ length (JavaRest.heap p') = (length (JavaRest.heap p) + length rs)%nat
             /\ JavaRest.userCache p' = JavaRest.userCache p
             /\ executed p' = executed p).
Proof.
  unfold JavaRest.listUsers. split; [| split].
  - intros H. destruct (Z.leb_spec limit 0), (Z.gtb_spec limit 1000); simpl; try done; lia.
  - intros H1 H2. destruct (Z.leb_spec limit 0), (Z.gtb_spec limit 1000); simpl; try lia.
    destruct (Z.ltb_spec offset 0); [done | lia].
  - intros users p'.
    destruct (Z.leb_spec limit 0), (Z.gtb_spec limit 1000); simpl; try done.
    destruct (Z.ltb_spec offset 0); [done |].
    unfold bind at 1. intros Hrun. split; [lia |]. split; [done |].
    pose proof (executeQuery_same_executed "SELECT * FROM users LIMIT ? OFFSET ?"
                  [JavaRest.VInt limit; JavaRest.VInt offset] p) as Hq.
    assert (JavaRest.heap (executeQuery "SELECT * FROM users LIMIT ? OFFSET ?"
                             [JavaRest.VInt limit; JavaRest.VInt offset] p).2
            = JavaRest.heap p
            /\ JavaRest.userCache (executeQuery "SELECT * FROM users LIMIT ? OFFSET ?"
                             [JavaRest.VInt limit; JavaRest.VInt offset] p).2
               = JavaRest.userCache p) as [Hh Hc].
    { unfold JavaRest.executeQuery, JavaRest.on_db.
      by destruct (Java.executeQuery _ _ _ _ _ _ _ _ _ (JavaRest.db p)). }
    destruct (executeQuery _ _ p) as [[rs|e] p1]; [| done]. simpl in *.
    apply map_rows_allocates in Hrun as (-> & Hlen & (Hdb & Hcache & _)).
    exists rs, p1. rewrite Hh in *. split_and!; try done.
    + congruence.
    + unfold same_executed, executed in *. by rewrite Hdb.
Qed.

(** X30.  The Java [findByEmail] neither reads nor fills [userCache], and
    executes no update.  A missing or blank address makes it throw an
    [IllegalArgumentException], a malformed one makes it return [null],
    both without any call.  The user it returns is a newly allocated
    object, never the one [userCache] holds. *)
Theorem Java_findByEmail_bypasses_the_cache (email : option string) p :
  JavaRest.userCache (findByEmail email p).2 = JavaRest.userCache p
  /\ executed (findByEmail email p).2 = executed p
  /\ (JavaRest.null_or_blank email = true ->
      findByEmail email p
      = (Throw (IllegalArgumentException "Email cannot be null or empty"), p))
  /\ (forall address,
        email = Some address -> JavaRest.null_or_blank email = false ->
        JavaRest.isValidEmail address = false ->
        findByEmail email p = (Return None, p))
  /\ (forall ref : nat,
        (findByEmail email p).1 = Return (Some ref) ->
        ref = length (JavaRest.heap p)
        /\ length (JavaRest.heap (findByEmail email p).2)
           = Datatypes.S (length (JavaRest.heap p))).
Proof.
  split; [| split; [apply findByEmail_same_executed | split; [| split]]].
  - unfold JavaRest.findByEmail. destruct email as [address|]; [| done].
    destruct (String.eqb _ _); [done |]. destruct (negb _); [done |].
    unfold bind, JavaRest.executeQuery, JavaRest.on_db.
    destruct (Java.executeQuery _ _ _ _ _ _ _ _ _ (JavaRest.db p)) as [[[|row rs]|e] d0];
      try done.
    match goal with |- context [mapToUser row ?q] =>
      pose proof (mapToUser_same_service row q) as (_ & Hc & _);
      destruct (mapToUser row q) as [[ref|e] p2]
    end; simpl in *; by rewrite Hc.
  - unfold JavaRest.findByEmail, JavaRest.null_or_blank.
    destruct email as [address|]; [| done]. by intros ->.
  - intros address -> Hblank Hinvalid. unfold JavaRest.findByEmail.
    unfold JavaRest.null_or_blank in Hblank. by rewrite Hblank, Hinvalid.
  - intros ref. unfold JavaRest.findByEmail. destruct email as [address|]; [| done].
    destruct (String.eqb _ _); [done |]. destruct (negb _); [done |].
    unfold bind, JavaRest.executeQuery, JavaRest.on_db.
    destruct (Java.executeQuery _ _ _ _ _ _ _ _ _ (JavaRest.db p)) as [[[|row rs]|e] d0];
      try done.
    match goal with |- context [mapToUser row ?q] =>
      destruct (mapToUser row q) as [[r|e] p2] eqn:Hm
    end; [| done].
    apply mapToUser_allocates in Hm as (-> & [u Hh] & _). simpl.
    intros [= <-]. rewrite Hh, length_app. simpl. split; [done | lia].
Qed.
End JavaServiceFacts.

Section JavaDisconnectFacts.
Context {World Connection Statement : Type}.
Variable Connection_isClosed : Connection -> World -> Outcome bool.
Variable Connection_close : Connection -> World -> Outcome unit * World.
Variable Statement_isClosed : Statement -> World -> Outcome bool.
Variable Statement_close : Statement -> World -> Outcome unit * World.
Variable HashMap_entries : gmap string Statement -> list (string * Statement).

Local Abbreviation Program := (@JavaRest.Program World Connection Statement).
Local Abbreviation close_statements :=
  (JavaRest.close_statements (Connection:=Connection) Statement_isClosed Statement_close).
Local Abbreviation disconnect :=
  (JavaRest.disconnect Connection_isClosed Connection_close Statement_isClosed
     Statement_close HashMap_entries).
Implicit Types (p : Program) (c : Connection).



(** X28.  When the first cached statement fails to close with an
    [SQLException], the Java [disconnect] returns normally having done
    nothing else: the other statements are not closed, the cache is not
    emptied and [close] is not called on the connection. *)
Theorem Java_disconnect_gives_up_when_a_statement_fails_to_close p c stmt rest message w' :
  Java.connection (JavaRest.db p) = Some c ->
  Connection_isClosed c (Java.world (JavaRest.db p)) = Return false ->
  (HashMap_entries (Java.statementCache (JavaRest.db p))).*2 = stmt :: rest ->
  Statement_isClosed stmt (Java.world (JavaRest.db p)) = Return false ->
  Statement_close stmt (Java.world (JavaRest.db p)) = (Throw (SQLException message), w') ->
  exists p',
    disconnect p = (Return tt, p')
    /\ Java.statementCache (JavaRest.db p') = Java.statementCache (JavaRest.db p)
    /\ Java.connection (JavaRest.db p') = Some c
    /\ Java.calls (JavaRest.db p')
       = (Java.calls (JavaRest.db p) ++ [Java.CCloseStatement stmt])%list
    /\ JavaRest.log p' = JavaRest.log p
    /\ Java.world (JavaRest.db p') = w'.
Proof.
  intros Hc Hopen Hfirst Hsopen Hfails.
  unfold JavaRest.disconnect, JavaRest.catch_SQLException, try_catch, bind at 1,
    get_state at 1.
  rewrite Hc. unfold bind at 1, JavaRest.on_db at 1, Java.probe. rewrite Hopen. simpl.
  unfold bind at 1. rewrite Hfirst. simpl.
  unfold bind at 1, JavaRest.on_db at 1, Java.probe. destruct p as [d l h u]. simpl in *.
  rewrite Hsopen. simpl.
  unfold bind at 1, JavaRest.on_db, Java.call. simpl. rewrite Hfails. simpl.
  unfold ret. eexists. split; [done |]. simpl. done.
Qed.
End JavaDisconnectFacts.

(** ** Runs of the properties of the Java program and of the rest *)

(** X16: user 1 is deleted twice; the second call reports the deletion of
    the first and leaves the program as it is. *)
Lemma deleteUser_again_reports_the_first_deletion_witness :
  let p1 := (JS.deleteUser Store.executeQuery 1 Store.connected).2 in
  Store.users (JS.world p1) !! 1%Z = None
  /\ JS.deleteUser Store.executeQuery 1 p1 = (Return (Store.affected 1), p1).
Proof.
  cbv zeta. split; [by_evaluation |].
  apply (deleteUser_again_reports_the_first_deletion Store.executeQuery 1 Store.connected).
  - by_evaluation.
  - by_evaluation.
  - apply run_eq. by_evaluation.
Defined.

(** X18: a statement that is not cached is executed on a manager whose
    cache holds a hundred statements. *)
Lemma Java_statementCache_stays_within_maxCacheSize_witness :
  let d := DriverRest.full_manager in
  let d1 := (Java.executeQuery Driver.open_isClosed Driver.open_isValid
               Driver.prepareStatement Driver.setObject Driver.stmt_executeQuery
               Driver.stmt_close Driver.entries "SELECT 0" [] d).2 in
  let d2 := (Java.executeUpdate Driver.open_isClosed Driver.open_isValid
               Driver.prepareStatement Driver.setObject Driver.stmt_executeUpdate
               Driver.stmt_close Driver.entries "SELECT 0" [] d).2 in
  size (Java.statementCache d) = 100%nat
  /\ (Z.of_nat (size (Java.statementCache d1)) <= Java.maxCacheSize d1
      /\ Java.maxCacheSize d1 = Java.maxCacheSize d)
  /\ (Z.of_nat (size (Java.statementCache d2)) <= Java.maxCacheSize d2
      /\ Java.maxCacheSize d2 = Java.maxCacheSize d).
Proof.
  cbv zeta. split; [by vm_compute |].
  apply (Java_statementCache_stays_within_maxCacheSize
           Driver.open_isClosed Driver.open_isValid Driver.prepareStatement Driver.setObject
           Driver.stmt_executeQuery Driver.stmt_executeUpdate Driver.stmt_close Driver.entries
           "SELECT 0" [] DriverRest.full_manager).
  - reflexivity.
  - by vm_compute.
  - apply Z.leb_le. by vm_compute.
Defined.

(** X19: the same statement with another parameter: it is bound and
    executed, not prepared again. *)
Lemma Java_cached_statement_is_not_prepared_again_witness :
  let sql := "SELECT * FROM users WHERE id = ?" in
  let run := Java.executeQuery Driver.open_isClosed Driver.open_isValid
               Driver.prepareStatement Driver.setObject Driver.stmt_executeQuery
               Driver.stmt_close Driver.entries in
  let d1 := (run sql [JNum 1] Driver.open_manager).2 in
  Java.calls d1
  = [Java.CPrepareStatement sql; Java.CSetObject sql 1 (JNum 1); Java.CExecuteQuery sql]
  /\ Java.statementCache (run sql [JNum 2] d1).2 = Java.statementCache d1
  /\ Java.calls (run sql [JNum 2] d1).2
     = (Java.calls d1 ++ [Java.CSetObject sql 1 (JNum 2); Java.CExecuteQuery sql])%list.
Proof.
  cbv zeta. split; [reflexivity |].
  destruct (Java_cached_statement_is_not_prepared_again
              Driver.open_isClosed Driver.open_isValid Driver.prepareStatement
              Driver.setObject Driver.stmt_executeQuery Driver.stmt_executeUpdate
              Driver.stmt_close Driver.entries
              "SELECT * FROM users WHERE id = ?" [JNum 1] [JNum 2] Driver.open_manager []
              (Java.executeQuery Driver.open_isClosed Driver.open_isValid
                 Driver.prepareStatement Driver.setObject Driver.stmt_executeQuery
                 Driver.stmt_close Driver.entries "SELECT * FROM users WHERE id = ?" [JNum 1]
                 Driver.open_manager).2 eq_refl eq_refl) as (stmt & Hstmt & Hq & _).
  destruct (Hq _ _ (surjective_pairing _)) as (Hcache & _).
  split; [exact Hcache | reflexivity].
Defined.

(** X20: a quarter of a hundred statements is evicted, each one closed. *)
Lemma clearOldestStatements_closes_what_it_evicts_witness :
  let d := DriverRest.full_manager in
  let d' := (Java.clearOldestStatements Driver.stmt_close Driver.entries d).2 in
  size (Java.statementCache d) = 100%nat
  /\ size (Java.statementCache d') = 75%nat
  /\ Java.calls d'
     = Java.CCloseStatement <$> (take 25 (Driver.entries (Java.statementCache d))).*2.
Proof.
  cbv zeta. split; [by vm_compute |]. split; [by vm_compute |].
  destruct (clearOldestStatements_closes_what_it_evicts (Object:=JSValue) (Connection:=unit)
              Driver.stmt_close Driver.entries DriverRest.full_manager)
    as (_ & _ & Hcalls & _); [done |].
  exact Hcalls.
Defined.

(** X21: the driver hands out connections that cannot leave auto-commit
    mode; [connect] returns after three attempts, the manager holding one. *)
Lemma Java_connect_keeps_a_connection_whose_setAutoCommit_failed_witness :
  let d := Jdbc.fresh_manager Jdbc.initial in
  let r := Java.connect Jdbc.getConnection Jdbc.setAutoCommit_refused d in
  r.1 = Return tt
  /\ Java.connection r.2 = Some tt
  /\ Jdbc.autoCommit (Java.world r.2) = true
  /\ length (Java.calls r.2) = 8%nat.
Proof.
  cbv zeta.
  destruct (Java_connect_keeps_a_connection_whose_setAutoCommit_failed
              Jdbc.getConnection Jdbc.setAutoCommit_refused (Jdbc.fresh_manager Jdbc.initial))
    as (d' & [] & w & w' & Hrun & Hconn & _).
  - intros cs w. by eexists _, _.
  - intros c w. by eexists _, _.
  - done.
  - split; [by rewrite Hrun |]. split; [by rewrite Hrun |]. split; by vm_compute.
Defined.

(** X28: the one cached statement fails to close; the cache keeps it and
    the connection stays open. *)
Lemma Java_disconnect_gives_up_when_a_statement_fails_to_close_witness :
  let p := Jdbc.after_read Jdbc.initial_stuck in
  let r := Jdbc.disconnect p in
  r.1 = Return tt
  /\ Java.statementCache (JavaRest.db r.2) = Java.statementCache (JavaRest.db p)
  /\ size (Java.statementCache (JavaRest.db p)) = 1%nat
  /\ JavaRest.log r.2 = []
  /\ Jdbc.open (Java.world (JavaRest.db r.2)) = true.
Proof.
  cbv zeta.
  destruct (Java_disconnect_gives_up_when_a_statement_fails_to_close
              Jdbc.isClosed Jdbc.conn_close Jdbc.stmt_isClosed Jdbc.stmt_close Jdbc.entries
              (Jdbc.after_read Jdbc.initial_stuck) tt "SELECT * FROM users WHERE id = ?" []
              "the statement is in use"
              (Java.world (JavaRest.db (Jdbc.after_read Jdbc.initial_stuck))))
    as (p' & Hrun & Hcache & _ & _ & Hlog & Hworld).
  - by vm_compute.
  - by vm_compute.
  - by vm_compute.
  - by vm_compute.
  - by vm_compute.
  - unfold Jdbc.disconnect. rewrite Hrun. unfold fst, snd.
    split; [done |]. split; [exact Hcache |]. split; [by vm_compute |].
    split; [rewrite Hlog; by vm_compute |].
    rewrite Hworld. by vm_compute.
Defined.

(** X24: the caller writes a malformed address into the object [findById]
    gave it and passes the object to [updateUser]: the address reaches the
    table. *)
Lemma Java_updateUser_validates_only_against_another_object_witness :
  let r := Jdbc.updateUser (Some 0%nat) Jdbc.after_edit in
  JavaRest.isValidEmail "not an address" = false
  /\ r.1 = Return true
  /\ Jdbc.row_email <$> Jdbc.table (Java.world (JavaRest.db r.2))
     = [Some "not an address"].
Proof.
  cbv zeta. split; [reflexivity |].
  pose proof (proj1 (Java_updateUser_validates_only_against_another_object
                       Jdbc.isClosed Jdbc.isValid Jdbc.prepareStatement Jdbc.setObject
                       Jdbc.stmt_executeQuery Jdbc.stmt_executeUpdate Jdbc.stmt_close
                       Jdbc.entries Jdbc.getInt Jdbc.getString Jdbc.getBoolean Jdbc.now
                       0%nat
                       {| JavaRest.id := 1; JavaRest.username := Some "ann";
                          JavaRest.email := Some "not an address";
                          JavaRest.createdAt := 1000; JavaRest.isActive := true |}
                       Jdbc.after_edit eq_refl eq_refl)
                "not an address" eq_refl) as H.
  unfold Jdbc.updateUser. rewrite H. split; by vm_compute.
Defined.

(** The Java services on the driver: a user is found and another is not, a
    new user is created once and refused the second time, is listed, and
    is deleted once and missed the second time. *)
Example Java_services_run :
  let p := Jdbc.program Jdbc.initial in
  let '(found, p) := Jdbc.findById 1 p in
  let '(missing, p) := Jdbc.findById 2 p in
  let '(bob, p) := Jdbc.new_User 0 (Some "bob") (Some "bob@example.org") p in
  let '(created, p) := Jdbc.createUser (Some 1%nat) p in
  let '(again, p) := Jdbc.createUser (Some 1%nat) p in
  let '(listed, p) := Jdbc.listUsers 10 0 p in
  let '(deleted, p) := Jdbc.deleteUser 2 p in
  let '(gone, p) := Jdbc.deleteUser 2 p in
  found = Return (Some 0%nat) /\ missing = Return None /\ bob = Return 1%nat
  /\ created = Return 1%Z
  /\ again = Throw (SQLException "User with email bob@example.org already exists")
  /\ listed = Return [3%nat; 4%nat]
  /\ deleted = Return true
  /\ gone = Throw (SQLException "User with id 2 not found")
  /\ executed p = 2%nat.
Proof. by vm_compute. Qed.

(** X29: [undefined] and [null] give one key; the number 1 and the string
    ['1'] give two, and so do a statement and the statement that spells out
    the key of another call. *)
Lemma generateCacheKey_tells_calls_apart_witness :
  JS.generateCacheKey "SELECT ?" [JNum 1; JUndefined]
  = JS.generateCacheKey "SELECT ?" [JNum 1; JNull]
  /\ JS.generateCacheKey "SELECT ?" [JNum 1] <> JS.generateCacheKey "SELECT ?" [JStr "1"]
  /\ JS.generateCacheKey "SELECT ?:[1]" [] <> JS.generateCacheKey "SELECT ?" [JNum 1].
Proof.
  split; [| split].
  - by apply (generateCacheKey_tells_calls_apart "SELECT ?" [JNum 1; JUndefined]
                "SELECT ?" [JNum 1; JNull] eq_refl eq_refl).
  - intros H.
    by apply (generateCacheKey_tells_calls_apart "SELECT ?" [JNum 1]
                "SELECT ?" [JStr "1"] eq_refl eq_refl) in H as [_ H].
  - intros H.
    by apply (generateCacheKey_tells_calls_apart "SELECT ?:[1]" []
                "SELECT ?" [JNum 1] eq_refl eq_refl) in H as [H _].
Defined.
